(** * Threshold alerting engine of osx-cpu-monitor

    A shallow embedding of
    - [system_metrics/alerts/thresholds.py]         (module [Cpu]),
    - [system_metrics/alerts/network_thresholds.py] (module [Net]),
    - [system_metrics/realtime/events.py]           (module [Events]),
    - the alert list of [cli/display.py]            (module [Display]),
    followed by the properties of the alerting engine.

    Conventions of the embedding.
    - Python numbers are [pynum]: an [int] or a [float].  A float is a
      double, represented by the rational it denotes; divisions, sums
      and [round] give the double nearest to the exact result, and
      [str] and [.2f] print the double as CPython does.  The readings
      of the clock are compared and subtracted as rationals.
    - [time.time()] is an input of every function that reads the clock.
    - A Python [dict] is a [gmap]; what is lost is the insertion order,
      which only decides the order in which the alerts of one check are
      raised.
    - A call of [_generate_alert] is recorded as an [AlertCall] in the
      list every check returns; what the call publishes is computed from
      the record by [generate_alert]. *)

From Stdlib Require Import QArith Qabs Lqa ZArith Lia.
From Stdlib Require Import String Ascii List DecimalString.
From stdpp Require Import gmap strings.

Local Open Scope Q_scope.

(** ** Numbers *)

Inductive pynum : Type :=
| PyInt (z : Z)
| PyFloat (q : Q)
| PyNegZero.

Definition num_val (n : pynum) : Q :=
  match n with
  | PyInt z => inject_Z z
  | PyFloat q => q
  | PyNegZero => 0
  end.

Coercion num_val : pynum >-> Q.

(** [a >= b] and [a <= b] on numbers. *)
Definition ge_bool (a b : Q) : bool := Qle_bool b a.
Definition le_bool (a b : Q) : bool := Qle_bool a b.
Definition gt_bool (a b : Q) : bool := negb (Qle_bool a b).

(** ** Data model ([thresholds.py], lines 18-54) *)

Inductive AlertSeverity : Type := INFO | WARNING | CRITICAL.

Section DataModel.

(** The enumeration of alert types: [AlertType] for the CPU monitor,
    [NetworkAlertType] for the network monitor. *)
Context {AT : Type}.

Record ThresholdConfig : Type := mkConfig {
  threshold : pynum;
  duration_seconds : Q;
  severity : AlertSeverity;
  alert_type : AT;
  alert_message : string;
  check_interval : Q;
  cooldown_minutes : Q
}.

(** The defaults of the dataclass: [check_interval = 5.0],
    [cooldown_minutes = 10.0]. *)
Definition new_config (th : pynum) (dur : Q) (sev : AlertSeverity)
    (ty : AT) (msg : string) : ThresholdConfig :=
  mkConfig th dur sev ty msg 5 10.

Record AlertState : Type := mkState {
  config : ThresholdConfig;
  exceeded_since : option Q;
  last_alert_time : Q;
  current_value : pynum;
  is_active : bool
}.

(** [AlertState(config=c)]. *)
Definition new_state (c : ThresholdConfig) : AlertState :=
  mkState c None 0 (PyInt 0) false.

Definition set_current_value (v : pynum) (s : AlertState) : AlertState :=
  mkState (config s) (exceeded_since s) (last_alert_time s) v (is_active s).

Definition set_exceeded_since (e : option Q) (s : AlertState) : AlertState :=
  mkState (config s) e (last_alert_time s) (current_value s) (is_active s).

Definition set_last_alert_time (t : Q) (s : AlertState) : AlertState :=
  mkState (config s) (exceeded_since s) t (current_value s) (is_active s).

Definition set_is_active (b : bool) (s : AlertState) : AlertState :=
  mkState (config s) (exceeded_since s) (last_alert_time s) (current_value s) b.

(** The keyword arguments a check passes to [_generate_alert] next to the
    state. *)
Record AlertContext : Type := mkContext {
  ctx_core_id : option Z;
  ctx_pid : option Z;
  ctx_process_name : option string;
  ctx_interface_name : option string
}.

Definition no_context : AlertContext := mkContext None None None None.

(** One call [_generate_alert(state, ...)]: the state as it is when the
    call is made, and the keyword arguments. *)
Record AlertCall : Type := mkCall {
  call_state : AlertState;
  call_context : AlertContext
}.

(** *** The per-state check

    The block below is written out at every place a state is checked:
    [thresholds.py] lines 346-370, 401-422, 461-482 and 541-559,
    [network_thresholds.py] lines 411-444, 487-502, 508-523 and 559-574.
    The copies differ in the configuration they read ([state.config],
    or the registry entry in [_check_sustained_load]), in the keyword
    arguments of [_generate_alert], and in the comparison: [>=]
    everywhere but for the name ["wifi_signal_low"] in
    [NetworkThresholdMonitor._check_threshold], where it is [<=]. *)

Definition threshold_exceeded (inverted : bool) (cfg : ThresholdConfig)
    (v : pynum) : bool :=
  if inverted then le_bool v (threshold cfg) else ge_bool v (threshold cfg).

Definition evaluate (inverted : bool) (cfg : ThresholdConfig)
    (ctx : AlertContext) (state : AlertState) (current_time : Q)
    (v : pynum) : AlertState * list AlertCall :=
  let state := set_current_value v state in
  if threshold_exceeded inverted cfg v then
    let state :=
      match exceeded_since state with
      | None => set_exceeded_since (Some current_time) state
      | Some _ => state
      end in
    let time_exceeded :=
      current_time - match exceeded_since state with
                     | Some t => t
                     | None => current_time
                     end in
    if ge_bool time_exceeded (duration_seconds cfg)
       && negb (is_active state) then
      if ge_bool (current_time - last_alert_time state)
                 (cooldown_minutes cfg * 60) then
        (set_is_active true (set_last_alert_time current_time state),
         [mkCall state ctx])
      else (state, [])
    else (state, [])
  else
    (set_is_active false (set_exceeded_since None state), []).

(** A state checked on a sequence of ticks, each a clock reading and an
    observed value; the calls of [_generate_alert] are collected in
    order. *)
Fixpoint run (inverted : bool) (cfg : ThresholdConfig) (ctx : AlertContext)
    (state : AlertState) (ticks : list (Q * pynum))
    : AlertState * list AlertCall :=
  match ticks with
  | [] => (state, [])
  | (t, v) :: rest =>
      let '(state', calls) := evaluate inverted cfg ctx state t v in
      let '(state'', calls') := run inverted cfg ctx state' rest in
      (state'', calls ++ calls')
  end.

(** A tick that observes a breach, and one that observes a recovery. *)
Definition breaching (inverted : bool) (cfg : ThresholdConfig)
    (tick : Q * pynum) : Prop :=
  threshold_exceeded inverted cfg tick.2 = true.

Definition recovering (inverted : bool) (cfg : ThresholdConfig)
    (tick : Q * pynum) : Prop :=
  threshold_exceeded inverted cfg tick.2 = false.

(** The clock reading a breach episode is measured from when it is
    checked at [t]: that of its first tick. *)
Definition episode_start (t : Q) (episode : list (Q * pynum)) : Q :=
  match episode with
  | [] => t
  | first :: _ => first.1
  end.

(** The invariant of the data model: an active alert has a breach start. *)
Definition state_ok (s : AlertState) : Prop :=
  is_active s = true -> exceeded_since s <> None.

End DataModel.

Arguments ThresholdConfig : clear implicits.
Arguments AlertState : clear implicits.
Arguments AlertCall : clear implicits.

(** ** Floating-point numbers

    A [float] is a binary64 double: [PyFloat q] with [q] the rational the
    double denotes, [PyNegZero] for [-0.0].  The result of an operation
    on floats is the double nearest to the exact result, ties to the even
    significand; an [int] is converted by the same rounding.  Results
    beyond the largest double (an infinity, or [OverflowError] for an
    [int]) and [nan] are outside the model. *)

Definition pow (b e : Z) : Q :=
  if (0 <=? e)%Z then inject_Z (b ^ e) else / inject_Z (b ^ (- e)).

(** [floor (log_b q)] for [0 < q]: an estimate, corrected by
    comparison. *)
Fixpoint adjust_log (fuel : nat) (b : Z) (q : Q) (k : Z) : Z :=
  match fuel with
  | O => k
  | S fuel' =>
      if Qle_bool (pow b (k + 1)) q then adjust_log fuel' b q (k + 1)
      else if Qle_bool (pow b k) q then k
      else adjust_log fuel' b q (k - 1)
  end.

Definition log2_floor (q : Q) : Z :=
  adjust_log 4 2 q (Z.log2 (Qnum q) - Z.log2 (Zpos (Qden q))).

Definition log10_floor (q : Q) : Z :=
  adjust_log 4 10 q ((log2_floor q * 30103) / 100000).

(** [q] scaled by [10^k] and rounded to the nearest integer, ties to the
    even one. *)
Definition round_scaled (k : nat) (q : Q) : Z :=
  let a := (Qnum q * 10 ^ Z.of_nat k)%Z in
  let b := Zpos (Qden q) in
  let f := (a / b)%Z in
  let r := (2 * (a mod b))%Z in
  if (r <? b)%Z then f
  else if (b <? r)%Z then (f + 1)%Z
  else if Z.even f then f else (f + 1)%Z.

(** The double nearest to [q]: a significand of 53 bits, the least
    exponent [-1074]; [q] itself when it is a double. *)
Definition rnd (q : Q) : Q :=
  if Qeq_bool q 0 then q
  else
    let a := Qabs q in
    let e := Z.max (log2_floor a - 52) (-1074) in
    let m := round_scaled 0 (a / pow 2 e) in
    let r := (if Qle_bool 0 q then 1 else -1) * inject_Z m * pow 2 e in
    if Qeq_bool r q then q else Qred r.

(** The float of value [q]; [negative] is the sign a zero gets. *)
Definition to_float (negative : bool) (q : Q) : pynum :=
  let r := rnd q in
  if Qeq_bool r 0 then (if negative then PyNegZero else PyFloat 0)
  else PyFloat r.

Definition is_negative (n : pynum) : bool :=
  match n with
  | PyInt z => (z <? 0)%Z
  | PyFloat q => negb (Qle_bool 0 q)
  | PyNegZero => true
  end.

Definition is_neg_zero (n : pynum) : bool :=
  match n with
  | PyNegZero => true
  | _ => false
  end.

(** [float(n)] as a rational. *)
Definition float_val (n : pynum) : Q :=
  match n with
  | PyInt z => rnd (inject_Z z)
  | PyFloat q => q
  | PyNegZero => 0
  end.

(** [a + b]: an [int] only when both operands are; a zero sum is [-0.0]
    only when both operands are. *)
Definition py_add (a b : pynum) : pynum :=
  match a, b with
  | PyInt x, PyInt y => PyInt (x + y)
  | _, _ => to_float (is_neg_zero a && is_neg_zero b)
                     (float_val a + float_val b)
  end.

(** [a / b] for an [int] [b > 0]: the quotient of two [int]s is rounded
    once. *)
Definition py_truediv (a : pynum) (b : Z) : pynum :=
  match a with
  | PyInt x => to_float (x <? 0)%Z (inject_Z x / inject_Z b)
  | _ => to_float (is_negative a) (float_val a / rnd (inject_Z b))
  end.

(** [round(n, 1)]: an [int] is returned as it is; a [float] is rounded to
    the nearest tenth, ties to the even one, and the result is the double
    nearest to that. *)
Definition round1 (n : pynum) : pynum :=
  match n with
  | PyInt z => PyInt z
  | PyFloat q => to_float (negb (Qle_bool 0 q))
                          (inject_Z (round_scaled 1 q) / 10)
  | PyNegZero => PyNegZero
  end.

(** ** Rendering of numbers and templates *)

Definition str_int (z : Z) : string :=
  NilEmpty.string_of_int (Z.to_int z).

Fixpoint zeros (n : nat) : string :=
  match n with
  | O => EmptyString
  | S n' => String "0" (zeros n')
  end.

Definition digit (d : Z) : string :=
  String (ascii_of_nat (48 + Z.to_nat (d mod 10))) EmptyString.

(** The last [k] decimal digits of [m]. *)
Fixpoint digits (k : nat) (m : Z) : string :=
  match k with
  | O => EmptyString
  | S k' => (digits k' (m / 10) ++ digit m)%string
  end.

(** The numeral of [m / 10^k] for [0 <= m], with exactly [k] fractional
    digits. *)
Definition str_fixed (k : nat) (negative : bool) (m : Z) : string :=
  ((if negative then "-" else EmptyString)
   ++ str_int (m / 10 ^ Z.of_nat k) ++ "." ++ digits k m)%string.

(** [f"{x:.2f}"] for a float [x]. *)
Definition format_2f (x : pynum) : string :=
  str_fixed 2 (is_negative x) (round_scaled 2 (Qabs (float_val x))).

(** [repr] of a float.  The shortest decimal that reads back as the
    double [a], for [0 < a], and among the shortest the nearest: its
    digits as an integer without trailing zero, and the exponent of its
    last digit. *)
Fixpoint strip_zeros (fuel : nat) (n e : Z) : Z * Z :=
  match fuel with
  | O => (n, e)
  | S fuel' =>
      if ((n mod 10 =? 0) && negb (n =? 0))%Z
      then strip_zeros fuel' (n / 10) (e + 1)
      else (n, e)
  end.

Fixpoint shortest (fuel : nat) (p : Z) (a : Q) : Z * Z :=
  let e := (log10_floor a - (p - 1))%Z in
  let s := a / pow 10 e in
  let lo := (Qnum s / Zpos (Qden s))%Z in
  let hi := (lo + 1)%Z in
  let reads n := Qeq_bool (rnd (inject_Z n * pow 10 e)) a in
  let nearest := round_scaled 0 s in
  match fuel with
  | O => (nearest, e)
  | S fuel' =>
      if reads lo && reads hi then (nearest, e)
      else if reads lo then (lo, e)
      else if reads hi then (hi, e)
      else shortest fuel' (p + 1) a
  end.

Definition shortest_digits (a : Q) : Z * Z :=
  let r := shortest 16 1 a in strip_zeros 20 r.1 r.2.

(** Fixed notation while the decimal point is at most 16 places right
    and less than 4 places left of the first digit, exponent notation
    beyond. *)
Definition repr_pos (a : Q) : string :=
  let r := shortest_digits a in
  let ds := str_int r.1 in
  let nd := Z.of_nat (String.length ds) in
  let decpt := (r.2 + nd)%Z in
  if ((decpt <=? -4) || (16 <? decpt))%Z then
    let x := (decpt - 1)%Z in
    (String.substring 0 1 ds
     ++ (if (1 <? nd)%Z
         then "." ++ String.substring 1 (String.length ds - 1) ds
         else EmptyString)
     ++ "e" ++ (if (x <? 0)%Z then "-" else "+")
     ++ (if (Z.abs x <? 10)%Z then "0" else EmptyString)
     ++ str_int (Z.abs x))%string
  else if (decpt <=? 0)%Z then
    ("0." ++ zeros (Z.to_nat (- decpt)) ++ ds)%string
  else if (nd <=? decpt)%Z then
    (ds ++ zeros (Z.to_nat (decpt - nd)) ++ ".0")%string
  else
    (String.substring 0 (Z.to_nat decpt) ds ++ "."
     ++ String.substring (Z.to_nat decpt)
                         (String.length ds - Z.to_nat decpt) ds)%string.

Definition str_float (q : Q) : string :=
  let x := rnd q in
  if Qeq_bool x 0 then "0.0"
  else if Qle_bool 0 x then repr_pos x
  else ("-" ++ repr_pos (- x))%string.

(** [str] of a number. *)
Definition str_num (n : pynum) : string :=
  match n with
  | PyInt z => str_int z
  | PyFloat q => str_float q
  | PyNegZero => "-0.0"
  end.

(** [s.replace(old, new)]: every occurrence of [old], left to right and
    without overlap.  [skip] counts the characters of a match still to be
    dropped. *)
Fixpoint replace_from (old new : string) (skip : nat) (s : string) : string :=
  match s with
  | EmptyString => EmptyString
  | String c s' =>
      match skip with
      | S k => replace_from old new k s'
      | O =>
          if String.prefix old s
          then (new ++ replace_from old new (String.length old - 1) s')%string
          else String c (replace_from old new O s')
      end
  end.

Fixpoint intersperse (new s : string) : string :=
  match s with
  | EmptyString => new
  | String c s' => (new ++ String c (intersperse new s'))%string
  end.

Definition replace (old new s : string) : string :=
  match old with
  | EmptyString => intersperse new s
  | _ => replace_from old new O s
  end.

(** The loop over [format_vars]: a variable that is [None] is skipped, the
    others replace ["{name}"] in turn. *)
Fixpoint substitute (vars : list (string * option string)) (message : string)
    : string :=
  match vars with
  | [] => message
  | (var_name, None) :: rest => substitute rest message
  | (var_name, Some var_value) :: rest =>
      substitute rest (replace ("{" ++ var_name ++ "}") var_value message)
  end.

(** [time.time() - (state.exceeded_since or time.time())]: [or] takes its
    right operand when the left one is [None] or [0.0]. *)
Definition exceeded_duration {AT} (now : Q) (state : AlertState AT) : Q :=
  now - match exceeded_since state with
        | Some t => if Qeq_bool t 0 then now else t
        | None => now
        end.

(** [round(exceeded_duration / 60, 1)]. *)
Definition minutes {AT} (now : Q) (state : AlertState AT) : pynum :=
  round1 (py_truediv (PyFloat (exceeded_duration now state)) 60).

(** ** Events ([realtime/events.py]) *)

Inductive MetricUpdateEvent : Type :=
| METRICS_UPDATED
| COLLECTION_ERROR
| CPU_OVERALL_UPDATED
| CPU_CORES_UPDATED
| CPU_PROCESSES_UPDATED
| MEMORY_UPDATED
| DISK_UPDATED
| PERFORMANCE_ALERT
| THRESHOLD_EXCEEDED.

#[global] Instance MetricUpdateEvent_eq_dec : EqDecision MetricUpdateEvent.
Proof. solve_decision. Defined.

(** The [data] dictionary of an alert event, one field per key. *)
Record AlertData : Type := mkData {
  data_threshold : pynum;
  data_current_value : pynum;
  data_duration_seconds : Q;
  data_alert_type : string;
  data_severity : string;
  data_core_id : option Z;
  data_pid : option Z;
  data_process_name : option string;
  data_interface_name : option string
}.

Record MetricEvent : Type := mkEvent {
  event_type : MetricUpdateEvent;
  timestamp : Q;
  source : string;
  data : option AlertData;
  message : string
}.

Definition severity_name (s : AlertSeverity) : string :=
  match s with
  | INFO => "INFO"
  | WARNING => "WARNING"
  | CRITICAL => "CRITICAL"
  end.

(** ** Operations shared by the two monitors *)

Section Checks.

Context {AT : Type}.

(** The loop [for name, state in states.items()] with the per-state
    check as its body, all states reading their own [state.config]. *)
Definition evaluate_all (ctx : AlertContext) (current_time : Q) (v : pynum)
    (states : gmap string (AlertState AT))
    : gmap string (AlertState AT) * list (AlertCall AT) :=
  ((fun st => fst (evaluate false (config st) ctx st current_time v))
     <$> states,
   flat_map
     (fun p => snd (evaluate false (config p.2) ctx p.2 current_time v))
     (map_to_list states)).

(** [any(state.is_active for state in states.values())]. *)
Definition any_active (states : gmap string (AlertState AT)) : bool :=
  existsb (fun p => is_active p.2) (map_to_list states).

(** The history of [(timestamp, value)] pairs: the entries not older
    than [cutoff], and [sum(val for _, val in data) / len(data)], the sum
    taken from the [int] 0 in the order of the list. *)
Definition since (cutoff : Q) (history : list (Q * pynum))
    : list (Q * pynum) :=
  List.filter (fun p => ge_bool p.1 cutoff) history.

Definition total (data : list (Q * pynum)) : pynum :=
  fold_left (fun acc p => py_add acc p.2) data (PyInt 0).

Definition mean (data : list (Q * pynum)) : pynum :=
  py_truediv (total data) (Z.of_nat (length data)).

(** Lines 522-539 of [thresholds.py], 652-669 of
    [network_thresholds.py]: the value the sustained check works on. *)
Definition five_min_avg (current_time : Q) (history : list (Q * pynum))
    : pynum :=
  let five_min_data := since (current_time - 300) history in
  match five_min_data with
  | [] => PyInt 0
  | _ => mean five_min_data
  end.

Definition ten_min_avg (current_time : Q) (history : list (Q * pynum))
    : pynum :=
  let ten_min_data := since (current_time - 600) history in
  match ten_min_data with
  | [] => PyInt 0
  | _ =>
      if (10 <=? length ten_min_data)%nat
      then mean ten_min_data
      else PyInt 0
  end.

Definition sustained_value (current_time : Q) (history : list (Q * pynum))
    : pynum :=
  if gt_bool (ten_min_avg current_time history) 0
  then ten_min_avg current_time history
  else five_min_avg current_time history.

(** [history.append((current_time, v))] followed by the trim to the
    retention window. *)
Definition record_history (window current_time : Q) (v : pynum)
    (history : list (Q * pynum)) : list (Q * pynum) :=
  since (current_time - window) (history ++ [(current_time, v)]).

End Checks.

(** ** The CPU monitor ([alerts/thresholds.py]) *)

Module Cpu.

Inductive AlertType : Type :=
| CPU_USAGE_HIGH
| CPU_USAGE_VERY_HIGH
| CPU_CORE_USAGE_HIGH
| CPU_USAGE_SUSTAINED
| CPU_TEMPERATURE_HIGH
| PROCESS_CPU_USAGE_HIGH.

Definition alert_type_name (a : AlertType) : string :=
  match a with
  | CPU_USAGE_HIGH => "CPU_USAGE_HIGH"
  | CPU_USAGE_VERY_HIGH => "CPU_USAGE_VERY_HIGH"
  | CPU_CORE_USAGE_HIGH => "CPU_CORE_USAGE_HIGH"
  | CPU_USAGE_SUSTAINED => "CPU_USAGE_SUSTAINED"
  | CPU_TEMPERATURE_HIGH => "CPU_TEMPERATURE_HIGH"
  | PROCESS_CPU_USAGE_HIGH => "PROCESS_CPU_USAGE_HIGH"
  end.

Record Monitor : Type := mkMonitor {
  thresholds : gmap string (ThresholdConfig AlertType);
  core_thresholds : gmap Z (gmap string (ThresholdConfig AlertType));
  process_thresholds : gmap string (ThresholdConfig AlertType);
  alert_states : gmap string (AlertState AlertType);
  core_alert_states : gmap Z (gmap string (AlertState AlertType));
  process_alert_states : gmap Z (gmap string (AlertState AlertType));
  cpu_history : list (Q * pynum);
  history_window : Q;
  running : bool
}.

(** What the monitor reads from [cpu_monitor]: [core.get("core_id")],
    [core.get("usage", 0.0)]; [proc.get("pid")],
    [proc.get("cpu_percent", 0.0)], [proc.get("command", "unknown")].
    A key that is missing is [None]. *)
Record CoreStat : Type := mkCore {
  core_id : option Z;
  usage : option pynum
}.

Record Process : Type := mkProcess {
  pid : option Z;
  cpu_percent : option pynum;
  command : option string
}.

(** [__init__]. *)
Definition cpu_usage_high_config : (ThresholdConfig AlertType) :=
  new_config (PyFloat 80) 60 WARNING CPU_USAGE_HIGH
    "CPU usage has been above {threshold}% for {duration} minutes".

Definition cpu_usage_very_high_config : (ThresholdConfig AlertType) :=
  new_config (PyFloat 90) 30 CRITICAL CPU_USAGE_VERY_HIGH
    "CPU usage is critically high at {value}%, exceeding {threshold}%".

Definition cpu_usage_sustained_config : (ThresholdConfig AlertType) :=
  new_config (PyFloat 70) 600 WARNING CPU_USAGE_SUSTAINED
    "CPU has been under sustained load (>{threshold}%) for {duration} minutes".

Definition default_thresholds : gmap string (ThresholdConfig AlertType) :=
  <["cpu_usage_high" := cpu_usage_high_config]>
  (<["cpu_usage_very_high" := cpu_usage_very_high_config]>
  (<["cpu_usage_sustained" := cpu_usage_sustained_config]>
   ∅)).

Definition process_cpu_high_config : (ThresholdConfig AlertType) :=
  new_config (PyFloat 50) 120 WARNING PROCESS_CPU_USAGE_HIGH
    "Process {process_name} (PID {pid}) has been using >{threshold}% CPU for {duration} minutes".

Definition default_process_thresholds
    : gmap string (ThresholdConfig AlertType) :=
  <["process_cpu_high" := process_cpu_high_config]>
  ∅.

Definition init : Monitor :=
  mkMonitor default_thresholds ∅ default_process_thresholds
            ∅ ∅ ∅ [] 3600 false.

Definition with_alert_states (m : Monitor)
    (s : gmap string (AlertState AlertType))
    : Monitor :=
  mkMonitor (thresholds m) (core_thresholds m) (process_thresholds m)
            s (core_alert_states m) (process_alert_states m)
            (cpu_history m) (history_window m) (running m).

Definition with_process_alert_states (m : Monitor)
    (s : gmap Z (gmap string (AlertState AlertType))) : Monitor :=
  mkMonitor (thresholds m) (core_thresholds m) (process_thresholds m)
            (alert_states m) (core_alert_states m) s
            (cpu_history m) (history_window m) (running m).

Definition with_running (m : Monitor) (b : bool) : Monitor :=
  mkMonitor (thresholds m) (core_thresholds m) (process_thresholds m)
            (alert_states m) (core_alert_states m) (process_alert_states m)
            (cpu_history m) (history_window m) b.

(** [set_threshold].  [alert_message or default_message] and
    [if alert_message:] take a message that is [None] or empty as
    absent. *)
Definition given (alert_message : option string) : option string :=
  match alert_message with
  | Some EmptyString => None
  | other => other
  end.

Definition infer_alert_type (name : string) : AlertType :=
  if String.prefix "cpu_" name then CPU_USAGE_HIGH
  else if String.prefix "process_" name then PROCESS_CPU_USAGE_HIGH
  else CPU_USAGE_HIGH.

Definition set_threshold (m : Monitor) (name : string) (th : pynum)
    (dur : Q) (sev : AlertSeverity) (msg : option string) : Monitor :=
  let thresholds' :=
    match thresholds m !! name with
    | None =>
        <[name := new_config th dur sev (infer_alert_type name)
                    (default "Threshold {threshold}% exceeded for {duration} minutes"
                             (given msg))]>
          (thresholds m)
    | Some cfg =>
        <[name := mkConfig th dur sev (alert_type cfg)
                    (default (alert_message cfg) (given msg))
                    (check_interval cfg) (cooldown_minutes cfg)]>
          (thresholds m)
    end in
  let alert_states' :=
    match alert_states m !! name, thresholds' !! name with
    | Some _, Some cfg => <[name := new_state cfg]> (alert_states m)
    | _, _ => alert_states m
    end in
  mkMonitor thresholds' (core_thresholds m) (process_thresholds m)
            alert_states' (core_alert_states m) (process_alert_states m)
            (cpu_history m) (history_window m) (running m).

(** [_initialize_core_thresholds]. *)
Definition core_usage_high_config : (ThresholdConfig AlertType) :=
  new_config (PyFloat 90) 60 WARNING CPU_CORE_USAGE_HIGH
    "Core {core_id} usage has been above {threshold}% for {duration} minutes".

Definition default_core_thresholds : gmap string (ThresholdConfig AlertType) :=
  <["core_usage_high" := core_usage_high_config]>
  ∅.

Definition initialize_core_thresholds (m : Monitor) (id : Z) : Monitor :=
  match core_thresholds m !! id with
  | Some _ => m
  | None =>
      mkMonitor (thresholds m)
                (<[id := default_core_thresholds]> (core_thresholds m))
                (process_thresholds m) (alert_states m)
                (<[id := new_state <$> default_core_thresholds]>
                   (core_alert_states m))
                (process_alert_states m)
                (cpu_history m) (history_window m) (running m)
  end.

(** [_initialize_alert_states]; [core_stats] is what
    [_get_core_stats()] returns. *)
Definition initialize_alert_states (m : Monitor) (core_stats : list CoreStat)
    : Monitor :=
  let m := with_alert_states m
             ((new_state <$> thresholds m) ∪ alert_states m) in
  fold_left
    (fun m core =>
       match core_id core with
       | Some id => initialize_core_thresholds m id
       | None => m
       end)
    core_stats m.

(** [start] and [stop], without the thread they start and join. *)
Definition start (m : Monitor) (core_stats : list CoreStat) : Monitor :=
  if running m then m
  else with_running (initialize_alert_states m core_stats) true.

Definition stop (m : Monitor) : Monitor := with_running m false.

Definition with_core_alert_states (m : Monitor)
    (s : gmap Z (gmap string (AlertState AlertType))) : Monitor :=
  mkMonitor (thresholds m) (core_thresholds m) (process_thresholds m)
            (alert_states m) s (process_alert_states m)
            (cpu_history m) (history_window m) (running m).

Definition with_cpu_history (m : Monitor) (h : list (Q * pynum)) : Monitor :=
  mkMonitor (thresholds m) (core_thresholds m) (process_thresholds m)
            (alert_states m) (core_alert_states m) (process_alert_states m)
            h (history_window m) (running m).

(** [_check_cpu_thresholds].  [cpu_usage] is the reading obtained from
    [cpu_monitor], [None] when obtaining it raised: the [except] clause
    then leaves the monitor as it is. *)
Definition check_named (current_time : Q) (cpu_usage : pynum)
    (name : string) (state : AlertState AlertType)
    : AlertState AlertType * list (AlertCall AlertType) :=
  if String.prefix "cpu_" name
  then evaluate false (config state) no_context state current_time cpu_usage
  else (state, []).

Definition check_cpu_thresholds (m : Monitor) (current_time : Q)
    (cpu_usage : option pynum) : Monitor * list (AlertCall AlertType) :=
  match cpu_usage with
  | None => (m, [])
  | Some cpu_usage =>
      let m := with_cpu_history m
                 (record_history (history_window m) current_time cpu_usage
                                 (cpu_history m)) in
      (with_alert_states m
         (map_imap
            (fun name state =>
               Some (fst (check_named current_time cpu_usage name state)))
            (alert_states m)),
       flat_map
         (fun p => snd (check_named current_time cpu_usage p.1 p.2))
         (map_to_list (alert_states m)))
  end.

(** [_check_core_thresholds]: the body of the second loop, then the whole
    function. *)
Definition check_core (current_time : Q)
    (acc : Monitor * list (AlertCall AlertType))
    (core : CoreStat) : Monitor * list (AlertCall AlertType) :=
  match core_id core with
  | None => acc
  | Some id =>
      match core_alert_states acc.1 !! id with
      | None => acc
      | Some states =>
          let core_usage := default (PyFloat 0) (usage core) in
          let r := evaluate_all (mkContext (Some id) None None None)
                                current_time core_usage states in
          (with_core_alert_states acc.1
             (<[id := r.1]> (core_alert_states acc.1)),
           acc.2 ++ r.2)
      end
  end.

Definition ensure_core (m : Monitor) (core : CoreStat) : Monitor :=
  match core_id core with
  | Some id => initialize_core_thresholds m id
  | None => m
  end.

Definition check_core_thresholds (m : Monitor) (current_time : Q)
    (core_stats : list CoreStat) : Monitor * list (AlertCall AlertType) :=
  match core_stats with
  | [] => (m, [])
  | _ =>
      fold_left (check_core current_time) core_stats
                (fold_left ensure_core core_stats m, [])
  end.

(** [_check_process_thresholds]: the body of the loop over the processes,
    the clean-up, then the whole function.  [processes] is [None] when
    [cpu_monitor] has no [get_top_processes]. *)
Record ProcessLoop : Type := mkLoop {
  loop_states : gmap Z (gmap string (AlertState AlertType));
  seen_pids : gset Z;
  loop_calls : list (AlertCall AlertType)
}.

Definition check_process
    (process_thresholds : gmap string (ThresholdConfig AlertType))
    (current_time : Q) (acc : ProcessLoop) (proc : Process) : ProcessLoop :=
  match pid proc with
  | None => acc
  | Some p =>
      let cpu_percent := default (PyFloat 0) (cpu_percent proc) in
      let command := default "unknown" (command proc) in
      let states :=
        match loop_states acc !! p with
        | Some states => states
        | None => new_state <$> process_thresholds
        end in
      let r := evaluate_all (mkContext None (Some p) (Some command) None)
                            current_time cpu_percent states in
      mkLoop (<[p := r.1]> (loop_states acc))
             ({[p]} ∪ seen_pids acc)
             (loop_calls acc ++ r.2)
  end.

Definition pids_to_remove (seen : gset Z)
    (states : gmap Z (gmap string (AlertState AlertType))) : list Z :=
  (List.filter
     (fun e => negb (bool_decide (e.1 ∈ seen)) && negb (any_active e.2))
     (map_to_list states)).*1.

Definition clean_up (seen : gset Z)
    (states : gmap Z (gmap string (AlertState AlertType)))
    : gmap Z (gmap string (AlertState AlertType)) :=
  fold_right delete states (pids_to_remove seen states).

Definition check_process_thresholds (m : Monitor) (current_time : Q)
    (processes : option (list Process))
    : Monitor * list (AlertCall AlertType) :=
  match processes with
  | None => (m, [])
  | Some [] => (m, [])
  | Some processes =>
      let r := fold_left (check_process (process_thresholds m) current_time)
                         processes
                         (mkLoop (process_alert_states m) ∅ []) in
      (with_process_alert_states m (clean_up (seen_pids r) (loop_states r)),
       loop_calls r)
  end.

(** [_check_sustained_load]. *)
Definition check_sustained_load (m : Monitor) (current_time : Q)
    : Monitor * list (AlertCall AlertType) :=
  if (length (cpu_history m) <? 10)%nat then (m, [])
  else
    match thresholds m !! "cpu_usage_sustained" with
    | None => (m, [])
    | Some sustained_config =>
        match alert_states m !! "cpu_usage_sustained" with
        | None => (m, [])
        | Some sustained_state =>
            let r := evaluate false sustained_config no_context
                       sustained_state current_time
                       (sustained_value current_time (cpu_history m)) in
            (with_alert_states m
               (<["cpu_usage_sustained" := r.1]> (alert_states m)),
             r.2)
        end
    end.

(** One round of [_check_loop]: the four checks in order, each with its
    own reading of the source and of the clock. *)
Record Snapshot : Type := mkSnapshot {
  cpu_time : Q;
  cpu_usage : option pynum;
  core_time : Q;
  core_stats : list CoreStat;
  process_time : Q;
  processes : option (list Process);
  sustained_time : Q
}.

Definition check_once (m : Monitor) (s : Snapshot)
    : Monitor * list (AlertCall AlertType) :=
  let r1 := check_cpu_thresholds m (cpu_time s) (cpu_usage s) in
  let r2 := check_core_thresholds r1.1 (core_time s) (core_stats s) in
  let r3 := check_process_thresholds r2.1 (process_time s) (processes s) in
  let r4 := check_sustained_load r3.1 (sustained_time s) in
  (r4.1, r1.2 ++ r2.2 ++ r3.2 ++ r4.2).

(** [_format_alert_message]; [now] is its reading of the clock. *)
Definition format_alert_message (now : Q) (state : AlertState AlertType)
    (ctx : AlertContext) : string :=
  substitute
    [("threshold", Some (str_num (threshold (config state))));
     ("value", Some (str_num (round1 (current_value state))));
     ("duration", Some (str_num (minutes now state)));
     ("core_id", str_int <$> ctx_core_id ctx);
     ("pid", str_int <$> ctx_pid ctx);
     ("process_name", ctx_process_name ctx)]
    (alert_message (config state)).

(** [_generate_alert]: the event handed to [publish_event].  The readings
    of the clock inside one call are taken to be the same [now]. *)
Definition generate_alert (now : Q) (call : AlertCall AlertType)
    : MetricEvent :=
  let state := call_state call in
  let ctx := call_context call in
  mkEvent THRESHOLD_EXCEEDED now "CPUThresholdMonitor"
    (Some (mkData (threshold (config state)) (current_value state)
                  (exceeded_duration now state)
                  (alert_type_name (alert_type (config state)))
                  (severity_name (severity (config state)))
                  (ctx_core_id ctx)
                  (ctx_pid ctx)
                  (match ctx_pid ctx with
                   | Some _ => Some (default "unknown"
                                             (given (ctx_process_name ctx)))
                   | None => None
                   end)
                  None))
    (format_alert_message now state ctx).

(** [get_active_alerts].  The three loops write into one dictionary, a
    later entry replacing an earlier one under the same key. *)
Record ActiveAlert : Type := mkActive {
  active_type : string;
  active_severity : string;
  active_threshold : pynum;
  active_current_value : pynum;
  active_core_id : option Z;
  active_pid : option Z;
  active_duration : Q;
  active_message : string
}.

Definition active_alert (now : Q) (ctx : AlertContext)
    (state : AlertState AlertType)
    : ActiveAlert :=
  mkActive (alert_type_name (alert_type (config state)))
           (severity_name (severity (config state)))
           (threshold (config state)) (current_value state)
           (ctx_core_id ctx) (ctx_pid ctx)
           (exceeded_duration now state)
           (format_alert_message now state ctx).

Definition scoped_alerts (now : Q) (prefix : string)
    (ctx : Z -> AlertContext)
    (scoped : gmap Z (gmap string (AlertState AlertType)))
    : list (string * ActiveAlert) :=
  flat_map
    (fun e =>
       flat_map
         (fun p =>
            if is_active p.2
            then [((prefix ++ str_int e.1 ++ "_" ++ p.1)%string,
                   active_alert now (ctx e.1) p.2)]
            else [])
         (map_to_list e.2))
    (map_to_list scoped).

Definition get_active_alerts (now : Q) (m : Monitor)
    : gmap string ActiveAlert :=
  list_to_map
    (scoped_alerts now "process_"
       (fun p => mkContext None (Some p) None None)
       (process_alert_states m))
  ∪ (list_to_map
       (scoped_alerts now "core_"
          (fun c => mkContext (Some c) None None None)
          (core_alert_states m))
     ∪ omap (fun state =>
               if is_active state
               then Some (active_alert now no_context state)
               else None)
            (alert_states m)).

(** The operations that change a monitor, and a monitor taken through a
    sequence of them from the outside: the public methods and the checks
    the background thread runs. *)
Inductive Operation : Type :=
| Start (core_stats : list CoreStat)
| Stop
| SetThreshold (name : string) (th : pynum) (dur : Q)
               (sev : AlertSeverity) (msg : option string)
| CheckCpu (current_time : Q) (cpu_usage : option pynum)
| CheckCore (current_time : Q) (core_stats : list CoreStat)
| CheckProcess (current_time : Q) (processes : option (list Process))
| CheckSustained (current_time : Q).

Definition perform (m : Monitor) (op : Operation)
    : Monitor * list (AlertCall AlertType) :=
  match op with
  | Start core_stats => (start m core_stats, [])
  | Stop => (stop m, [])
  | SetThreshold name th dur sev msg =>
      (set_threshold m name th dur sev msg, [])
  | CheckCpu current_time cpu_usage =>
      check_cpu_thresholds m current_time cpu_usage
  | CheckCore current_time core_stats =>
      check_core_thresholds m current_time core_stats
  | CheckProcess current_time processes =>
      check_process_thresholds m current_time processes
  | CheckSustained current_time => check_sustained_load m current_time
  end.

Fixpoint perform_all (m : Monitor) (ops : list Operation)
    : Monitor * list (AlertCall AlertType) :=
  match ops with
  | [] => (m, [])
  | op :: rest =>
      let r := perform m op in
      let r' := perform_all r.1 rest in
      (r'.1, r.2 ++ r'.2)
  end.

Definition is_start (op : Operation) : bool :=
  match op with
  | Start _ => true
  | _ => false
  end.

(** Every state the monitor tracks satisfies the invariant. *)
Definition monitor_ok (m : Monitor) : Prop :=
  map_Forall (fun _ => state_ok) (alert_states m)
  /\ map_Forall (fun _ => map_Forall (fun _ => state_ok))
                (core_alert_states m)
  /\ map_Forall (fun _ => map_Forall (fun _ => state_ok))
                (process_alert_states m).

Definition with_thresholds (m : Monitor)
    (t : gmap string (ThresholdConfig AlertType))
    : Monitor :=
  mkMonitor t (core_thresholds m) (process_thresholds m)
            (alert_states m) (core_alert_states m) (process_alert_states m)
            (cpu_history m) (history_window m) (running m).

(** Two monitors that differ at most in registry entries no alert state
    exists for. *)
Definition agree_on_tracked (m1 m2 : Monitor) : Prop :=
  m1 = with_thresholds m2 (thresholds m1)
  /\ forall name, is_Some (alert_states m2 !! name) ->
                  thresholds m1 !! name = thresholds m2 !! name.

End Cpu.

(** ** The network monitor ([alerts/network_thresholds.py]) *)

Module Net.

Inductive NetworkAlertType : Type :=
| BANDWIDTH_USAGE_HIGH
| BANDWIDTH_USAGE_VERY_HIGH
| DOWNLOAD_RATE_HIGH
| UPLOAD_RATE_HIGH
| TOTAL_BANDWIDTH_SUSTAINED
| CONNECTION_COUNT_HIGH
| INTERFACE_ERROR_RATE_HIGH
| PROCESS_BANDWIDTH_HIGH
| WIFI_SIGNAL_LOW.

Definition alert_type_name (a : NetworkAlertType) : string :=
  match a with
  | BANDWIDTH_USAGE_HIGH => "BANDWIDTH_USAGE_HIGH"
  | BANDWIDTH_USAGE_VERY_HIGH => "BANDWIDTH_USAGE_VERY_HIGH"
  | DOWNLOAD_RATE_HIGH => "DOWNLOAD_RATE_HIGH"
  | UPLOAD_RATE_HIGH => "UPLOAD_RATE_HIGH"
  | TOTAL_BANDWIDTH_SUSTAINED => "TOTAL_BANDWIDTH_SUSTAINED"
  | CONNECTION_COUNT_HIGH => "CONNECTION_COUNT_HIGH"
  | INTERFACE_ERROR_RATE_HIGH => "INTERFACE_ERROR_RATE_HIGH"
  | PROCESS_BANDWIDTH_HIGH => "PROCESS_BANDWIDTH_HIGH"
  | WIFI_SIGNAL_LOW => "WIFI_SIGNAL_LOW"
  end.

Record Monitor : Type := mkMonitor {
  thresholds : gmap string (ThresholdConfig NetworkAlertType);
  interface_thresholds :
    gmap string (gmap string (ThresholdConfig NetworkAlertType));
  process_thresholds : gmap string (ThresholdConfig NetworkAlertType);
  wifi_thresholds : gmap string (ThresholdConfig NetworkAlertType);
  alert_states : gmap string (AlertState NetworkAlertType);
  interface_alert_states :
    gmap string (gmap string (AlertState NetworkAlertType));
  process_alert_states :
    gmap string (gmap string (AlertState NetworkAlertType));
  wifi_alert_states : gmap string (AlertState NetworkAlertType);
  bandwidth_history : list (Q * pynum);
  history_window : Q;
  running : bool
}.

(** What the monitor reads from [network_monitor]; a key that is missing
    from a dictionary is [None]. *)
Record BandwidthUsage : Type := mkUsage {
  rx_bytes_per_sec : option pynum;
  tx_bytes_per_sec : option pynum
}.

Record Interface : Type := mkInterface {
  name : option string;
  status : option string;
  rx_bytes : option pynum;
  tx_bytes : option pynum;
  errors : option pynum
}.

Record Process : Type := mkProcess {
  process_name : option string;
  bandwidth : option pynum
}.

Record WifiInfo : Type := mkWifi {
  connected : option bool;
  signal_strength : option pynum
}.

Record ConnectionStats : Type := mkStats {
  total_connections : option pynum
}.

(** [__init__]. *)
Definition bandwidth_usage_high_config : (ThresholdConfig NetworkAlertType) :=
  new_config (PyInt 50000000) 60 WARNING BANDWIDTH_USAGE_HIGH
    "Network bandwidth usage has been above {threshold} bytes/s for {duration} minutes".

Definition download_rate_high_config : (ThresholdConfig NetworkAlertType) :=
  new_config (PyInt 40000000) 60 WARNING DOWNLOAD_RATE_HIGH
    "Download bandwidth has been above {threshold} bytes/s for {duration} minutes".

Definition upload_rate_high_config : (ThresholdConfig NetworkAlertType) :=
  new_config (PyInt 20000000) 60 WARNING UPLOAD_RATE_HIGH
    "Upload bandwidth has been above {threshold} bytes/s for {duration} minutes".

Definition bandwidth_usage_very_high_config :
    (ThresholdConfig NetworkAlertType) :=
  new_config (PyInt 80000000) 30 CRITICAL BANDWIDTH_USAGE_VERY_HIGH
    "Network bandwidth usage is critically high at {value} bytes/s, exceeding {threshold} bytes/s".

Definition bandwidth_usage_sustained_config :
    (ThresholdConfig NetworkAlertType) :=
  new_config (PyInt 10000000) 600 WARNING TOTAL_BANDWIDTH_SUSTAINED
    "Network has been under sustained load (>{threshold} bytes/s) for {duration} minutes".

Definition connection_count_high_config : (ThresholdConfig NetworkAlertType) :=
  new_config (PyInt 1000) 120 WARNING CONNECTION_COUNT_HIGH
    "Network connection count has been above {threshold} for {duration} minutes".

Definition default_thresholds
    : gmap string (ThresholdConfig NetworkAlertType) :=
  <["bandwidth_usage_high" := bandwidth_usage_high_config]>
  (<["download_rate_high" := download_rate_high_config]>
  (<["upload_rate_high" := upload_rate_high_config]>
  (<["bandwidth_usage_very_high" := bandwidth_usage_very_high_config]>
  (<["bandwidth_usage_sustained" := bandwidth_usage_sustained_config]>
  (<["connection_count_high" := connection_count_high_config]>
   ∅))))).

Definition process_bandwidth_high_config : (ThresholdConfig NetworkAlertType) :=
  new_config (PyInt 10000000) 120 WARNING PROCESS_BANDWIDTH_HIGH
    "Process {process_name} has been using >{threshold} bytes/s bandwidth for {duration} minutes".

Definition default_process_thresholds
    : gmap string (ThresholdConfig NetworkAlertType) :=
  <["process_bandwidth_high" := process_bandwidth_high_config]>
  ∅.

Definition wifi_signal_low_config : (ThresholdConfig NetworkAlertType) :=
  new_config (PyInt (-75)) 300 WARNING WIFI_SIGNAL_LOW
    "WiFi signal strength has been below {threshold} dBm for {duration} minutes".

Definition default_wifi_thresholds
    : gmap string (ThresholdConfig NetworkAlertType) :=
  <["wifi_signal_low" := wifi_signal_low_config]>
  ∅.

Definition init : Monitor :=
  mkMonitor default_thresholds ∅ default_process_thresholds
            default_wifi_thresholds ∅ ∅ ∅ ∅ [] 3600 false.

Definition with_alert_states (m : Monitor)
    (s : gmap string (AlertState NetworkAlertType))
    : Monitor :=
  mkMonitor (thresholds m) (interface_thresholds m) (process_thresholds m)
            (wifi_thresholds m) s (interface_alert_states m)
            (process_alert_states m) (wifi_alert_states m)
            (bandwidth_history m) (history_window m) (running m).

Definition with_interface_alert_states (m : Monitor)
    (s : gmap string (gmap string (AlertState NetworkAlertType))) : Monitor :=
  mkMonitor (thresholds m) (interface_thresholds m) (process_thresholds m)
            (wifi_thresholds m) (alert_states m) s
            (process_alert_states m) (wifi_alert_states m)
            (bandwidth_history m) (history_window m) (running m).

Definition with_process_alert_states (m : Monitor)
    (s : gmap string (gmap string (AlertState NetworkAlertType))) : Monitor :=
  mkMonitor (thresholds m) (interface_thresholds m) (process_thresholds m)
            (wifi_thresholds m) (alert_states m) (interface_alert_states m)
            s (wifi_alert_states m)
            (bandwidth_history m) (history_window m) (running m).

Definition with_wifi_alert_states (m : Monitor)
    (s : gmap string (AlertState NetworkAlertType))
    : Monitor :=
  mkMonitor (thresholds m) (interface_thresholds m) (process_thresholds m)
            (wifi_thresholds m) (alert_states m) (interface_alert_states m)
            (process_alert_states m) s
            (bandwidth_history m) (history_window m) (running m).

Definition with_bandwidth_history (m : Monitor) (h : list (Q * pynum))
    : Monitor :=
  mkMonitor (thresholds m) (interface_thresholds m) (process_thresholds m)
            (wifi_thresholds m) (alert_states m) (interface_alert_states m)
            (process_alert_states m) (wifi_alert_states m)
            h (history_window m) (running m).

Definition with_running (m : Monitor) (b : bool) : Monitor :=
  mkMonitor (thresholds m) (interface_thresholds m) (process_thresholds m)
            (wifi_thresholds m) (alert_states m) (interface_alert_states m)
            (process_alert_states m) (wifi_alert_states m)
            (bandwidth_history m) (history_window m) b.

(** [set_threshold]. *)
Definition given (alert_message : option string) : option string :=
  match alert_message with
  | Some EmptyString => None
  | other => other
  end.

Definition infer_alert_type (name : string) : NetworkAlertType :=
  if String.prefix "bandwidth_" name then BANDWIDTH_USAGE_HIGH
  else if String.prefix "download_" name then DOWNLOAD_RATE_HIGH
  else if String.prefix "upload_" name then UPLOAD_RATE_HIGH
  else if String.prefix "connection_" name then CONNECTION_COUNT_HIGH
  else if String.prefix "process_" name then PROCESS_BANDWIDTH_HIGH
  else if String.prefix "wifi_" name then WIFI_SIGNAL_LOW
  else BANDWIDTH_USAGE_HIGH.

Definition set_threshold (m : Monitor) (name : string) (th : pynum)
    (dur : Q) (sev : AlertSeverity) (msg : option string) : Monitor :=
  let thresholds' :=
    match thresholds m !! name with
    | None =>
        <[name := new_config th dur sev (infer_alert_type name)
                    (default "Network threshold {threshold} exceeded for {duration} minutes"
                             (given msg))]>
          (thresholds m)
    | Some cfg =>
        <[name := mkConfig th dur sev (alert_type cfg)
                    (default (alert_message cfg) (given msg))
                    (check_interval cfg) (cooldown_minutes cfg)]>
          (thresholds m)
    end in
  let alert_states' :=
    match alert_states m !! name, thresholds' !! name with
    | Some _, Some cfg => <[name := new_state cfg]> (alert_states m)
    | _, _ => alert_states m
    end in
  mkMonitor thresholds' (interface_thresholds m) (process_thresholds m)
            (wifi_thresholds m) alert_states' (interface_alert_states m)
            (process_alert_states m) (wifi_alert_states m)
            (bandwidth_history m) (history_window m) (running m).

(** [_initialize_interface_thresholds]. *)
Definition interface_bandwidth_high_config :
    (ThresholdConfig NetworkAlertType) :=
  new_config (PyInt 40000000) 60 WARNING BANDWIDTH_USAGE_HIGH
    "Interface {interface_name} usage has been above {threshold} bytes/s for {duration} minutes".

Definition interface_error_rate_high_config :
    (ThresholdConfig NetworkAlertType) :=
  new_config (PyInt 100) 300 WARNING INTERFACE_ERROR_RATE_HIGH
    "Interface {interface_name} has had more than {threshold} errors in the last {duration} minutes".

Definition default_interface_thresholds
    : gmap string (ThresholdConfig NetworkAlertType) :=
  <["interface_bandwidth_high" := interface_bandwidth_high_config]>
  (<["interface_error_rate_high" := interface_error_rate_high_config]>
   ∅).

Definition initialize_interface_thresholds (m : Monitor)
    (interface_name : string) : Monitor :=
  match interface_thresholds m !! interface_name with
  | Some _ => m
  | None =>
      mkMonitor (thresholds m)
                (<[interface_name := default_interface_thresholds]>
                   (interface_thresholds m))
                (process_thresholds m) (wifi_thresholds m) (alert_states m)
                (<[interface_name :=
                     new_state <$> default_interface_thresholds]>
                   (interface_alert_states m))
                (process_alert_states m) (wifi_alert_states m)
                (bandwidth_history m) (history_window m) (running m)
  end.

(** [if name:] holds of a name that is neither [None] nor empty. *)
Definition truthy (s : option string) : option string :=
  match s with
  | Some EmptyString => None
  | other => other
  end.

Definition ensure_interface (m : Monitor) (interface : Interface) : Monitor :=
  match truthy (name interface) with
  | Some n => initialize_interface_thresholds m n
  | None => m
  end.

(** [_initialize_alert_states]; [interface_details] is what
    [_get_interface_details()] returns. *)
Definition initialize_alert_states (m : Monitor)
    (interface_details : list Interface) : Monitor :=
  let m := with_alert_states m
             ((new_state <$> thresholds m) ∪ alert_states m) in
  let m := fold_left ensure_interface interface_details m in
  with_wifi_alert_states m
    ((new_state <$> wifi_thresholds m) ∪ wifi_alert_states m).

Definition start (m : Monitor) (interface_details : list Interface)
    : Monitor :=
  if running m then m
  else with_running (initialize_alert_states m interface_details) true.

Definition stop (m : Monitor) : Monitor := with_running m false.

(** [_check_threshold]. *)
Definition check_threshold (m : Monitor) (name : string)
    (current_value : pynum) (timestamp : Q)
    : Monitor * list (AlertCall NetworkAlertType) :=
  match alert_states m !! name with
  | None => (m, [])
  | Some state =>
      let r := evaluate (String.eqb name "wifi_signal_low") (config state)
                        no_context state timestamp current_value in
      (with_alert_states m (<[name := r.1]> (alert_states m)), r.2)
  end.

(** [_check_bandwidth_thresholds]; [usage] is [None] when
    [get_bandwidth_usage()] raised. *)
Definition check_bandwidth_thresholds (m : Monitor) (current_time : Q)
    (usage : option BandwidthUsage)
    : Monitor * list (AlertCall NetworkAlertType) :=
  match usage with
  | None => (m, [])
  | Some usage =>
      let rx := default (PyInt 0) (rx_bytes_per_sec usage) in
      let tx := default (PyInt 0) (tx_bytes_per_sec usage) in
      let total_bandwidth := py_add rx tx in
      let m := with_bandwidth_history m
                 (record_history (history_window m) current_time
                                 total_bandwidth (bandwidth_history m)) in
      let r1 := check_threshold m "bandwidth_usage_high"
                                total_bandwidth current_time in
      let r2 := check_threshold r1.1 "bandwidth_usage_very_high"
                                total_bandwidth current_time in
      let r3 := check_threshold r2.1 "download_rate_high" rx current_time in
      let r4 := check_threshold r3.1 "upload_rate_high" tx current_time in
      (r4.1, r1.2 ++ r2.2 ++ r3.2 ++ r4.2)
  end.

(** The per-state check on the state stored under [key], if there is
    one: [if key in states: state = states[key]; ...]. *)
Definition evaluate_key (key : string) (ctx : AlertContext)
    (current_time : Q) (v : pynum)
    (states : gmap string (AlertState NetworkAlertType))
    : gmap string (AlertState NetworkAlertType)
      * list (AlertCall NetworkAlertType) :=
  match states !! key with
  | None => (states, [])
  | Some state =>
      let r := evaluate false (config state) ctx state current_time v in
      (<[key := r.1]> states, r.2)
  end.

(** [s.lower()] on ASCII letters. *)
Definition lower_ascii (c : ascii) : ascii :=
  let n := nat_of_ascii c in
  if ((65 <=? n) && (n <=? 90))%nat then ascii_of_nat (n + 32) else c.

Fixpoint lower (s : string) : string :=
  match s with
  | EmptyString => EmptyString
  | String c s' => String (lower_ascii c) (lower s')
  end.

(** [_check_interface_thresholds]: the body of the second loop, then the
    whole function.  [interface_bandwidth] is
    [network_monitor.get_interface_bandwidth], [None] when the monitor has
    no such method. *)
Definition check_interface (interface_bandwidth : option (string -> pynum))
    (current_time : Q) (acc : Monitor * list (AlertCall NetworkAlertType))
    (interface : Interface)
    : Monitor * list (AlertCall NetworkAlertType) :=
  match truthy (name interface) with
  | None => acc
  | Some n =>
      match interface_alert_states acc.1 !! n with
      | None => acc
      | Some states =>
          if negb (String.eqb (lower (default "" (status interface)))
                              "active")
          then acc
          else
            let ctx := mkContext None None None (Some n) in
            let bw := match interface_bandwidth with
                      | Some f => f n
                      | None => PyInt 0
                      end in
            let r1 := evaluate_key "interface_bandwidth_high" ctx
                                   current_time bw states in
            let error_count := default (PyInt 0) (errors interface) in
            let r2 := evaluate_key "interface_error_rate_high" ctx
                                   current_time error_count r1.1 in
            (with_interface_alert_states acc.1
               (<[n := r2.1]> (interface_alert_states acc.1)),
             acc.2 ++ r1.2 ++ r2.2)
      end
  end.

Definition check_interface_thresholds (m : Monitor) (current_time : Q)
    (interface_bandwidth : option (string -> pynum))
    (interface_details : list Interface)
    : Monitor * list (AlertCall NetworkAlertType) :=
  match interface_details with
  | [] => (m, [])
  | _ =>
      fold_left (check_interface interface_bandwidth current_time)
                interface_details
                (fold_left ensure_interface interface_details m, [])
  end.

(** [_check_process_thresholds]; [processes] is [None] when
    [network_monitor] has no [get_network_processes]. *)
Record ProcessLoop : Type := mkLoop {
  loop_states : gmap string (gmap string (AlertState NetworkAlertType));
  seen_processes : gset string;
  loop_calls : list (AlertCall NetworkAlertType)
}.

(** [proc.get("name", "unknown")], the key a process is tracked under. *)
Definition process_key (proc : Process) : string :=
  default "unknown" (process_name proc).

Definition check_process
    (process_thresholds : gmap string (ThresholdConfig NetworkAlertType))
    (current_time : Q) (acc : ProcessLoop) (proc : Process) : ProcessLoop :=
  let n := process_key proc in
  let bw := default (PyFloat 0) (bandwidth proc) in
  let states :=
    match loop_states acc !! n with
    | Some states => states
    | None => new_state <$> process_thresholds
    end in
  let r := evaluate_key "process_bandwidth_high"
                        (mkContext None None (Some n) None)
                        current_time bw states in
  mkLoop (<[n := r.1]> (loop_states acc))
         ({[n]} ∪ seen_processes acc)
         (loop_calls acc ++ r.2).

Definition processes_to_remove (seen : gset string)
    (states : gmap string (gmap string (AlertState NetworkAlertType)))
    : list string :=
  (List.filter
     (fun e => negb (bool_decide (e.1 ∈ seen)) && negb (any_active e.2))
     (map_to_list states)).*1.

Definition clean_up (seen : gset string)
    (states : gmap string (gmap string (AlertState NetworkAlertType)))
    : gmap string (gmap string (AlertState NetworkAlertType)) :=
  fold_right delete states (processes_to_remove seen states).

Definition check_process_thresholds (m : Monitor) (current_time : Q)
    (processes : option (list Process))
    : Monitor * list (AlertCall NetworkAlertType) :=
  match processes with
  | None => (m, [])
  | Some [] => (m, [])
  | Some processes =>
      let r := fold_left (check_process (process_thresholds m) current_time)
                         processes
                         (mkLoop (process_alert_states m) ∅ []) in
      (with_process_alert_states m
         (clean_up (seen_processes r) (loop_states r)),
       loop_calls r)
  end.

(** [_check_wifi_thresholds]; [wifi_info] is [None] when [network_monitor]
    has no [get_wifi_details] or when the call returned nothing. *)
Definition check_wifi_thresholds (m : Monitor) (current_time : Q)
    (wifi_info : option WifiInfo)
    : Monitor * list (AlertCall NetworkAlertType) :=
  match wifi_info with
  | None => (m, [])
  | Some wifi_info =>
      if negb (default false (connected wifi_info)) then (m, [])
      else
        check_threshold m "wifi_signal_low"
          (default (PyInt 0) (signal_strength wifi_info)) current_time
  end.

(** [_check_connection_thresholds]. *)
Definition check_connection_thresholds (m : Monitor) (current_time : Q)
    (connection_stats : option ConnectionStats)
    : Monitor * list (AlertCall NetworkAlertType) :=
  match connection_stats with
  | None => (m, [])
  | Some connection_stats =>
      check_threshold m "connection_count_high"
        (default (PyInt 0) (total_connections connection_stats))
        current_time
  end.

(** [_check_sustained_bandwidth]. *)
Definition check_sustained_bandwidth (m : Monitor) (current_time : Q)
    : Monitor * list (AlertCall NetworkAlertType) :=
  if (length (bandwidth_history m) <? 10)%nat then (m, [])
  else
    match thresholds m !! "bandwidth_usage_sustained" with
    | None => (m, [])
    | Some _ =>
        match alert_states m !! "bandwidth_usage_sustained" with
        | None => (m, [])
        | Some _ =>
            check_threshold m "bandwidth_usage_sustained"
              (sustained_value current_time (bandwidth_history m))
              current_time
        end
    end.

(** One round of [_check_loop]. *)
Record Snapshot : Type := mkSnapshot {
  bandwidth_time : Q;
  bandwidth_usage : option BandwidthUsage;
  interface_time : Q;
  interface_bandwidth : option (string -> pynum);
  interface_details : list Interface;
  process_time : Q;
  processes : option (list Process);
  wifi_time : Q;
  wifi_info : option WifiInfo;
  sustained_time : Q;
  connection_time : Q;
  connection_stats : option ConnectionStats
}.

Definition check_once (m : Monitor) (s : Snapshot)
    : Monitor * list (AlertCall NetworkAlertType) :=
  let r1 := check_bandwidth_thresholds m (bandwidth_time s)
                                       (bandwidth_usage s) in
  let r2 := check_interface_thresholds r1.1 (interface_time s)
              (interface_bandwidth s) (interface_details s) in
  let r3 := check_process_thresholds r2.1 (process_time s) (processes s) in
  let r4 := check_wifi_thresholds r3.1 (wifi_time s) (wifi_info s) in
  let r5 := check_sustained_bandwidth r4.1 (sustained_time s) in
  let r6 := check_connection_thresholds r5.1 (connection_time s)
                                        (connection_stats s) in
  (r6.1, r1.2 ++ r2.2 ++ r3.2 ++ r4.2 ++ r5.2 ++ r6.2).

(** [_format_value_with_unit]. *)
Definition format_value_with_unit (value : pynum) : string :=
  if gt_bool value 1000000
  then (format_2f (py_truediv value 1000000) ++ " MB/s")%string
  else if gt_bool value 1000
  then (format_2f (py_truediv value 1000) ++ " KB/s")%string
  else str_num value.

(** [_format_alert_message]. *)
Definition format_alert_message (now : Q) (state : AlertState NetworkAlertType)
    (ctx : AlertContext) : string :=
  substitute
    [("threshold", Some (format_value_with_unit (threshold (config state))));
     ("value", Some (format_value_with_unit (current_value state)));
     ("duration", Some (str_num (minutes now state)));
     ("interface_name", ctx_interface_name ctx);
     ("process_name", ctx_process_name ctx)]
    (alert_message (config state)).

(** [_generate_alert]. *)
Definition generate_alert (now : Q) (call : AlertCall NetworkAlertType)
    : MetricEvent :=
  let state := call_state call in
  let ctx := call_context call in
  mkEvent THRESHOLD_EXCEEDED now "NetworkThresholdMonitor"
    (Some (mkData (threshold (config state)) (current_value state)
                  (exceeded_duration now state)
                  (alert_type_name (alert_type (config state)))
                  (severity_name (severity (config state)))
                  None None
                  (ctx_process_name ctx)
                  (ctx_interface_name ctx)))
    (format_alert_message now state ctx).

(** The operations that change a monitor. *)
Inductive Operation : Type :=
| Start (interface_details : list Interface)
| Stop
| SetThreshold (name : string) (th : pynum) (dur : Q)
               (sev : AlertSeverity) (msg : option string)
| CheckBandwidth (current_time : Q) (usage : option BandwidthUsage)
| CheckInterface (current_time : Q)
                 (interface_bandwidth : option (string -> pynum))
                 (interface_details : list Interface)
| CheckProcess (current_time : Q) (processes : option (list Process))
| CheckWifi (current_time : Q) (wifi_info : option WifiInfo)
| CheckSustained (current_time : Q)
| CheckConnection (current_time : Q)
                  (connection_stats : option ConnectionStats).

Definition perform (m : Monitor) (op : Operation)
    : Monitor * list (AlertCall NetworkAlertType) :=
  match op with
  | Start interface_details => (start m interface_details, [])
  | Stop => (stop m, [])
  | SetThreshold name th dur sev msg =>
      (set_threshold m name th dur sev msg, [])
  | CheckBandwidth current_time usage =>
      check_bandwidth_thresholds m current_time usage
  | CheckInterface current_time interface_bandwidth interface_details =>
      check_interface_thresholds m current_time interface_bandwidth
                                 interface_details
  | CheckProcess current_time processes =>
      check_process_thresholds m current_time processes
  | CheckWifi current_time wifi_info =>
      check_wifi_thresholds m current_time wifi_info
  | CheckSustained current_time => check_sustained_bandwidth m current_time
  | CheckConnection current_time connection_stats =>
      check_connection_thresholds m current_time connection_stats
  end.

Fixpoint perform_all (m : Monitor) (ops : list Operation)
    : Monitor * list (AlertCall NetworkAlertType) :=
  match ops with
  | [] => (m, [])
  | op :: rest =>
      let r := perform m op in
      let r' := perform_all r.1 rest in
      (r'.1, r.2 ++ r'.2)
  end.

(** Every state the monitor tracks satisfies the invariant. *)
Definition monitor_ok (m : Monitor) : Prop :=
  map_Forall (fun _ => state_ok) (alert_states m)
  /\ map_Forall (fun _ => map_Forall (fun _ => state_ok))
                (interface_alert_states m)
  /\ map_Forall (fun _ => map_Forall (fun _ => state_ok))
                (process_alert_states m)
  /\ map_Forall (fun _ => state_ok) (wifi_alert_states m).

End Net.

(** ** The event dispatcher ([realtime/events.py])

    An observer is an object with an [update] method; the dispatcher
    holds weak references to its observers.  What [update] does is the
    observer's business: to the dispatcher a call either returns or raises
    an [Exception]; what no [except Exception] catches is the subject of
    [Thread] below.  A reference is identified by [ref_key], the identity
    of the object it was made for, and [referent] is what calling the
    reference gives: the observer, or [None] once the observer is gone.
    The set [_observers] is kept as the list of its elements in the order
    the loops visit them. *)

Module Events.

Inductive Outcome : Type :=
| Returns
| Raises (e : string).

Record Observer : Type := mkObserver {
  update : MetricEvent -> Outcome
}.

Record ObserverRef : Type := mkRef {
  ref_key : nat;
  referent : option Observer
}.

Record Dispatcher : Type := mkDispatcher {
  observers : list ObserverRef;
  event_filters : gmap nat (list MetricUpdateEvent);
  event_queue : list (option MetricEvent);
  running : bool
}.

(** What a dispatch does to the world outside the dispatcher: calls of
    [observer.update(event)] and lines printed. *)
Inductive Effect : Type :=
| Update (key : nat) (event : MetricEvent)
| Print (line : string).

(** [__init__]. *)
Definition init : Dispatcher := mkDispatcher [] ∅ [] false.

(** [attach] and [attach_with_filter]; a set holds a reference once. *)
Definition attach (d : Dispatcher) (key : nat) (observer : Observer)
    : Dispatcher :=
  if existsb (fun r => Nat.eqb (ref_key r) key) (observers d)
  then d
  else mkDispatcher (observers d ++ [mkRef key (Some observer)])
                    (event_filters d) (event_queue d) (running d).

Definition attach_with_filter (d : Dispatcher) (key : nat)
    (observer : Observer) (event_types : list MetricUpdateEvent)
    : Dispatcher :=
  let d := attach d key observer in
  mkDispatcher (observers d) (<[key := event_types]> (event_filters d))
               (event_queue d) (running d).

(** [publish_event]. *)
Definition publish_event (d : Dispatcher) (event : MetricEvent)
    : Dispatcher :=
  mkDispatcher (observers d) (event_filters d)
               (event_queue d ++ [Some event]) (running d).

(** The filter test of [_dispatch_event]: an observer without a filter
    takes every event. *)
Definition interested (filters : gmap nat (list MetricUpdateEvent))
    (key : nat) (event : MetricEvent) : bool :=
  match filters !! key with
  | Some event_types => bool_decide (event_type event ∈ event_types)
  | None => true
  end.

(** The body of the loop of [_dispatch_event] for one reference. *)
Definition notify (filters : gmap nat (list MetricUpdateEvent))
    (event : MetricEvent) (r : ObserverRef) : list Effect :=
  match referent r with
  | None => []
  | Some observer =>
      if interested filters (ref_key r) event then
        match update observer event with
        | Returns => [Update (ref_key r) event]
        | Raises e =>
            [Update (ref_key r) event;
             Print ("Error notifying observer: " ++ e)]
        end
      else []
  end.

Definition is_dead (r : ObserverRef) : bool :=
  match referent r with
  | None => true
  | Some _ => false
  end.

(** [_dispatch_event]. *)
Definition dispatch_event (d : Dispatcher) (event : MetricEvent)
    : Dispatcher * list Effect :=
  let dead_refs := List.filter is_dead (observers d) in
  (mkDispatcher
     (List.filter (fun r => negb (is_dead r)) (observers d))
     (fold_right (fun r filters => delete (ref_key r) filters)
                 (event_filters d) dead_refs)
     (event_queue d) (running d),
   flat_map (notify (event_filters d) event) (observers d)).

(** [_dispatch_loop] on the entries found in the queue: [None] is the
    sentinel [stop] puts there.  When the queue is empty the worker waits;
    the function returns what has been done until then. *)
Fixpoint dispatch_entries (d : Dispatcher)
    (entries : list (option MetricEvent))
    : Dispatcher * list Effect * list (option MetricEvent) :=
  if running d then
    match entries with
    | [] => (d, [], [])
    | None :: rest => (d, [], rest)
    | Some event :: rest =>
        let r := dispatch_event d event in
        let '(d', effects, rest') := dispatch_entries r.1 rest in
        (d', r.2 ++ effects, rest')
    end
  else (d, [], entries).

Definition dispatch_loop (d : Dispatcher) : Dispatcher * list Effect :=
  let '(d', effects, rest) :=
    dispatch_entries (mkDispatcher (observers d) (event_filters d) []
                                   (running d))
                     (event_queue d) in
  (mkDispatcher (observers d') (event_filters d') rest (running d'),
   effects).

(** [start] and [stop], without the thread: [_dispatch_thread] is set
    exactly while [_running] is, and [stop] then puts the sentinel. *)
Definition start (d : Dispatcher) : Dispatcher :=
  mkDispatcher (observers d) (event_filters d) (event_queue d) true.

Definition stop (d : Dispatcher) : Dispatcher :=
  mkDispatcher (observers d) (event_filters d)
               (if running d then event_queue d ++ [None]
                else event_queue d)
               false.

End Events.

(** ** Well-formed monitors

    What the constructor establishes and every operation keeps: the
    configuration a global state reads is the registry entry of its name;
    the thresholds of cores and processes are the ones written in the
    source; cores are tracked together with their thresholds; the timing
    fields of a configuration are the defaults of the dataclass. *)

Definition standard_timing {AT : Type} (cfg : ThresholdConfig AT) : Prop :=
  check_interval cfg = 5 /\ cooldown_minutes cfg = 10.

Definition cpu_well_formed (m : Cpu.Monitor) : Prop :=
  (forall name st,
     Cpu.alert_states m !! name = Some st ->
     Cpu.thresholds m !! name = Some (config st))
  /\ (forall name cfg,
        Cpu.thresholds m !! name = Some cfg -> standard_timing cfg)
  /\ Cpu.process_thresholds m = Cpu.default_process_thresholds
  /\ (forall id,
        Cpu.core_thresholds m !! id = None
        \/ Cpu.core_thresholds m !! id = Some Cpu.default_core_thresholds)
  /\ (forall id,
        is_Some (Cpu.core_alert_states m !! id)
        <-> is_Some (Cpu.core_thresholds m !! id))
  /\ (forall id sts name st,
        Cpu.core_alert_states m !! id = Some sts ->
        sts !! name = Some st ->
        Cpu.default_core_thresholds !! name = Some (config st))
  /\ (forall p sts name st,
        Cpu.process_alert_states m !! p = Some sts ->
        sts !! name = Some st ->
        Cpu.default_process_thresholds !! name = Some (config st))
  /\ Cpu.history_window m = 3600.

(** An alert that reports a breach: the value handed to
    [_generate_alert] is at least the threshold of the configuration the
    message is rendered from, the start of the breach is known, and the
    alert was not active yet. *)
Definition justified {AT : Type} (call : AlertCall AT) : Prop :=
  num_val (threshold (config (call_state call)))
  <= num_val (current_value (call_state call))
  /\ is_Some (exceeded_since (call_state call))
  /\ is_active (call_state call) = false.

(** The same for the network monitor; the WiFi states are as
    [_initialize_alert_states] made them. *)
Definition net_well_formed (m : Net.Monitor) : Prop :=
  (forall name st,
     Net.alert_states m !! name = Some st ->
     Net.thresholds m !! name = Some (config st))
  /\ Net.wifi_thresholds m = Net.default_wifi_thresholds
  /\ (forall name st,
        Net.wifi_alert_states m !! name = Some st ->
        exists cfg,
          Net.default_wifi_thresholds !! name = Some cfg
          /\ st = new_state cfg)
  /\ (forall n sts name st,
        Net.interface_alert_states m !! n = Some sts ->
        sts !! name = Some st ->
        Net.default_interface_thresholds !! name = Some (config st))
  /\ Net.process_thresholds m = Net.default_process_thresholds
  /\ (forall p sts name st,
        Net.process_alert_states m !! p = Some sts ->
        sts !! name = Some st ->
        Net.default_process_thresholds !! name = Some (config st))
  /\ Net.history_window m = 3600.

(** ** [NetworkThresholdMonitor.get_active_alerts]
    ([network_thresholds.py], lines 221-282)

    The loops over [_alert_states] (the first) and [_wifi_alert_states]
    (the last) write one entry under the name of every active state into
    the dictionary [result] built so far. *)

Module NetQuery.

Record ActiveAlert : Type := mkActive {
  active_type : string;
  active_severity : string;
  active_threshold : pynum;
  active_current_value : pynum;
  active_duration : Q;
  active_message : string
}.

Definition active_alert (now : Q) (state : AlertState Net.NetworkAlertType)
    : ActiveAlert :=
  mkActive (Net.alert_type_name (alert_type (config state)))
           (severity_name (severity (config state)))
           (threshold (config state)) (current_value state)
           (exceeded_duration now state)
           (Net.format_alert_message now state no_context).

Definition report_named (now : Q)
    (states : gmap string (AlertState Net.NetworkAlertType))
    (result : gmap string ActiveAlert) : gmap string ActiveAlert :=
  omap (fun state =>
          if is_active state then Some (active_alert now state) else None)
       states
  ∪ result.

End NetQuery.

(** ** The rest of [realtime/events.py] *)

(** [Subject.detach] and [Subject.notify] (lines 110-142), as the
    dispatcher inherits them. *)
Module Subject.



(** The loop of [notify]: [observer.update(event)] is not guarded, so what
    an observer raises ends the loop and leaves [notify]. *)
Fixpoint notify_loop (event : MetricEvent) (refs : list Events.ObserverRef)
    : list Events.Effect * Events.Outcome :=
  match refs with
  | [] => ([], Events.Returns)
  | r :: rest =>
      match Events.referent r with
      | None => notify_loop event rest
      | Some observer =>
          match Events.update observer event with
          | Events.Returns =>
              let r' := notify_loop event rest in
              (Events.Update (Events.ref_key r) event :: r'.1, r'.2)
          | Events.Raises e =>
              ([Events.Update (Events.ref_key r) event], Events.Raises e)
          end
      end
  end.

Definition notify (d : Events.Dispatcher) (event : MetricEvent)
    : Events.Dispatcher * list Events.Effect * Events.Outcome :=
  let r := notify_loop event (Events.observers d) in
  (match r.2 with
   | Events.Returns =>
       Events.mkDispatcher
         (List.filter (fun r => negb (Events.is_dead r))
                      (Events.observers d))
         (Events.event_filters d) (Events.event_queue d)
         (Events.running d)
   | Events.Raises _ => d
   end,
   r.1, r.2).

End Subject.

(** [MetricsEventFilter] (lines 277-307): [event_types] is [None] when
    the list given is [None] or empty. *)
Module MetricsEventFilter.

Definition init (event_types : option (list MetricUpdateEvent))
    : option (list MetricUpdateEvent) :=
  match event_types with
  | Some (ty :: tys) => Some (ty :: tys)
  | _ => None
  end.

Definition matches (event_types : option (list MetricUpdateEvent))
    (event : MetricEvent) : bool :=
  match event_types with
  | Some tys => bool_decide (event_type event ∈ tys)
  | None => true
  end.

End MetricsEventFilter.

(** The events an observer has been handed, in the order of the calls of
    its [update]. *)
Definition updates_of (key : nat) (effects : list Events.Effect)
    : list MetricEvent :=
  flat_map (fun e =>
              match e with
              | Events.Update k event =>
                  if Nat.eqb k key then [event] else []
              | Events.Print _ => []
              end)
           effects.



(** ** The alerts of the display ([cli/display.py], lines 94-137)

    [DisplayManager.active_alerts] and the three methods that write it.
    The events are those the monitors publish, whose [data] carries the
    name of the alert type. *)

Module Display.

Record Alert : Type := mkAlert {
  shown_message : string;
  shown_timestamp : Q;
  shown_data : option AlertData;
  shown_age : Q
}.

(** [add_active_alert]. *)
Definition add_active_alert (active_alerts : gmap string Alert)
    (alert_id : string) (event : MetricEvent) : gmap string Alert :=
  <[alert_id := mkAlert (message event) (timestamp event) (data event) 0]>
    active_alerts.

(** [AlertObserver.update]: [event.data.get] on [None] raises
    [AttributeError]. *)
Definition update (active_alerts : gmap string Alert) (event : MetricEvent)
    : gmap string Alert * Events.Outcome :=
  match event_type event with
  | THRESHOLD_EXCEEDED =>
      match data event with
      | Some d =>
          (add_active_alert active_alerts (data_alert_type d) event,
           Events.Returns)
      | None =>
          (active_alerts,
           Events.Raises "'NoneType' object has no attribute 'get'")
      end
  | _ => (active_alerts, Events.Returns)
  end.

(** [update_alert_ages]. *)
Definition update_alert_ages (current_time : Q)
    (active_alerts : gmap string Alert) : gmap string Alert :=
  omap (fun alert =>
          let age := current_time - shown_timestamp alert in
          if gt_bool age 120 then None
          else Some (mkAlert (shown_message alert) (shown_timestamp alert)
                             (shown_data alert) age))
       active_alerts.

End Display.

(** ** The dispatch thread ([realtime/events.py], lines 221-274)

    The worker with callbacks that can raise anything: [update] returns,
    raises an instance of [Exception], or raises a [BaseException] that
    is none ([SystemExit], [KeyboardInterrupt], [GeneratorExit]), which
    no [except Exception] catches.  [str] of an observer and of what it
    raised return, and so does [print].  [alive] tells whether the
    thread that [start] created is still in [_dispatch_loop]. *)

Module Thread.

Inductive Outcome : Type :=
| Returns
| Raises (e : string)
| RaisesBase (e : string).

(** [observer_str] is [str(observer)], shown in the error line. *)
Record Observer : Type := mkObserver {
  observer_str : string;
  update : MetricEvent -> Outcome
}.

Record ObserverRef : Type := mkRef {
  ref_key : nat;
  referent : option Observer
}.

Record Dispatcher : Type := mkDispatcher {
  observers : list ObserverRef;
  event_filters : gmap nat (list MetricUpdateEvent);
  event_queue : list (option MetricEvent);
  running : bool;
  alive : bool
}.

(** [__init__]. *)
Definition init : Dispatcher := mkDispatcher [] ∅ [] false false.

(** [attach] and [attach_with_filter]. *)
Definition attach (d : Dispatcher) (key : nat) (observer : Observer)
    : Dispatcher :=
  if existsb (fun r => Nat.eqb (ref_key r) key) (observers d)
  then d
  else mkDispatcher (observers d ++ [mkRef key (Some observer)])
                    (event_filters d) (event_queue d) (running d) (alive d).

Definition attach_with_filter (d : Dispatcher) (key : nat)
    (observer : Observer) (event_types : list MetricUpdateEvent)
    : Dispatcher :=
  let d := attach d key observer in
  mkDispatcher (observers d) (<[key := event_types]> (event_filters d))
               (event_queue d) (running d) (alive d).

(** [start]: nothing when [_running] is set, a dead thread included. *)
Definition start (d : Dispatcher) : Dispatcher :=
  if running d then d
  else mkDispatcher (observers d) (event_filters d) (event_queue d)
                    true true.

(** [publish_event]. *)
Definition publish_event (d : Dispatcher) (event : MetricEvent)
    : Dispatcher :=
  mkDispatcher (observers d) (event_filters d)
               (event_queue d ++ [Some event]) (running d) (alive d).

Definition is_dead (r : ObserverRef) : bool :=
  match referent r with
  | None => true
  | Some _ => false
  end.

(** The loop of [_dispatch_event] over the references: the calls made
    and lines printed, and the exception that leaves the loop, if one
    does. *)
Fixpoint notify_all (filters : gmap nat (list MetricUpdateEvent))
    (event : MetricEvent) (refs : list ObserverRef)
    : list Events.Effect * option string :=
  match refs with
  | [] => ([], None)
  | r :: rest =>
      match referent r with
      | None => notify_all filters event rest
      | Some observer =>
          if Events.interested filters (ref_key r) event then
            match update observer event with
            | Returns =>
                let r' := notify_all filters event rest in
                (Events.Update (ref_key r) event :: r'.1, r'.2)
            | Raises e =>
                let r' := notify_all filters event rest in
                (Events.Update (ref_key r) event
                 :: Events.Print ("Error notifying observer "
                                  ++ observer_str observer ++ ": " ++ e)
                 :: r'.1,
                 r'.2)
            | RaisesBase e =>
                ([Events.Update (ref_key r) event], Some e)
            end
          else notify_all filters event rest
      end
  end.

(** [_dispatch_event]: the clean-up of dead references is not reached
    when an exception leaves the loop. *)
Definition dispatch_event (d : Dispatcher) (event : MetricEvent)
    : Dispatcher * list Events.Effect * option string :=
  let r := notify_all (event_filters d) event (observers d) in
  match r.2 with
  | Some e => (d, r.1, Some e)
  | None =>
      (mkDispatcher
         (List.filter (fun r => negb (is_dead r)) (observers d))
         (fold_right (fun r filters => delete (ref_key r) filters)
                     (event_filters d)
                     (List.filter is_dead (observers d)))
         (event_queue d) (running d) (alive d),
       r.1, None)
  end.

(** [_dispatch_loop] on the entries found in the queue.  [None] is the
    sentinel of [stop]; an exception that [except Exception] does not
    catch leaves the loop, and the thread ends.  When the queue is empty
    the thread waits. *)
Record Loop : Type := mkLoop {
  loop_dispatcher : Dispatcher;
  loop_effects : list Events.Effect;
  loop_queue : list (option MetricEvent);
  loop_alive : bool
}.

Fixpoint dispatch_entries (d : Dispatcher)
    (entries : list (option MetricEvent)) : Loop :=
  if running d then
    match entries with
    | [] => mkLoop d [] [] true
    | None :: rest => mkLoop d [] rest false
    | Some event :: rest =>
        let r := dispatch_event d event in
        match r.2 with
        | Some _ => mkLoop r.1.1 r.1.2 rest false
        | None =>
            let l := dispatch_entries r.1.1 rest in
            mkLoop (loop_dispatcher l) (r.1.2 ++ loop_effects l)
                   (loop_queue l) (loop_alive l)
        end
    end
  else mkLoop d [] entries false.

(** What the thread does with the queue as it is; nothing is taken from
    the queue once the thread has ended. *)
Definition dispatch_loop (d : Dispatcher)
    : Dispatcher * list Events.Effect :=
  if alive d then
    let l := dispatch_entries d (event_queue d) in
    (mkDispatcher (observers (loop_dispatcher l))
                  (event_filters (loop_dispatcher l))
                  (loop_queue l) (running (loop_dispatcher l))
                  (loop_alive l),
     loop_effects l)
  else (d, []).

(** [publish_event] for each event in turn. *)
Definition publish_all (d : Dispatcher) (events : list MetricEvent)
    : Dispatcher :=
  fold_left publish_event events d.

End Thread.

(** No observer of [refs] raises what [except Exception] lets through,
    on any event of [events]. *)
Definition catchable (refs : list Thread.ObserverRef)
    (events : list MetricEvent) : Prop :=
  forall r o event e,
    r ∈ refs -> Thread.referent r = Some o -> event ∈ events ->
    Thread.update o event <> Thread.RaisesBase e.

(** What the dispatcher [d] keeps of [d0] through the events it
    dispatches: the living observers and their filters. *)
Definition serves (d0 d : Thread.Dispatcher) : Prop :=
  Thread.running d = true
  /\ NoDup (map Thread.ref_key (Thread.observers d))
  /\ (forall r, r ∈ Thread.observers d -> r ∈ Thread.observers d0)
  /\ (forall key o,
        Thread.mkRef key (Some o) ∈ Thread.observers d0 ->
        Thread.mkRef key (Some o) ∈ Thread.observers d
        /\ Thread.event_filters d !! key = Thread.event_filters d0 !! key).

(** ** A state through the rounds of the check loop *)





(** * Properties *)

(** ** Comparisons *)

Lemma ge_bool_true (a b : Q) : ge_bool a b = true <-> b <= a.
Proof. unfold ge_bool. apply Qle_bool_iff. Qed.

Lemma ge_bool_false (a b : Q) : ge_bool a b = false <-> a < b.
Proof.
  unfold ge_bool. split; intros H.
  - apply Qnot_le_lt. intros Hle. apply Qle_bool_iff in Hle. congruence.
  - destruct (Qle_bool b a) eqn:E; [|reflexivity].
    apply Qle_bool_iff in E. lra.
Qed.

Lemma gt_bool_true (a b : Q) : gt_bool a b = true <-> b < a.
Proof.
  unfold gt_bool. rewrite negb_true_iff. apply (ge_bool_false b a).
Qed.

Lemma gt_bool_false (a b : Q) : gt_bool a b = false <-> a <= b.
Proof.
  unfold gt_bool. rewrite negb_false_iff. apply Qle_bool_iff.
Qed.


(** Comparisons of closed rationals, and lists of them. *)
Ltac closed_Q :=
  vm_compute; first [reflexivity | discriminate | intro; discriminate].

Ltac closed_Forall := repeat (constructor; [closed_Q|]); constructor.

(** ** The per-state check *)

Section StateMachine.

Context {AT : Type}.
Variable inverted : bool.
Variable cfg : ThresholdConfig AT.
Variable ctx : AlertContext.

Lemma evaluate_recover (state : AlertState AT) (t : Q) (v : pynum) :
  threshold_exceeded inverted cfg v = false ->
  evaluate inverted cfg ctx state t v
  = (mkState (config state) None (last_alert_time state) v false, []).
Proof.
  intros H. unfold evaluate. rewrite H. reflexivity.
Qed.

Lemma evaluate_active (state : AlertState AT) (t : Q) (v : pynum) :
  threshold_exceeded inverted cfg v = true ->
  is_active state = true ->
  (evaluate inverted cfg ctx state t v).2 = []
  /\ is_active (evaluate inverted cfg ctx state t v).1 = true.
Proof.
  intros Hb Ha. unfold evaluate. rewrite Hb.
  destruct state as [c [since|] last cur act]; simpl in *; subst act;
    rewrite andb_false_r; simpl; auto.
Qed.



Lemma evaluate_fires (state : AlertState AT) (t : Q) (v : pynum) :
  (evaluate inverted cfg ctx state t v).2 <> [] ->
  threshold_exceeded inverted cfg v = true
  /\ is_active state = false
  /\ duration_seconds cfg <= t - default t (exceeded_since state)
  /\ cooldown_minutes cfg * 60 <= t - last_alert_time state.
Proof.
  unfold evaluate.
  destruct (threshold_exceeded inverted cfg v) eqn:Hb; [|simpl; congruence].
  destruct state as [c [since|] last cur act]; simpl.
  - destruct (ge_bool (t - since) (duration_seconds cfg)) eqn:Hd;
      simpl; [|congruence].
    destruct act; simpl; [congruence|].
    destruct (ge_bool (t - last) (cooldown_minutes cfg * 60)) eqn:Hc;
      simpl; [|congruence].
    intros _. apply ge_bool_true in Hd, Hc. auto.
  - destruct (ge_bool (t - t) (duration_seconds cfg)) eqn:Hd;
      simpl; [|congruence].
    destruct act; simpl; [congruence|].
    destruct (ge_bool (t - last) (cooldown_minutes cfg * 60)) eqn:Hc;
      simpl; [|congruence].
    intros _. apply ge_bool_true in Hd, Hc. auto.
Qed.

Lemma run_cons (state : AlertState AT) (t : Q) (v : pynum)
    (rest : list (Q * pynum)) :
  run inverted cfg ctx state ((t, v) :: rest)
  = ((run inverted cfg ctx (evaluate inverted cfg ctx state t v).1 rest).1,
     (evaluate inverted cfg ctx state t v).2
     ++ (run inverted cfg ctx (evaluate inverted cfg ctx state t v).1 rest).2).
Proof.
  simpl. destruct (evaluate inverted cfg ctx state t v) as [s1 c1].
  simpl. destruct (run inverted cfg ctx s1 rest) as [s2 c2]. reflexivity.
Qed.

Lemma run_app (state : AlertState AT) (l1 l2 : list (Q * pynum)) :
  run inverted cfg ctx state (l1 ++ l2)
  = ((run inverted cfg ctx (run inverted cfg ctx state l1).1 l2).1,
     (run inverted cfg ctx state l1).2
     ++ (run inverted cfg ctx (run inverted cfg ctx state l1).1 l2).2).
Proof.
  revert state. induction l1 as [|[t v] l1 IH]; intros state.
  - simpl. destruct (run inverted cfg ctx state l2). reflexivity.
  - rewrite <- app_comm_cons. rewrite !run_cons. rewrite IH. simpl.
    rewrite app_assoc. reflexivity.
Qed.

Lemma run_active (state : AlertState AT) (ticks : list (Q * pynum)) :
  is_active state = true ->
  Forall (breaching inverted cfg) ticks ->
  (run inverted cfg ctx state ticks).2 = []
  /\ is_active (run inverted cfg ctx state ticks).1 = true.
Proof.
  revert state. induction ticks as [|[t v] ticks IH]; intros state Ha Hall.
  - simpl. auto.
  - apply Forall_cons_1 in Hall as [Hb Hall]. rewrite run_cons. simpl.
    destruct (evaluate_active state t v Hb Ha) as [Hc Ha'].
    destruct (IH _ Ha' Hall) as [Hc' Ha''].
    rewrite Hc, Hc'. auto.
Qed.



(** The state a run of breaching ticks leaves keeps the start of the
    breach. *)
Lemma run_keeps_since (state : AlertState AT) (t0 : Q)
    (ticks : list (Q * pynum)) :
  exceeded_since state = Some t0 ->
  Forall (breaching inverted cfg) ticks ->
  exceeded_since (run inverted cfg ctx state ticks).1 = Some t0.
Proof.
  revert state. induction ticks as [|[t v] ticks IH]; intros state Hs Hall.
  - exact Hs.
  - apply Forall_cons_1 in Hall as [Hb Hall]. rewrite run_cons. simpl.
    apply IH; [|exact Hall].
    unfold evaluate. rewrite Hb.
    destruct state as [c since last cur act]; simpl in *; subst since.
    simpl.
    destruct (ge_bool (t - t0) (duration_seconds cfg) && negb act);
      [destruct (ge_bool (t - last) (cooldown_minutes cfg * 60))|];
      reflexivity.
Qed.

Lemma evaluate_sets_since (state : AlertState AT) (t : Q) (v : pynum) :
  threshold_exceeded inverted cfg v = true ->
  exceeded_since state = None ->
  exceeded_since (evaluate inverted cfg ctx state t v).1 = Some t.
Proof.
  intros Hb Hs. unfold evaluate. rewrite Hb.
  destruct state as [c since last cur act]; simpl in *; subst since.
  simpl.
  destruct (ge_bool (t - t) (duration_seconds cfg) && negb act);
    [destruct (ge_bool (t - last) (cooldown_minutes cfg * 60))|];
    reflexivity.
Qed.

Lemma breaching_or_recovering (tick : Q * pynum) :
  {breaching inverted cfg tick} + {recovering inverted cfg tick}.
Proof.
  unfold breaching, recovering.
  destruct (threshold_exceeded inverted cfg tick.2); auto.
Qed.

(** The last recovery of a run that has one. *)
Lemma last_recovery (ticks : list (Q * pynum)) :
  Exists (recovering inverted cfg) ticks ->
  exists pre r episode,
    ticks = pre ++ r :: episode
    /\ recovering inverted cfg r
    /\ Forall (breaching inverted cfg) episode.
Proof.
  induction ticks as [|a ticks IH]; intros Hex.
  - inversion Hex.
  - destruct (Forall_Exists_dec (breaching inverted cfg)
                (recovering inverted cfg) breaching_or_recovering ticks)
      as [Hall|Hlater].
    + apply Exists_cons in Hex as [Ha|Hex].
      * exists [], a, ticks. auto.
      * exfalso. apply Exists_exists in Hex as [x [Hin Hx]].
        rewrite Forall_forall in Hall. specialize (Hall x Hin).
        unfold breaching, recovering in *. congruence.
    + destruct (IH Hlater) as (pre & r & episode & -> & Hr & Hep).
      exists (a :: pre), r, episode. auto.
Qed.

End StateMachine.


(** C2 (an active alert blocks re-alerting).  From a state whose alert is
    active, breaching ticks never generate an alert, whatever their clock
    readings, and the alert stays active.  If a later tick does generate
    an alert, the ticks before it contain a recovery; the ticks after the
    last recovery are a breach episode, the tick is at least the duration
    after the start of that episode and at least the cooldown after the
    last alert. *)
Theorem active_blocks_realert {AT : Type} (inverted : bool)
    (cfg : ThresholdConfig AT) (ctx : AlertContext) (state : AlertState AT) :
  is_active state = true ->
  (forall ticks : list (Q * pynum),
     Forall (breaching inverted cfg) ticks ->
     (run inverted cfg ctx state ticks).2 = []
     /\ is_active (run inverted cfg ctx state ticks).1 = true)
  /\ (forall (ticks : list (Q * pynum)) (t : Q) (v : pynum),
        (evaluate inverted cfg ctx
                  (run inverted cfg ctx state ticks).1 t v).2 <> [] ->
        exists pre r episode,
          ticks = pre ++ r :: episode
          /\ recovering inverted cfg r
          /\ Forall (breaching inverted cfg) (episode ++ [(t, v)])
          /\ is_active (run inverted cfg ctx state ticks).1 = false
          /\ duration_seconds cfg <= t - episode_start t episode
          /\ cooldown_minutes cfg * 60
             <= t - last_alert_time (run inverted cfg ctx state ticks).1).
Proof.
  intros Ha. split.
  - intros ticks Hall. apply run_active; assumption.
  - intros ticks t v Hfire.
    apply evaluate_fires in Hfire as (Hb & Hinactive & Hdur & Hcool).
    assert (Hex : Exists (recovering inverted cfg) ticks).
    { destruct (Forall_Exists_dec (breaching inverted cfg)
                  (recovering inverted cfg)
                  (breaching_or_recovering inverted cfg) ticks)
        as [Hall|Hex]; [|exact Hex].
      destruct (run_active inverted cfg ctx state ticks Ha Hall)
        as [_ Hact]. congruence. }
    destruct (last_recovery inverted cfg ticks Hex)
      as (pre & [tr vr] & episode & Heq & Hr & Hep).
    exists pre, (tr, vr), episode.
    split; [exact Heq|]. split; [exact Hr|].
    split; [apply Forall_app; split; [exact Hep|repeat constructor; exact Hb]|].
    split; [exact Hinactive|]. split; [|exact Hcool].
    subst ticks. rewrite run_app in Hdur. cbn [fst] in Hdur.
    rewrite run_cons in Hdur. cbn [fst] in Hdur.
    rewrite evaluate_recover in Hdur by exact Hr. cbn [fst] in Hdur.
    destruct episode as [|[t1 v1] episode]; simpl in *.
    + exact Hdur.
    + apply Forall_cons_1 in Hep as [Hb1 Hep].
      set (s1 := (evaluate inverted cfg ctx _ t1 v1)) in *.
      assert (Hs1 : exceeded_since s1.1 = Some t1)
        by (apply evaluate_sets_since; [exact Hb1|reflexivity]).
      destruct s1 as [s1 c1]. simpl in *.
      destruct (run inverted cfg ctx s1 episode) as [s2 c2] eqn:Hrun.
      simpl in *.
      pose proof (run_keeps_since inverted cfg ctx s1 t1 episode Hs1 Hep)
        as Hk.
      rewrite Hrun in Hk. simpl in Hk. rewrite Hk in Hdur. exact Hdur.
Qed.

Lemma active_blocks_realert_witness :
  (run false Cpu.cpu_usage_high_config no_context
       (mkState Cpu.cpu_usage_high_config (Some 1000) 1060 (PyFloat 85) true)
       [(1065, PyFloat 85); (2000, PyFloat 99); (9000, PyFloat 85)]).2 = []
  /\ exists pre r episode,
       [(1065, PyFloat 85); (1070, PyFloat 10); (1075, PyFloat 85)]
       = pre ++ r :: episode
       /\ recovering false Cpu.cpu_usage_high_config r
       /\ Forall (breaching false Cpu.cpu_usage_high_config)
                 (episode ++ [(1700, PyFloat 85)]).
Proof.
  destruct (active_blocks_realert false Cpu.cpu_usage_high_config no_context
              (mkState Cpu.cpu_usage_high_config (Some 1000) 1060
                       (PyFloat 85) true) eq_refl) as [Hquiet Hrearm].
  split.
  - apply Hquiet. closed_Forall.
  - destruct (Hrearm [(1065, PyFloat 85); (1070, PyFloat 10);
                      (1075, PyFloat 85)] 1700 (PyFloat 85))
      as (pre & r & episode & Heq & Hr & Hep & _).
    + vm_compute. discriminate.
    + exists pre, r, episode. auto.
Defined.

(** ** The checks of the monitors run the per-state check *)


Lemma cpu_check_raises (m : Cpu.Monitor) (t : Q) (u : pynum)
    (call : AlertCall Cpu.AlertType) :
  call ∈ (Cpu.check_cpu_thresholds m t (Some u)).2
  <-> exists name state,
        Cpu.alert_states m !! name = Some state
        /\ String.prefix "cpu_" name = true
        /\ call ∈ (evaluate false (config state) no_context state t u).2.
Proof.
  simpl. rewrite list_elem_of_In, in_flat_map. split.
  - intros ([name state] & Hin & Hcall).
    apply list_elem_of_In, elem_of_map_to_list in Hin.
    unfold Cpu.check_named in Hcall. simpl in Hcall.
    destruct (String.prefix "cpu_" name) eqn:Hp; [|destruct Hcall].
    exists name, state. repeat split; auto. apply list_elem_of_In, Hcall.
  - intros (name & state & Hst & Hp & Hcall).
    exists (name, state). split.
    + apply list_elem_of_In, elem_of_map_to_list. exact Hst.
    + unfold Cpu.check_named. simpl. rewrite Hp.
      apply list_elem_of_In, Hcall.
Qed.


(** ** The invariant of the data model *)

Lemma fold_left_invariant {A B : Type} (P : A -> Prop) (f : A -> B -> A)
    (l : list B) (a : A) :
  P a -> (forall a b, P a -> P (f a b)) -> P (fold_left f l a).
Proof.
  intros Ha Hstep. revert a Ha.
  induction l as [|b l IH]; intros a Ha; simpl; auto.
Qed.

Section Invariant.

Context {AT : Type}.

Lemma new_state_ok (c : ThresholdConfig AT) : state_ok (new_state c).
Proof. unfold state_ok. simpl. discriminate. Qed.

(** The check establishes the invariant whatever the state was. *)
Lemma evaluate_ok (inverted : bool) (cfg : ThresholdConfig AT)
    (ctx : AlertContext) (state : AlertState AT) (t : Q) (v : pynum) :
  state_ok (evaluate inverted cfg ctx state t v).1.
Proof.
  unfold evaluate, state_ok.
  destruct (threshold_exceeded inverted cfg v); [|simpl; discriminate].
  destruct state as [c [since|] last cur act]; simpl.
  - destruct (ge_bool (t - since) (duration_seconds cfg) && negb act);
      [destruct (ge_bool (t - last) (cooldown_minutes cfg * 60))|];
      simpl; discriminate.
  - destruct (ge_bool (t - t) (duration_seconds cfg) && negb act);
      [destruct (ge_bool (t - last) (cooldown_minutes cfg * 60))|];
      simpl; discriminate.
Qed.

Lemma new_states_ok (cs : gmap string (ThresholdConfig AT)) :
  map_Forall (fun _ => state_ok) (new_state <$> cs).
Proof.
  apply map_Forall_lookup. intros i x Hx.
  apply lookup_fmap_Some in Hx as (c & <- & _). apply new_state_ok.
Qed.

Lemma evaluate_all_ok (ctx : AlertContext) (t : Q) (v : pynum)
    (states : gmap string (AlertState AT)) :
  map_Forall (fun _ => state_ok) (evaluate_all ctx t v states).1.
Proof.
  apply map_Forall_lookup. intros i x Hx. simpl in Hx.
  apply lookup_fmap_Some in Hx as (st & <- & _). apply evaluate_ok.
Qed.

Lemma union_ok (new old : gmap string (AlertState AT)) :
  map_Forall (fun _ => state_ok) new ->
  map_Forall (fun _ => state_ok) old ->
  map_Forall (fun _ => state_ok) (new ∪ old).
Proof.
  intros Hn Ho. apply map_Forall_lookup. intros i x Hx.
  apply lookup_union_Some_raw in Hx as [Hx|[_ Hx]].
  - exact (map_Forall_lookup_1 _ _ _ _ Hn Hx).
  - exact (map_Forall_lookup_1 _ _ _ _ Ho Hx).
Qed.

End Invariant.

Module CpuFacts.
Import Cpu.

Lemma cpu_set_threshold_ok (m : Monitor) (name : string) (th : pynum) (dur : Q)
    (sev : AlertSeverity) (msg : option string) :
  monitor_ok m -> monitor_ok (set_threshold m name th dur sev msg).
Proof.
  intros (Hg & Hc & Hp). unfold set_threshold, monitor_ok. simpl.
  split; [|split; assumption].
  destruct (alert_states m !! name); [|assumption].
  match goal with
  | |- context [?t !! name] => destruct (t !! name)
  end; [|assumption].
  apply map_Forall_insert_2; [apply new_state_ok|assumption].
Qed.

Lemma cpu_initialize_core_thresholds_ok (m : Monitor) (id : Z) :
  monitor_ok m -> monitor_ok (initialize_core_thresholds m id).
Proof.
  intros (Hg & Hc & Hp). unfold initialize_core_thresholds.
  destruct (core_thresholds m !! id); [repeat split; assumption|].
  unfold monitor_ok. simpl. repeat split; try assumption.
  apply map_Forall_insert_2; [apply new_states_ok|assumption].
Qed.

Lemma cpu_ensure_cores_ok (m : Monitor) (core_stats : list CoreStat) :
  monitor_ok m -> monitor_ok (fold_left ensure_core core_stats m).
Proof.
  intros Hm. apply fold_left_invariant; [exact Hm|].
  intros a b Ha. unfold ensure_core.
  destruct (core_id b); [apply cpu_initialize_core_thresholds_ok|]; exact Ha.
Qed.

Lemma cpu_initialize_alert_states_ok (m : Monitor)
    (core_stats : list CoreStat) :
  monitor_ok m -> monitor_ok (initialize_alert_states m core_stats).
Proof.
  intros (Hg & Hc & Hp). unfold initialize_alert_states.
  apply (cpu_ensure_cores_ok _ core_stats).
  unfold monitor_ok. simpl. repeat split; try assumption.
  apply union_ok; [apply new_states_ok|assumption].
Qed.

Lemma cpu_check_cpu_thresholds_ok (m : Monitor) (t : Q) (u : option pynum) :
  monitor_ok m -> monitor_ok (check_cpu_thresholds m t u).1.
Proof.
  intros (Hg & Hc & Hp). unfold check_cpu_thresholds.
  destruct u as [u|]; [|repeat split; assumption].
  unfold monitor_ok. simpl. repeat split; try assumption.
  apply map_Forall_lookup. intros i x Hx.
  rewrite map_lookup_imap in Hx.
  destruct (alert_states m !! i) as [st|] eqn:Hst; simpl in Hx; [|discriminate].
  injection Hx as <-. unfold check_named.
  destruct (String.prefix "cpu_" i); [apply evaluate_ok|].
  exact (map_Forall_lookup_1 _ _ _ _ Hg Hst).
Qed.

Lemma cpu_check_core_ok (t : Q) (acc : Monitor * list (AlertCall AlertType))
    (core : CoreStat) :
  monitor_ok acc.1 -> monitor_ok (check_core t acc core).1.
Proof.
  intros Hm. unfold check_core.
  destruct (core_id core) as [id|]; [|exact Hm].
  destruct (core_alert_states acc.1 !! id) as [states|]; [|exact Hm].
  destruct Hm as (Hg & Hc & Hp).
  unfold monitor_ok. simpl. repeat split; try assumption.
  apply map_Forall_insert_2; [apply evaluate_all_ok|assumption].
Qed.

Lemma cpu_check_core_thresholds_ok (m : Monitor) (t : Q)
    (core_stats : list CoreStat) :
  monitor_ok m -> monitor_ok (check_core_thresholds m t core_stats).1.
Proof.
  intros Hm. unfold check_core_thresholds.
  destruct core_stats as [|c cs]; [exact Hm|].
  apply (fold_left_invariant (fun acc => monitor_ok acc.1)).
  - simpl fst. apply (cpu_ensure_cores_ok m (c :: cs) Hm).
  - intros a b. apply cpu_check_core_ok.
Qed.

Lemma cpu_check_process_ok (cs : gmap string (ThresholdConfig AlertType))
    (t : Q) (acc : ProcessLoop)
    (proc : Process) :
  map_Forall (fun _ => map_Forall (fun _ => state_ok)) (loop_states acc) ->
  map_Forall (fun _ => map_Forall (fun _ => state_ok))
             (loop_states (check_process cs t acc proc)).
Proof.
  intros H. unfold check_process.
  destruct (pid proc) as [p|]; [|exact H]. simpl.
  apply map_Forall_insert_2; [|exact H].
  apply map_Forall_lookup. intros i x Hx.
  apply lookup_fmap_Some in Hx as (st & <- & _). apply evaluate_ok.
Qed.

Lemma cpu_clean_up_ok (seen : gset Z)
    (states : gmap Z (gmap string (AlertState AlertType))) :
  map_Forall (fun _ => map_Forall (fun _ => state_ok)) states ->
  map_Forall (fun _ => map_Forall (fun _ => state_ok)) (clean_up seen states).
Proof.
  intros H. apply map_Forall_lookup. intros i x Hx.
  unfold clean_up in Hx. apply lookup_foldr_delete_Some in Hx as [_ Hx].
  exact (map_Forall_lookup_1 _ _ _ _ H Hx).
Qed.

Lemma cpu_check_process_thresholds_ok (m : Monitor) (t : Q)
    (procs : option (list Process)) :
  monitor_ok m -> monitor_ok (check_process_thresholds m t procs).1.
Proof.
  intros (Hg & Hc & Hp). unfold check_process_thresholds.
  destruct procs as [[|p ps]|]; try (repeat split; assumption).
  unfold monitor_ok. simpl fst. simpl. repeat split; try assumption.
  apply cpu_clean_up_ok.
  apply (fold_left_invariant
           (fun acc => map_Forall (fun _ => map_Forall (fun _ => state_ok))
                                  (loop_states acc))).
  - apply cpu_check_process_ok. exact Hp.
  - intros a b. apply cpu_check_process_ok.
Qed.

Lemma cpu_check_sustained_load_ok (m : Monitor) (t : Q) :
  monitor_ok m -> monitor_ok (check_sustained_load m t).1.
Proof.
  intros Hm. unfold check_sustained_load.
  destruct (length (cpu_history m) <? 10)%nat; [exact Hm|].
  destruct (thresholds m !! "cpu_usage_sustained"); [|exact Hm].
  destruct (alert_states m !! "cpu_usage_sustained"); [|exact Hm].
  destruct Hm as (Hg & Hc & Hp).
  unfold monitor_ok. simpl. repeat split; try assumption.
  apply map_Forall_insert_2; [apply evaluate_ok|assumption].
Qed.

Lemma cpu_perform_ok (m : Monitor) (op : Operation) :
  monitor_ok m -> monitor_ok (perform m op).1.
Proof.
  intros Hm.
  destruct op as [cs| |name th dur sev msg|t u|t cs|t ps|t]; simpl.
  - unfold start. destruct (running m); [exact Hm|].
    destruct (cpu_initialize_alert_states_ok m cs Hm) as (? & ? & ?).
    repeat split; assumption.
  - destruct Hm as (? & ? & ?). repeat split; assumption.
  - apply cpu_set_threshold_ok, Hm.
  - apply cpu_check_cpu_thresholds_ok, Hm.
  - apply cpu_check_core_thresholds_ok, Hm.
  - apply cpu_check_process_thresholds_ok, Hm.
  - apply cpu_check_sustained_load_ok, Hm.
Qed.

Lemma cpu_perform_all_ok (ops : list Operation) (m : Monitor) :
  monitor_ok m -> monitor_ok (perform_all m ops).1.
Proof.
  revert m. induction ops as [|op ops IH]; intros m Hm; simpl.
  - exact Hm.
  - apply IH, cpu_perform_ok, Hm.
Qed.

Lemma cpu_init_ok : monitor_ok init.
Proof.
  repeat split; apply map_Forall_empty.
Qed.

End CpuFacts.

Module NetFacts.
Import Net.

Lemma net_set_threshold_ok (m : Monitor) (name : string) (th : pynum) (dur : Q)
    (sev : AlertSeverity) (msg : option string) :
  monitor_ok m -> monitor_ok (set_threshold m name th dur sev msg).
Proof.
  intros (Hg & Hi & Hp & Hw). unfold set_threshold, monitor_ok. simpl.
  split; [|repeat split; assumption].
  destruct (alert_states m !! name); [|assumption].
  match goal with
  | |- context [?t !! name] => destruct (t !! name)
  end; [|assumption].
  apply map_Forall_insert_2; [apply new_state_ok|assumption].
Qed.

Lemma net_initialize_interface_thresholds_ok (m : Monitor) (n : string) :
  monitor_ok m -> monitor_ok (initialize_interface_thresholds m n).
Proof.
  intros (Hg & Hi & Hp & Hw). unfold initialize_interface_thresholds.
  destruct (interface_thresholds m !! n); [repeat split; assumption|].
  unfold monitor_ok. simpl. repeat split; try assumption.
  apply map_Forall_insert_2; [apply new_states_ok|assumption].
Qed.

Lemma net_ensure_interfaces_ok (m : Monitor) (interfaces : list Interface) :
  monitor_ok m -> monitor_ok (fold_left ensure_interface interfaces m).
Proof.
  intros Hm. apply fold_left_invariant; [exact Hm|].
  intros a b Ha. unfold ensure_interface.
  destruct (truthy (name b));
    [apply net_initialize_interface_thresholds_ok|]; exact Ha.
Qed.

Lemma net_initialize_alert_states_ok (m : Monitor)
    (interfaces : list Interface) :
  monitor_ok m -> monitor_ok (initialize_alert_states m interfaces).
Proof.
  intros (Hg & Hi & Hp & Hw). unfold initialize_alert_states.
  match goal with
  | |- context [fold_left ensure_interface interfaces ?m0] =>
      assert (H0 : monitor_ok (fold_left ensure_interface interfaces m0))
  end.
  { apply net_ensure_interfaces_ok. unfold monitor_ok. simpl.
    repeat split; try assumption.
    apply union_ok; [apply new_states_ok|assumption]. }
  destruct H0 as (Hg' & Hi' & Hp' & Hw').
  unfold monitor_ok. simpl. repeat split; try assumption.
  apply union_ok; [apply new_states_ok|assumption].
Qed.

Lemma net_check_threshold_ok (m : Monitor) (n : string) (v : pynum) (t : Q) :
  monitor_ok m -> monitor_ok (check_threshold m n v t).1.
Proof.
  intros Hm. unfold check_threshold.
  destruct (alert_states m !! n); [|exact Hm].
  destruct Hm as (Hg & Hi & Hp & Hw).
  unfold monitor_ok. simpl. repeat split; try assumption.
  apply map_Forall_insert_2; [apply evaluate_ok|assumption].
Qed.

Lemma net_check_bandwidth_thresholds_ok (m : Monitor) (t : Q)
    (u : option BandwidthUsage) :
  monitor_ok m -> monitor_ok (check_bandwidth_thresholds m t u).1.
Proof.
  intros Hm. unfold check_bandwidth_thresholds.
  destruct u as [u|]; [|exact Hm]. simpl fst.
  do 4 apply net_check_threshold_ok.
  destruct Hm as (Hg & Hi & Hp & Hw). repeat split; assumption.
Qed.

Lemma net_evaluate_key_ok (key : string) (ctx : AlertContext) (t : Q)
    (v : pynum) (states : gmap string (AlertState NetworkAlertType)) :
  map_Forall (fun _ => state_ok) states ->
  map_Forall (fun _ => state_ok) (evaluate_key key ctx t v states).1.
Proof.
  intros H. unfold evaluate_key.
  destruct (states !! key); [|exact H]. simpl.
  apply map_Forall_insert_2; [apply evaluate_ok|exact H].
Qed.

Lemma net_check_interface_ok (bw : option (string -> pynum)) (t : Q)
    (acc : Monitor * list (AlertCall NetworkAlertType))
    (interface : Interface) :
  monitor_ok acc.1 -> monitor_ok (check_interface bw t acc interface).1.
Proof.
  intros Hm. unfold check_interface.
  destruct (truthy (name interface)) as [n|]; [|exact Hm].
  destruct (interface_alert_states acc.1 !! n) as [states|] eqn:Hn;
    [|exact Hm].
  destruct (negb _); [exact Hm|].
  destruct Hm as (Hg & Hi & Hp & Hw).
  unfold monitor_ok. simpl. repeat split; try assumption.
  apply map_Forall_insert_2; [|assumption].
  do 2 apply net_evaluate_key_ok.
  exact (map_Forall_lookup_1 _ _ _ _ Hi Hn).
Qed.

Lemma net_check_interface_thresholds_ok (m : Monitor) (t : Q)
    (bw : option (string -> pynum)) (interfaces : list Interface) :
  monitor_ok m -> monitor_ok (check_interface_thresholds m t bw interfaces).1.
Proof.
  intros Hm. unfold check_interface_thresholds.
  destruct interfaces as [|i ifs]; [exact Hm|].
  apply (fold_left_invariant (fun acc => monitor_ok acc.1)).
  - simpl fst. apply (net_ensure_interfaces_ok m (i :: ifs) Hm).
  - intros a b. apply net_check_interface_ok.
Qed.

Lemma net_check_process_ok
    (cs : gmap string (ThresholdConfig NetworkAlertType)) (t : Q)
    (acc : ProcessLoop)
    (proc : Process) :
  map_Forall (fun _ => map_Forall (fun _ => state_ok)) (loop_states acc) ->
  map_Forall (fun _ => map_Forall (fun _ => state_ok))
             (loop_states (check_process cs t acc proc)).
Proof.
  intros H. unfold check_process. simpl.
  apply map_Forall_insert_2; [|exact H].
  apply net_evaluate_key_ok.
  destruct (loop_states acc !! process_key proc)
    as [states|] eqn:Hn.
  - exact (map_Forall_lookup_1 _ _ _ _ H Hn).
  - apply new_states_ok.
Qed.

Lemma net_clean_up_ok (seen : gset string)
    (states : gmap string (gmap string (AlertState NetworkAlertType))) :
  map_Forall (fun _ => map_Forall (fun _ => state_ok)) states ->
  map_Forall (fun _ => map_Forall (fun _ => state_ok)) (clean_up seen states).
Proof.
  intros H. apply map_Forall_lookup. intros i x Hx.
  unfold clean_up in Hx. apply lookup_foldr_delete_Some in Hx as [_ Hx].
  exact (map_Forall_lookup_1 _ _ _ _ H Hx).
Qed.

Lemma net_check_process_thresholds_ok (m : Monitor) (t : Q)
    (procs : option (list Process)) :
  monitor_ok m -> monitor_ok (check_process_thresholds m t procs).1.
Proof.
  intros (Hg & Hi & Hp & Hw). unfold check_process_thresholds.
  destruct procs as [[|p ps]|]; try (repeat split; assumption).
  unfold monitor_ok. simpl fst. simpl. repeat split; try assumption.
  apply net_clean_up_ok.
  apply (fold_left_invariant
           (fun acc => map_Forall (fun _ => map_Forall (fun _ => state_ok))
                                  (loop_states acc))).
  - apply net_check_process_ok. exact Hp.
  - intros a b. apply net_check_process_ok.
Qed.

Lemma net_perform_ok (m : Monitor) (op : Operation) :
  monitor_ok m -> monitor_ok (perform m op).1.
Proof.
  intros Hm.
  destruct op as [ifs| |n th dur sev msg|t u|t bw ifs|t ps|t w|t|t c]; simpl.
  - unfold start. destruct (running m); [exact Hm|].
    destruct (net_initialize_alert_states_ok m ifs Hm) as (? & ? & ? & ?).
    repeat split; assumption.
  - destruct Hm as (? & ? & ? & ?). repeat split; assumption.
  - apply net_set_threshold_ok, Hm.
  - apply net_check_bandwidth_thresholds_ok, Hm.
  - apply net_check_interface_thresholds_ok, Hm.
  - apply net_check_process_thresholds_ok, Hm.
  - unfold check_wifi_thresholds. destruct w as [w|]; [|exact Hm].
    destruct (negb _); [exact Hm|]. apply net_check_threshold_ok, Hm.
  - unfold check_sustained_bandwidth.
    destruct (length (bandwidth_history m) <? 10)%nat; [exact Hm|].
    destruct (thresholds m !! "bandwidth_usage_sustained"); [|exact Hm].
    destruct (alert_states m !! "bandwidth_usage_sustained"); [|exact Hm].
    apply net_check_threshold_ok, Hm.
  - unfold check_connection_thresholds. destruct c as [c|]; [|exact Hm].
    apply net_check_threshold_ok, Hm.
Qed.

Lemma net_perform_all_ok (ops : list Operation) (m : Monitor) :
  monitor_ok m -> monitor_ok (perform_all m ops).1.
Proof.
  revert m. induction ops as [|op ops IH]; intros m Hm; simpl.
  - exact Hm.
  - apply IH, net_perform_ok, Hm.
Qed.

Lemma net_init_ok : monitor_ok init.
Proof.
  repeat split; apply map_Forall_empty.
Qed.

End NetFacts.

(** C4 (invariant of the alert states).  Whatever operations a monitor has
    been taken through since it was constructed (start with its state
    initialization, stop, [set_threshold], any of the per-tick checks),
    every state it tracks satisfies: [is_active] implies that
    [exceeded_since] is not [None]. *)
Theorem active_has_exceeded_since :
  (forall ops : list Cpu.Operation,
     Cpu.monitor_ok (Cpu.perform_all Cpu.init ops).1)
  /\ (forall ops : list Net.Operation,
        Net.monitor_ok (Net.perform_all Net.init ops).1).
Proof.
  split; intros ops.
  - apply CpuFacts.cpu_perform_all_ok, CpuFacts.cpu_init_ok.
  - apply NetFacts.net_perform_all_ok, NetFacts.net_init_ok.
Qed.

(** ** Registering thresholds *)

Lemma cpu_set_threshold_registers (m : Cpu.Monitor) (name : string)
    (th : pynum) (dur : Q) (sev : AlertSeverity) (msg : option string) :
  exists cfg,
    Cpu.thresholds (Cpu.set_threshold m name th dur sev msg) !! name
    = Some cfg
    /\ threshold cfg = th
    /\ duration_seconds cfg = dur
    /\ severity cfg = sev
    /\ alert_message cfg
       = default (match Cpu.thresholds m !! name with
                  | Some old => alert_message old
                  | None =>
                      "Threshold {threshold}% exceeded for {duration} minutes"
                  end)
                 (Cpu.given msg).
Proof.
  unfold Cpu.set_threshold. simpl.
  destruct (Cpu.thresholds m !! name) as [old|];
    rewrite lookup_insert_eq; eexists; repeat split; reflexivity.
Qed.

Lemma net_set_threshold_registers (m : Net.Monitor) (name : string)
    (th : pynum) (dur : Q) (sev : AlertSeverity) (msg : option string) :
  exists cfg,
    Net.thresholds (Net.set_threshold m name th dur sev msg) !! name
    = Some cfg
    /\ threshold cfg = th
    /\ duration_seconds cfg = dur
    /\ severity cfg = sev
    /\ alert_message cfg
       = default (match Net.thresholds m !! name with
                  | Some old => alert_message old
                  | None =>
                      "Network threshold {threshold} exceeded for {duration} minutes"
                  end)
                 (Net.given msg).
Proof.
  unfold Net.set_threshold. simpl.
  destruct (Net.thresholds m !! name) as [old|];
    rewrite lookup_insert_eq; eexists; repeat split; reflexivity.
Qed.

(** C5, as the specification states it, fails: a negative duration is not
    rejected.  [set_threshold("cpu_usage_high", 80.0, -5.0)] on a new
    monitor replaces the duration of 60 seconds by -5. *)
Lemma negative_duration_is_stored :
  (duration_seconds
     <$> Cpu.thresholds
           (Cpu.set_threshold Cpu.init "cpu_usage_high" (PyFloat 80) (-5)
                              WARNING None) !! "cpu_usage_high")
  = Some (-5)
  /\ (duration_seconds <$> Cpu.thresholds Cpu.init !! "cpu_usage_high")
     = Some 60
  /\ ~ (-5 == 60).
Proof.
  split; [|split]; [vm_compute; reflexivity..|].
  intros H. vm_compute in H. discriminate.
Qed.

(** C5, amended.  [set_threshold] of either monitor validates nothing:
    whatever the values, a negative duration included, the entry
    registered under the name afterwards carries the given threshold,
    duration and severity; only the message falls back, to the previous
    one or to the default template, when none is given.  The call always
    returns. *)
Theorem set_threshold_stores_given_values (name : string) (th : pynum)
    (dur : Q) (sev : AlertSeverity) (msg : option string) :
  (forall m : Cpu.Monitor,
     exists cfg,
       Cpu.thresholds (Cpu.set_threshold m name th dur sev msg) !! name
       = Some cfg
       /\ threshold cfg = th
       /\ duration_seconds cfg = dur
       /\ severity cfg = sev
       /\ alert_message cfg
          = default (match Cpu.thresholds m !! name with
                     | Some old => alert_message old
                     | None =>
                         "Threshold {threshold}% exceeded for {duration} minutes"
                     end)
                    (Cpu.given msg))
  /\ (forall m : Net.Monitor,
        exists cfg,
          Net.thresholds (Net.set_threshold m name th dur sev msg) !! name
          = Some cfg
          /\ threshold cfg = th
          /\ duration_seconds cfg = dur
          /\ severity cfg = sev
          /\ alert_message cfg
             = default (match Net.thresholds m !! name with
                        | Some old => alert_message old
                        | None =>
                            "Network threshold {threshold} exceeded for {duration} minutes"
                        end)
                       (Net.given msg)).
Proof.
  split; intros m.
  - apply cpu_set_threshold_registers.
  - apply net_set_threshold_registers.
Qed.

(** ** A threshold registered without an alert state *)

Lemma fold_left_commute {A B : Type} (g : A -> A) (f : A -> B -> A)
    (l : list B) (a : A) :
  (forall a b, f (g a) b = g (f a b)) ->
  fold_left f l (g a) = g (fold_left f l a).
Proof.
  intros H. revert a. induction l as [|b l IH]; intros a; simpl.
  - reflexivity.
  - rewrite H. apply IH.
Qed.

(** The checks other than the sustained one do not read the registry. *)
Lemma cpu_check_cpu_frame (m : Cpu.Monitor)
    (th : gmap string (ThresholdConfig Cpu.AlertType))
    (t : Q) (u : option pynum) :
  Cpu.check_cpu_thresholds (Cpu.with_thresholds m th) t u
  = (Cpu.with_thresholds (Cpu.check_cpu_thresholds m t u).1 th,
     (Cpu.check_cpu_thresholds m t u).2).
Proof. destruct u; reflexivity. Qed.

Lemma cpu_ensure_core_frame (th : gmap string (ThresholdConfig Cpu.AlertType))
    (m : Cpu.Monitor)
    (core : Cpu.CoreStat) :
  Cpu.ensure_core (Cpu.with_thresholds m th) core
  = Cpu.with_thresholds (Cpu.ensure_core m core) th.
Proof.
  unfold Cpu.ensure_core, Cpu.initialize_core_thresholds.
  destruct (Cpu.core_id core) as [id|]; [|reflexivity]. simpl.
  destruct (Cpu.core_thresholds m !! id); reflexivity.
Qed.

Lemma cpu_check_core_frame (m : Cpu.Monitor)
    (th : gmap string (ThresholdConfig Cpu.AlertType))
    (t : Q) (cs : list Cpu.CoreStat) :
  Cpu.check_core_thresholds (Cpu.with_thresholds m th) t cs
  = (Cpu.with_thresholds (Cpu.check_core_thresholds m t cs).1 th,
     (Cpu.check_core_thresholds m t cs).2).
Proof.
  unfold Cpu.check_core_thresholds.
  destruct cs as [|c cs]; [reflexivity|].
  remember (c :: cs) as l eqn:Hl. clear Hl.
  rewrite (fold_left_commute (fun m => Cpu.with_thresholds m th))
    by (intros; apply cpu_ensure_core_frame).
  apply (fold_left_commute
           (fun acc : Cpu.Monitor * list (AlertCall Cpu.AlertType) =>
              (Cpu.with_thresholds acc.1 th, acc.2))
           (Cpu.check_core t) l (fold_left Cpu.ensure_core l m, [])).
  intros acc core. unfold Cpu.check_core. simpl.
  destruct (Cpu.core_id core) as [id|]; [|reflexivity].
  destruct (Cpu.core_alert_states acc.1 !! id); reflexivity.
Qed.

(** The per-core check leaves the global states alone. *)
Lemma cpu_check_core_alert_states (m : Cpu.Monitor) (t : Q)
    (cs : list Cpu.CoreStat) :
  Cpu.alert_states (Cpu.check_core_thresholds m t cs).1 = Cpu.alert_states m.
Proof.
  unfold Cpu.check_core_thresholds.
  destruct cs as [|c cs]; [reflexivity|].
  remember (c :: cs) as l eqn:Hl. clear Hl.
  apply (fold_left_invariant
           (fun acc : Cpu.Monitor * list (AlertCall Cpu.AlertType) =>
              Cpu.alert_states acc.1 = Cpu.alert_states m)).
  - simpl. apply (fold_left_invariant
                    (fun m' => Cpu.alert_states m' = Cpu.alert_states m));
      [reflexivity|].
    intros a b Ha. unfold Cpu.ensure_core, Cpu.initialize_core_thresholds.
    destruct (Cpu.core_id b) as [id|]; [|exact Ha].
    destruct (Cpu.core_thresholds a !! id); exact Ha.
  - intros acc core Ha. unfold Cpu.check_core.
    destruct (Cpu.core_id core) as [id|]; [|exact Ha].
    destruct (Cpu.core_alert_states acc.1 !! id); exact Ha.
Qed.

Lemma cpu_check_process_frame (m : Cpu.Monitor)
    (th : gmap string (ThresholdConfig Cpu.AlertType))
    (t : Q) (ps : option (list Cpu.Process)) :
  Cpu.check_process_thresholds (Cpu.with_thresholds m th) t ps
  = (Cpu.with_thresholds (Cpu.check_process_thresholds m t ps).1 th,
     (Cpu.check_process_thresholds m t ps).2).
Proof. destruct ps as [[|p ps]|]; reflexivity. Qed.

Lemma cpu_agree_refl_after_set (m : Cpu.Monitor) (name : string)
    (th : pynum) (dur : Q) (sev : AlertSeverity) (msg : option string) :
  Cpu.alert_states m !! name = None ->
  Cpu.agree_on_tracked (Cpu.set_threshold m name th dur sev msg) m.
Proof.
  intros Hn. unfold Cpu.agree_on_tracked, Cpu.set_threshold. simpl.
  rewrite Hn. split; [reflexivity|].
  intros k Hk.
  destruct (decide (k = name)) as [->|Hne].
  - rewrite Hn in Hk. destruct Hk as [? Hk]. discriminate.
  - destruct (Cpu.thresholds m !! name);
      rewrite lookup_insert_ne by congruence; reflexivity.
Qed.

Lemma cpu_check_core_registry (m : Cpu.Monitor) (t : Q)
    (cs : list Cpu.CoreStat) :
  Cpu.thresholds (Cpu.check_core_thresholds m t cs).1 = Cpu.thresholds m.
Proof.
  unfold Cpu.check_core_thresholds.
  destruct cs as [|c cs]; [reflexivity|].
  remember (c :: cs) as l eqn:Hl. clear Hl.
  apply (fold_left_invariant
           (fun acc : Cpu.Monitor * list (AlertCall Cpu.AlertType) =>
              Cpu.thresholds acc.1 = Cpu.thresholds m)).
  - simpl. apply (fold_left_invariant
                    (fun m' => Cpu.thresholds m' = Cpu.thresholds m));
      [reflexivity|].
    intros a b Ha. unfold Cpu.ensure_core, Cpu.initialize_core_thresholds.
    destruct (Cpu.core_id b) as [id|]; [|exact Ha].
    destruct (Cpu.core_thresholds a !! id); exact Ha.
  - intros acc core Ha. unfold Cpu.check_core.
    destruct (Cpu.core_id core) as [id|]; [|exact Ha].
    destruct (Cpu.core_alert_states acc.1 !! id); exact Ha.
Qed.

Lemma cpu_perform_agree (m1 m2 : Cpu.Monitor) (op : Cpu.Operation) :
  Cpu.agree_on_tracked m1 m2 ->
  Cpu.is_start op = false ->
  Cpu.agree_on_tracked (Cpu.perform m1 op).1 (Cpu.perform m2 op).1
  /\ (Cpu.perform m1 op).2 = (Cpu.perform m2 op).2.
Proof.
  intros [Heq Hth] Hop.
  remember (Cpu.thresholds m1) as t1 eqn:E. clear E. subst m1.
  destruct op as [cs| |name th dur sev msg|t u|t cs|t ps|t]; simpl in *.
  - discriminate.
  - split; [|reflexivity]. split; [reflexivity|exact Hth].
  - split; [|reflexivity].
    unfold Cpu.set_threshold, Cpu.agree_on_tracked. simpl.
    destruct (Cpu.alert_states m2 !! name) as [st|] eqn:Hst.
    + rewrite <- (Hth name) by eauto.
      destruct (t1 !! name) as [old|] eqn:Hold; rewrite !lookup_insert_eq;
        (split; [reflexivity|]);
        intros k Hk; destruct (decide (k = name)) as [->|Hne];
        rewrite ?lookup_insert_eq, ?lookup_insert_ne by congruence;
        try reflexivity;
        apply Hth; rewrite lookup_insert_ne in Hk by congruence; exact Hk.
    + split.
      * destruct (t1 !! name), (Cpu.thresholds m2 !! name); reflexivity.
      * intros k Hk. destruct (decide (k = name)) as [->|Hne].
        -- rewrite Hst in Hk. destruct Hk as [? Hk]. discriminate.
        -- destruct (t1 !! name), (Cpu.thresholds m2 !! name);
             rewrite !lookup_insert_ne by congruence; auto.
  - rewrite cpu_check_cpu_frame. simpl. split; [|reflexivity].
    split; [reflexivity|]. intros k Hk.
    unfold Cpu.check_cpu_thresholds in *.
    destruct u as [u|]; simpl in *; apply Hth; [|exact Hk].
    rewrite map_lookup_imap in Hk.
    destruct (Cpu.alert_states m2 !! k); [eauto|].
    destruct Hk as [? Hk]. discriminate.
  - rewrite cpu_check_core_frame. simpl. split; [|reflexivity].
    split; [reflexivity|]. intros k Hk.
    rewrite cpu_check_core_registry. apply Hth.
    rewrite <- (cpu_check_core_alert_states m2 t cs). exact Hk.
  - rewrite cpu_check_process_frame. simpl. split; [|reflexivity].
    split; [reflexivity|]. intros k Hk.
    destruct ps as [[|p ps]|]; apply Hth; exact Hk.
  - unfold Cpu.check_sustained_load. simpl.
    destruct (length (Cpu.cpu_history m2) <? 10)%nat;
      [split; [split; [reflexivity|exact Hth]|reflexivity]|].
    destruct (Cpu.alert_states m2 !! "cpu_usage_sustained") as [st|] eqn:Hst.
    + rewrite (Hth "cpu_usage_sustained") by eauto.
      destruct (Cpu.thresholds m2 !! "cpu_usage_sustained") as [cfg|];
        [|split; [split; [reflexivity|exact Hth]|reflexivity]].
      simpl. split; [|reflexivity]. split; [reflexivity|].
      intros k Hk. apply Hth.
      destruct (decide (k = "cpu_usage_sustained")) as [->|Hne]; [eauto|].
      simpl in Hk. rewrite lookup_insert_ne in Hk by congruence. exact Hk.
    + destruct (t1 !! "cpu_usage_sustained"),
               (Cpu.thresholds m2 !! "cpu_usage_sustained");
        (split; [split; [reflexivity|exact Hth]|reflexivity]).
Qed.

Lemma cpu_perform_all_agree (ops : list Cpu.Operation) (m1 m2 : Cpu.Monitor) :
  Cpu.agree_on_tracked m1 m2 ->
  Forall (fun op => Cpu.is_start op = false) ops ->
  Cpu.agree_on_tracked (Cpu.perform_all m1 ops).1 (Cpu.perform_all m2 ops).1
  /\ (Cpu.perform_all m1 ops).2 = (Cpu.perform_all m2 ops).2.
Proof.
  revert m1 m2. induction ops as [|op ops IH]; intros m1 m2 Hag Hops; simpl.
  - auto.
  - apply Forall_cons_1 in Hops as [Hop Hops].
    destruct (cpu_perform_agree m1 m2 op Hag Hop) as [Hag' Hcalls].
    destruct (IH _ _ Hag' Hops) as [Hag'' Hcalls'].
    split; [exact Hag''|]. rewrite Hcalls, Hcalls'. reflexivity.
Qed.

(** Only [start] creates global alert states. *)
Lemma cpu_perform_no_new_state (m : Cpu.Monitor) (op : Cpu.Operation)
    (name : string) :
  Cpu.is_start op = false ->
  Cpu.alert_states m !! name = None ->
  Cpu.alert_states (Cpu.perform m op).1 !! name = None.
Proof.
  intros Hop Hn.
  destruct op as [cs| |n th dur sev msg|t u|t cs|t ps|t]; simpl in *.
  - discriminate.
  - exact Hn.
  - destruct (Cpu.alert_states m !! n) as [st|] eqn:Hst; [|exact Hn].
    match goal with
    | |- context [match ?x with Some _ => _ | None => _ end] => destruct x
    end; [|exact Hn].
    rewrite lookup_insert_ne by congruence. exact Hn.
  - unfold Cpu.check_cpu_thresholds. destruct u as [u|]; [|exact Hn].
    simpl. rewrite map_lookup_imap, Hn. reflexivity.
  - rewrite cpu_check_core_alert_states. exact Hn.
  - destruct ps as [[|p ps]|]; exact Hn.
  - unfold Cpu.check_sustained_load.
    destruct (length (Cpu.cpu_history m) <? 10)%nat; [exact Hn|].
    destruct (Cpu.thresholds m !! "cpu_usage_sustained"); [|exact Hn].
    destruct (Cpu.alert_states m !! "cpu_usage_sustained") eqn:Hs;
      [|exact Hn].
    simpl. rewrite lookup_insert_ne by congruence. exact Hn.
Qed.

Lemma cpu_perform_all_no_new_state (ops : list Cpu.Operation)
    (m : Cpu.Monitor) (name : string) :
  Forall (fun op => Cpu.is_start op = false) ops ->
  Cpu.alert_states m !! name = None ->
  Cpu.alert_states (Cpu.perform_all m ops).1 !! name = None.
Proof.
  revert m. induction ops as [|op ops IH]; intros m Hops Hn; simpl.
  - exact Hn.
  - apply Forall_cons_1 in Hops as [Hop Hops].
    apply IH; [exact Hops|]. apply cpu_perform_no_new_state; assumption.
Qed.

(** The entries of the per-core and per-process sections name their
    core or process. *)
Lemma cpu_scoped_alerts_scope (now : Q) (prefix : string)
    (ctx : Z -> AlertContext)
    (scoped : gmap Z (gmap string (AlertState Cpu.AlertType)))
    (key : string) (e : Cpu.ActiveAlert) :
  (key, e) ∈ Cpu.scoped_alerts now prefix ctx scoped ->
  exists id, Cpu.active_core_id e = ctx_core_id (ctx id)
             /\ Cpu.active_pid e = ctx_pid (ctx id).
Proof.
  intros Hin. apply list_elem_of_In in Hin.
  unfold Cpu.scoped_alerts in Hin.
  apply in_flat_map in Hin as ([id states] & _ & Hin).
  apply in_flat_map in Hin as ([n st] & _ & Hin). simpl in Hin.
  destruct (is_active st); [|destruct Hin].
  destruct Hin as [Heq|[]]. injection Heq as _ <-.
  exists id. split; reflexivity.
Qed.

Lemma cpu_global_alert_scope (now : Q) (m : Cpu.Monitor) (name : string)
    (e : Cpu.ActiveAlert) :
  Cpu.alert_states m !! name = None ->
  Cpu.get_active_alerts now m !! name = Some e ->
  Cpu.active_core_id e <> None \/ Cpu.active_pid e <> None.
Proof.
  intros Hn He. unfold Cpu.get_active_alerts in He.
  apply lookup_union_Some_raw in He as [He|[_ He]].
  - apply elem_of_list_to_map_2, cpu_scoped_alerts_scope in He
      as (id & _ & Hp).
    right. rewrite Hp. discriminate.
  - apply lookup_union_Some_raw in He as [He|[_ He]].
    + apply elem_of_list_to_map_2, cpu_scoped_alerts_scope in He
        as (id & Hc & _).
      left. rewrite Hc. discriminate.
    + rewrite lookup_omap, Hn in He. discriminate.
Qed.

(** C10 (a threshold registered without an alert state).  When
    [set_threshold] is called with a name the alert-state map has no entry
    for, the registry gets an entry for the name and the alert-state map
    stays as it is.  Through any operations that follow, [start] apart, the
    name never gets an alert state, the checks raise exactly the alerts
    they raise without the registration, and [get_active_alerts] reports
    what it reports without it: an entry under that key, if any, belongs
    to a core or to a process. *)
Theorem unstarted_threshold_is_inert (m : Cpu.Monitor) (name : string)
    (th : pynum) (dur : Q) (sev : AlertSeverity) (msg : option string) :
  Cpu.alert_states m !! name = None ->
  is_Some (Cpu.thresholds (Cpu.set_threshold m name th dur sev msg) !! name)
  /\ Cpu.alert_states (Cpu.set_threshold m name th dur sev msg)
     = Cpu.alert_states m
  /\ forall ops : list Cpu.Operation,
       Forall (fun op => Cpu.is_start op = false) ops ->
       let after :=
         Cpu.perform_all (Cpu.set_threshold m name th dur sev msg) ops in
       Cpu.alert_states after.1 !! name = None
       /\ after.2 = (Cpu.perform_all m ops).2
       /\ forall now : Q,
            Cpu.get_active_alerts now after.1
            = Cpu.get_active_alerts now (Cpu.perform_all m ops).1
            /\ forall e,
                 Cpu.get_active_alerts now after.1 !! name = Some e ->
                 Cpu.active_core_id e <> None \/ Cpu.active_pid e <> None.
Proof.
  intros Hn.
  pose proof (cpu_agree_refl_after_set m name th dur sev msg Hn) as Hag.
  split; [|split].
  - destruct (cpu_set_threshold_registers m name th dur sev msg)
      as (cfg & Hcfg & _). eauto.
  - destruct Hag as [Heq _]. rewrite Heq. reflexivity.
  - intros ops Hops after.
    destruct (cpu_perform_all_agree ops _ _ Hag Hops) as [[Heq _] Hcalls].
    assert (Hnone : Cpu.alert_states after.1 !! name = None).
    { apply cpu_perform_all_no_new_state; [exact Hops|].
      destruct Hag as [Heq' _]. rewrite Heq'. exact Hn. }
    split; [exact Hnone|]. split; [exact Hcalls|].
    intros now. split.
    + unfold after. rewrite Heq. reflexivity.
    + intros e. apply cpu_global_alert_scope. exact Hnone.
Qed.

Lemma unstarted_threshold_is_inert_witness :
  let ops := [Cpu.CheckCpu 1700000000 (Some (PyFloat 99));
              Cpu.CheckCpu 1700000060 (Some (PyFloat 99))] in
  let m := Cpu.start Cpu.init [] in
  let m' := Cpu.set_threshold m "cpu_custom" (PyFloat 50) 10 WARNING None in
  Cpu.alert_states (Cpu.perform_all m' ops).1 !! "cpu_custom" = None
  /\ (Cpu.perform_all m' ops).2 = (Cpu.perform_all m ops).2.
Proof.
  intros ops m m'.
  destruct (unstarted_threshold_is_inert m "cpu_custom" (PyFloat 50) 10
              WARNING None ltac:(vm_compute; reflexivity)) as (_ & _ & H).
  destruct (H ops ltac:(repeat constructor)) as (H1 & H2 & _).
  split; assumption.
Defined.

(** ** Pruning of the per-process states *)

Lemma any_active_false {AT : Type} (states : gmap string (AlertState AT)) :
  any_active states = false
  <-> forall n st, states !! n = Some st -> is_active st = false.
Proof.
  unfold any_active. split.
  - intros H n st Hst.
    destruct (is_active st) eqn:Ha; [|reflexivity].
    assert (Hex : existsb (fun p => is_active p.2) (map_to_list states) = true).
    { apply existsb_exists. exists (n, st). split; [|exact Ha].
      apply list_elem_of_In, elem_of_map_to_list. exact Hst. }
    congruence.
  - intros H.
    destruct (existsb _ _) eqn:Hex; [|reflexivity].
    apply existsb_exists in Hex as ([n st] & Hin & Ha).
    apply list_elem_of_In, elem_of_map_to_list in Hin.
    simpl in Ha. rewrite (H n st Hin) in Ha. discriminate.
Qed.

Lemma cpu_clean_up_lookup (seen : gset Z)
    (states : gmap Z (gmap string (AlertState Cpu.AlertType))) (p : Z)
    (sts : gmap string (AlertState Cpu.AlertType)) :
  states !! p = Some sts ->
  Cpu.clean_up seen states !! p = None
  <-> (p ∉ seen) /\ any_active sts = false.
Proof.
  intros Hp. unfold Cpu.clean_up.
  assert (Hrm : p ∈ Cpu.pids_to_remove seen states
                <-> (p ∉ seen) /\ any_active sts = false).
  { unfold Cpu.pids_to_remove. rewrite list_elem_of_fmap. split.
    - intros ([q s] & -> & Hin). simpl in *.
      apply list_elem_of_In, filter_In in Hin as [Hin Hc].
      apply list_elem_of_In, elem_of_map_to_list in Hin.
      simpl in *. rewrite Hp in Hin. injection Hin as <-.
      apply andb_true_iff in Hc as [Hs Ha].
      apply negb_true_iff in Hs, Ha.
      apply bool_decide_eq_false in Hs. auto.
    - intros [Hs Ha]. exists (p, sts). split; [reflexivity|].
      apply list_elem_of_In, filter_In. split.
      + apply list_elem_of_In, elem_of_map_to_list. exact Hp.
      + simpl. apply andb_true_iff. split; apply negb_true_iff;
          [apply bool_decide_eq_false|]; assumption. }
  rewrite <- Hrm. split.
  - intros Hnone. destruct (decide (p ∈ Cpu.pids_to_remove seen states))
      as [Hin|Hnin]; [exact Hin|].
    rewrite lookup_foldr_delete_not_elem_of in Hnone by exact Hnin.
    congruence.
  - apply lookup_foldr_delete.
Qed.

Section CpuProcessLoop.

Variable pt : gmap string (ThresholdConfig Cpu.AlertType).
Variable t : Q.

Lemma cpu_loop_seen (procs : list Cpu.Process) (acc : Cpu.ProcessLoop)
    (p : Z) :
  p ∈ Cpu.seen_pids (fold_left (Cpu.check_process pt t) procs acc)
  <-> p ∈ Cpu.seen_pids acc \/ Some p ∈ Cpu.pid <$> procs.
Proof.
  revert acc. induction procs as [|proc procs IH]; intros acc; simpl.
  - rewrite elem_of_nil. tauto.
  - rewrite IH, elem_of_cons. unfold Cpu.check_process.
    destruct (Cpu.pid proc) as [q|]; simpl.
    + rewrite elem_of_union, elem_of_singleton.
      split; [intros [[->|H]|H]|intros [H|[H|H]]]; auto.
      injection H as ->. auto.
    + split; [intros [H|H]|intros [H|[H|H]]]; auto. discriminate.
Qed.

Lemma cpu_loop_untouched (procs : list Cpu.Process) (acc : Cpu.ProcessLoop)
    (p : Z) :
  Some p ∉ Cpu.pid <$> procs ->
  Cpu.loop_states (fold_left (Cpu.check_process pt t) procs acc) !! p
  = Cpu.loop_states acc !! p.
Proof.
  revert acc. induction procs as [|proc procs IH]; intros acc Hnin; simpl.
  - reflexivity.
  - simpl in Hnin. apply not_elem_of_cons in Hnin as [Hne Hnin].
    rewrite IH by exact Hnin. unfold Cpu.check_process.
    destruct (Cpu.pid proc) as [q|]; [|reflexivity]. simpl.
    apply lookup_insert_ne. congruence.
Qed.

Lemma cpu_loop_keeps (procs : list Cpu.Process) (acc : Cpu.ProcessLoop)
    (p : Z) :
  is_Some (Cpu.loop_states acc !! p) ->
  is_Some (Cpu.loop_states (fold_left (Cpu.check_process pt t) procs acc)
           !! p).
Proof.
  revert acc. induction procs as [|proc procs IH]; intros acc Hp; simpl.
  - exact Hp.
  - apply IH. unfold Cpu.check_process.
    destruct (Cpu.pid proc) as [q|]; [|exact Hp]. simpl.
    apply lookup_insert_is_Some'. auto.
Qed.

End CpuProcessLoop.

Lemma cpu_process_pruned (m : Cpu.Monitor) (t : Q)
    (procs : list Cpu.Process) (p : Z)
    (states : gmap string (AlertState Cpu.AlertType)) :
  procs <> [] ->
  Cpu.process_alert_states m !! p = Some states ->
  Cpu.process_alert_states
    (Cpu.check_process_thresholds m t (Some procs)).1 !! p = None
  <-> (Some p ∉ Cpu.pid <$> procs)
      /\ forall n st, states !! n = Some st -> is_active st = false.
Proof.
  intros Hne Hp. unfold Cpu.check_process_thresholds.
  destruct procs as [|proc procs]; [congruence|].
  remember (proc :: procs) as l eqn:Hl. clear Hl Hne. simpl.
  set (r := fold_left (Cpu.check_process (Cpu.process_thresholds m) t) l
                      (Cpu.mkLoop (Cpu.process_alert_states m) ∅ [])).
  assert (Hseen : p ∈ Cpu.seen_pids r <-> Some p ∈ Cpu.pid <$> l).
  { unfold r. rewrite cpu_loop_seen. simpl. rewrite elem_of_empty. tauto. }
  destruct (decide (Some p ∈ Cpu.pid <$> l)) as [Hin|Hnin].
  - assert (Hk : is_Some (Cpu.loop_states r !! p))
      by (apply cpu_loop_keeps; simpl; eauto).
    destruct Hk as [sts Hsts].
    rewrite (cpu_clean_up_lookup _ _ _ _ Hsts).
    split; [intros [Hns _]|intros [Hns _]]; tauto.
  - assert (Hsts : Cpu.loop_states r !! p = Some states)
      by (unfold r; rewrite cpu_loop_untouched by exact Hnin; exact Hp).
    rewrite (cpu_clean_up_lookup _ _ _ _ Hsts), any_active_false. tauto.
Qed.

Lemma net_clean_up_lookup (seen : gset string)
    (states : gmap string (gmap string (AlertState Net.NetworkAlertType)))
    (p : string)
    (sts : gmap string (AlertState Net.NetworkAlertType)) :
  states !! p = Some sts ->
  Net.clean_up seen states !! p = None
  <-> (p ∉ seen) /\ any_active sts = false.
Proof.
  intros Hp. unfold Net.clean_up.
  assert (Hrm : p ∈ Net.processes_to_remove seen states
                <-> (p ∉ seen) /\ any_active sts = false).
  { unfold Net.processes_to_remove. rewrite list_elem_of_fmap. split.
    - intros ([q s] & -> & Hin). simpl in *.
      apply list_elem_of_In, filter_In in Hin as [Hin Hc].
      apply list_elem_of_In, elem_of_map_to_list in Hin.
      simpl in *. rewrite Hp in Hin. injection Hin as <-.
      apply andb_true_iff in Hc as [Hs Ha].
      apply negb_true_iff in Hs, Ha.
      apply bool_decide_eq_false in Hs. auto.
    - intros [Hs Ha]. exists (p, sts). split; [reflexivity|].
      apply list_elem_of_In, filter_In. split.
      + apply list_elem_of_In, elem_of_map_to_list. exact Hp.
      + simpl. apply andb_true_iff. split; apply negb_true_iff;
          [apply bool_decide_eq_false|]; assumption. }
  rewrite <- Hrm. split.
  - intros Hnone. destruct (decide (p ∈ Net.processes_to_remove seen states))
      as [Hin|Hnin]; [exact Hin|].
    rewrite lookup_foldr_delete_not_elem_of in Hnone by exact Hnin.
    congruence.
  - apply lookup_foldr_delete.
Qed.

Section NetProcessLoop.

Variable pt : gmap string (ThresholdConfig Net.NetworkAlertType).
Variable t : Q.

Lemma net_loop_seen (procs : list Net.Process) (acc : Net.ProcessLoop)
    (p : string) :
  p ∈ Net.seen_processes (fold_left (Net.check_process pt t) procs acc)
  <-> p ∈ Net.seen_processes acc \/ p ∈ Net.process_key <$> procs.
Proof.
  revert acc. induction procs as [|proc procs IH]; intros acc; simpl.
  - rewrite elem_of_nil. tauto.
  - rewrite IH, elem_of_cons. unfold Net.check_process. simpl.
    rewrite elem_of_union, elem_of_singleton. tauto.
Qed.

Lemma net_loop_untouched (procs : list Net.Process) (acc : Net.ProcessLoop)
    (p : string) :
  p ∉ Net.process_key <$> procs ->
  Net.loop_states (fold_left (Net.check_process pt t) procs acc) !! p
  = Net.loop_states acc !! p.
Proof.
  revert acc. induction procs as [|proc procs IH]; intros acc Hnin; simpl.
  - reflexivity.
  - simpl in Hnin. apply not_elem_of_cons in Hnin as [Hne Hnin].
    rewrite IH by exact Hnin. unfold Net.check_process. simpl.
    apply lookup_insert_ne. congruence.
Qed.

Lemma net_loop_keeps (procs : list Net.Process) (acc : Net.ProcessLoop)
    (p : string) :
  is_Some (Net.loop_states acc !! p) ->
  is_Some (Net.loop_states (fold_left (Net.check_process pt t) procs acc)
           !! p).
Proof.
  revert acc. induction procs as [|proc procs IH]; intros acc Hp; simpl.
  - exact Hp.
  - apply IH. unfold Net.check_process. simpl.
    apply lookup_insert_is_Some'. auto.
Qed.

Lemma net_loop_tracks (procs : list Net.Process) (acc : Net.ProcessLoop)
    (p : string) :
  p ∈ Net.process_key <$> procs ->
  is_Some (Net.loop_states (fold_left (Net.check_process pt t) procs acc)
           !! p).
Proof.
  revert acc. induction procs as [|proc procs IH]; intros acc Hin; simpl.
  - apply elem_of_nil in Hin. destruct Hin.
  - simpl in Hin. apply elem_of_cons in Hin as [->|Hin].
    + apply net_loop_keeps. unfold Net.check_process. simpl.
      rewrite lookup_insert_eq. eauto.
    + apply IH, Hin.
Qed.

End NetProcessLoop.

Lemma net_process_pruned (m : Net.Monitor) (t : Q)
    (procs : list Net.Process) (p : string)
    (states : gmap string (AlertState Net.NetworkAlertType)) :
  procs <> [] ->
  Net.process_alert_states m !! p = Some states ->
  Net.process_alert_states
    (Net.check_process_thresholds m t (Some procs)).1 !! p = None
  <-> (p ∉ Net.process_key <$> procs)
      /\ forall n st, states !! n = Some st -> is_active st = false.
Proof.
  intros Hne Hp. unfold Net.check_process_thresholds.
  destruct procs as [|proc procs]; [congruence|].
  remember (proc :: procs) as l eqn:Hl. clear Hl Hne. simpl.
  set (r := fold_left (Net.check_process (Net.process_thresholds m) t) l
                      (Net.mkLoop (Net.process_alert_states m) ∅ [])).
  assert (Hseen : p ∈ Net.seen_processes r <-> p ∈ Net.process_key <$> l).
  { unfold r. rewrite net_loop_seen. simpl. rewrite elem_of_empty. tauto. }
  destruct (decide (p ∈ Net.process_key <$> l)) as [Hin|Hnin].
  - assert (Hk : is_Some (Net.loop_states r !! p))
      by (apply net_loop_keeps; simpl; eauto).
    destruct Hk as [sts Hsts].
    rewrite (net_clean_up_lookup _ _ _ _ Hsts).
    split; [intros [Hns _]|intros [Hns _]]; tauto.
  - assert (Hsts : Net.loop_states r !! p = Some states)
      by (unfold r; rewrite net_loop_untouched by exact Hnin; exact Hp).
    rewrite (net_clean_up_lookup _ _ _ _ Hsts), any_active_false. tauto.
Qed.

(** C9, as the specification states it, fails on a tick whose snapshot is
    empty: [_check_process_thresholds] returns before the clean-up.
    Process 42 is tracked with an inactive state; after a tick on the
    empty snapshot it is still tracked. *)
Lemma inactive_absent_process_is_kept :
  let m := (Cpu.check_process_thresholds Cpu.init 1000
              (Some [Cpu.mkProcess (Some 42%Z) (Some (PyFloat 10))
                                   (Some "top")])).1 in
  let m' := (Cpu.check_process_thresholds m 1005 (Some [])).1 in
  (exists states,
     Cpu.process_alert_states m !! 42%Z = Some states
     /\ any_active states = false)
  /\ (Some 42%Z ∉ Cpu.pid <$> [])
  /\ is_Some (Cpu.process_alert_states m' !! 42%Z).
Proof.
  split; [|split].
  - eexists. split; vm_compute; reflexivity.
  - apply not_elem_of_nil.
  - eexists. vm_compute. reflexivity.
Qed.

(** C9, amended.  On a per-process check tick whose snapshot is not
    empty, the states of a tracked process are removed from the tracking
    map exactly when the process is absent from the snapshot and none of
    its states is active; a process with an active state is kept across
    the tick in which it disappears.  On a tick whose snapshot is empty
    nothing is removed: the monitor is left as it is. *)
Theorem process_states_pruned :
  (forall (m : Cpu.Monitor) (t : Q) (procs : list Cpu.Process) (p : Z)
          (states : gmap string (AlertState Cpu.AlertType)),
     procs <> [] ->
     Cpu.process_alert_states m !! p = Some states ->
     Cpu.process_alert_states
       (Cpu.check_process_thresholds m t (Some procs)).1 !! p = None
     <-> (Some p ∉ Cpu.pid <$> procs)
         /\ forall n st, states !! n = Some st -> is_active st = false)
  /\ (forall (m : Cpu.Monitor) (t : Q),
        Cpu.check_process_thresholds m t (Some []) = (m, []))
  /\ (forall (m : Net.Monitor) (t : Q) (procs : list Net.Process)
             (p : string)
             (states : gmap string (AlertState Net.NetworkAlertType)),
        procs <> [] ->
        Net.process_alert_states m !! p = Some states ->
        Net.process_alert_states
          (Net.check_process_thresholds m t (Some procs)).1 !! p = None
        <-> (p ∉ Net.process_key <$> procs)
            /\ forall n st, states !! n = Some st -> is_active st = false)
  /\ (forall (m : Net.Monitor) (t : Q),
        Net.check_process_thresholds m t (Some []) = (m, [])).
Proof.
  split; [|split; [|split]].
  - apply cpu_process_pruned.
  - reflexivity.
  - apply net_process_pruned.
  - reflexivity.
Qed.

Lemma process_states_pruned_witness :
  let m := (Cpu.check_process_thresholds Cpu.init 1000
              (Some [Cpu.mkProcess (Some 42%Z) (Some (PyFloat 10))
                                   (Some "top")])).1 in
  Cpu.process_alert_states
    (Cpu.check_process_thresholds m 1005
       (Some [Cpu.mkProcess (Some 7%Z) (Some (PyFloat 10)) (Some "ls")])).1
    !! 42%Z = None.
Proof.
  intros m.
  destruct process_states_pruned as (H & _).
  eapply H.
  - discriminate.
  - vm_compute. reflexivity.
  - split.
    + simpl. intros Hin. apply list_elem_of_singleton in Hin. discriminate.
    + apply any_active_false. vm_compute. reflexivity.
Defined.

(** ** The dispatch thread *)

Section Worker.

Import Thread.

Lemma notify_all_catchable (filters : gmap nat (list MetricUpdateEvent))
    (event : MetricEvent) (refs : list ObserverRef) :
  catchable refs [event] ->
  (notify_all filters event refs).2 = None.
Proof.
  induction refs as [|r refs IH]; intros Hc; [reflexivity|].
  assert (Hrest : catchable refs [event]).
  { intros r' o ev e Hr'. apply Hc. right. exact Hr'. }
  simpl. destruct (referent r) as [o|] eqn:Hr; [|exact (IH Hrest)].
  destruct (Events.interested filters (ref_key r) event);
    [|exact (IH Hrest)].
  destruct (update o event) as [|e|e] eqn:Hu; simpl; [exact (IH Hrest)..|].
  exfalso. apply (Hc r o event e); [left|exact Hr|left|exact Hu].
Qed.

Lemma thread_updates_none (filters : gmap nat (list MetricUpdateEvent))
    (event : MetricEvent) (key : nat) (refs : list ObserverRef) :
  (forall r, r ∈ refs -> ref_key r = key -> is_dead r = true) ->
  updates_of key (notify_all filters event refs).1 = [].
Proof.
  induction refs as [|r refs IH]; intros H; [reflexivity|].
  assert (Hrest : forall r', r' ∈ refs -> ref_key r' = key ->
                             is_dead r' = true)
    by (intros r' Hr'; apply H; right; exact Hr').
  simpl. destruct (referent r) as [o|] eqn:Hr; [|exact (IH Hrest)].
  assert (Hne : Nat.eqb (ref_key r) key = false).
  { apply Nat.eqb_neq. intros Hk.
    pose proof (H r ltac:(left) Hk) as Hd. unfold is_dead in Hd.
    rewrite Hr in Hd. discriminate. }
  destruct (Events.interested filters (ref_key r) event);
    [|exact (IH Hrest)].
  destruct (update o event); simpl; rewrite Hne; simpl;
    try exact (IH Hrest); reflexivity.
Qed.

Lemma thread_updates (filters : gmap nat (list MetricUpdateEvent))
    (event : MetricEvent) (key : nat) (o : Observer)
    (refs : list ObserverRef) :
  catchable refs [event] ->
  NoDup (map ref_key refs) ->
  mkRef key (Some o) ∈ refs ->
  updates_of key (notify_all filters event refs).1
  = if Events.interested filters key event then [event] else [].
Proof.
  induction refs as [|r refs IH]; intros Hc Hnd Hin.
  - apply elem_of_nil in Hin. destruct Hin.
  - assert (Hrest : catchable refs [event]).
    { intros r' o' ev e Hr'. apply Hc. right. exact Hr'. }
    simpl in Hnd. apply NoDup_cons in Hnd as [Hfresh Hnd].
    apply elem_of_cons in Hin as [<-|Hin].
    + assert (Hnone : updates_of key (notify_all filters event refs).1 = []).
      { apply thread_updates_none. intros r' Hr' Hk. exfalso.
        apply Hfresh. simpl. rewrite <- Hk. apply list_elem_of_fmap_2, Hr'. }
      simpl. destruct (Events.interested filters key event);
        [|exact Hnone].
      destruct (update o event) as [|e|e] eqn:Hu; simpl.
      * rewrite Nat.eqb_refl. simpl. rewrite Hnone. reflexivity.
      * rewrite Nat.eqb_refl. simpl. rewrite Hnone. reflexivity.
      * exfalso. apply (Hc (mkRef key (Some o)) o event e);
          [left|reflexivity|left|exact Hu].
    + assert (Hne : Nat.eqb (ref_key r) key = false).
      { apply Nat.eqb_neq. intros Hk. apply Hfresh. rewrite Hk.
        apply (list_elem_of_fmap_2 ref_key) in Hin. exact Hin. }
      simpl. destruct (referent r) as [o'|] eqn:Hr;
        [|exact (IH Hrest Hnd Hin)].
      destruct (Events.interested filters (ref_key r) event);
        [|exact (IH Hrest Hnd Hin)].
      destruct (update o' event) as [|e|e] eqn:Hu; simpl.
      * rewrite Hne. simpl. exact (IH Hrest Hnd Hin).
      * rewrite Hne. simpl. exact (IH Hrest Hnd Hin).
      * exfalso. apply (Hc r o' event e); [left|exact Hr|left|exact Hu].
Qed.

Lemma thread_filters_after_dead (key : nat) (refs : list ObserverRef)
    (filters : gmap nat (list MetricUpdateEvent)) :
  (forall r, r ∈ refs -> ref_key r <> key) ->
  fold_right (fun r f => delete (ref_key r) f) filters refs !! key
  = filters !! key.
Proof.
  induction refs as [|r refs IH]; intros H; [reflexivity|].
  simpl. rewrite lookup_delete_ne by (apply H; left).
  apply IH. intros r' Hr'. apply H. right. exact Hr'.
Qed.

Lemma thread_keys_unique (refs : list ObserverRef) (r1 r2 : ObserverRef) :
  NoDup (map ref_key refs) ->
  r1 ∈ refs -> r2 ∈ refs -> ref_key r1 = ref_key r2 -> r1 = r2.
Proof.
  induction refs as [|r refs IH]; intros Hnd H1 H2 Hk.
  - apply elem_of_nil in H1. destruct H1.
  - simpl in Hnd. apply NoDup_cons in Hnd as [Hfresh Hnd].
    apply elem_of_cons in H1 as [->|H1];
      apply elem_of_cons in H2 as [->|H2]; auto.
    + exfalso. apply Hfresh. rewrite Hk. apply list_elem_of_fmap_2, H2.
    + exfalso. apply Hfresh. rewrite <- Hk. apply list_elem_of_fmap_2, H1.
Qed.

Lemma thread_keys_filter (p : ObserverRef -> bool)
    (refs : list ObserverRef) :
  NoDup (map ref_key refs) ->
  NoDup (map ref_key (List.filter p refs)).
Proof.
  induction refs as [|r refs IH]; intros Hnd; [exact Hnd|].
  simpl in Hnd. apply NoDup_cons in Hnd as [Hfresh Hnd]. simpl.
  destruct (p r); [|apply IH, Hnd].
  simpl. apply NoDup_cons. split; [|apply IH, Hnd].
  intros Hin. apply Hfresh.
  apply list_elem_of_fmap in Hin as (r' & Hk & Hr').
  apply list_elem_of_In, filter_In in Hr' as [Hr' _].
  apply list_elem_of_In in Hr'.
  rewrite Hk. apply list_elem_of_fmap_2, Hr'.
Qed.

Lemma dispatch_event_serves (d0 d : Dispatcher) (event : MetricEvent) :
  serves d0 d ->
  catchable (observers d0) [event] ->
  (dispatch_event d event).2 = None
  /\ serves d0 (dispatch_event d event).1.1
  /\ alive (dispatch_event d event).1.1 = alive d
  /\ forall key o,
       mkRef key (Some o) ∈ observers d0 ->
       updates_of key (dispatch_event d event).1.2
       = if Events.interested (event_filters d0) key event
         then [event] else [].
Proof.
  intros (Hrun & Hnd & Hsub & Hlive) Hc.
  assert (Hc' : catchable (observers d) [event]).
  { intros r o ev e Hr. apply Hc, Hsub, Hr. }
  unfold dispatch_event.
  rewrite (notify_all_catchable _ _ _ Hc'). cbn [fst snd].
  split; [reflexivity|]. split; [|split; [reflexivity|]].
  - unfold serves. cbn [running observers event_filters].
    split; [exact Hrun|]. split; [apply thread_keys_filter, Hnd|].
    split.
    + intros r Hr. apply Hsub.
      apply list_elem_of_In, filter_In in Hr as [Hr _].
      apply list_elem_of_In, Hr.
    + intros key o Hin. destruct (Hlive key o Hin) as [Hin' Hf].
      split.
      * apply list_elem_of_In, filter_In.
        split; [apply list_elem_of_In, Hin'|reflexivity].
      * rewrite <- Hf. apply thread_filters_after_dead.
        intros r Hr Hk.
        apply list_elem_of_In, filter_In in Hr as [Hr Hdead].
        apply list_elem_of_In in Hr.
        pose proof (thread_keys_unique _ _ _ Hnd Hr Hin' Hk) as ->.
        discriminate.
  - intros key o Hin. destruct (Hlive key o Hin) as [Hin' Hf].
    rewrite (thread_updates _ _ _ o _ Hc' Hnd Hin').
    unfold Events.interested. rewrite Hf. reflexivity.
Qed.

Lemma dispatch_entries_serves (events : list MetricEvent)
    (d0 d : Dispatcher) :
  serves d0 d ->
  catchable (observers d0) events ->
  let l := dispatch_entries d (map Some events) in
  serves d0 (loop_dispatcher l)
  /\ alive (loop_dispatcher l) = alive d
  /\ loop_queue l = []
  /\ loop_alive l = true
  /\ forall key o,
       mkRef key (Some o) ∈ observers d0 ->
       updates_of key (loop_effects l)
       = List.filter (Events.interested (event_filters d0) key) events.
Proof.
  revert d. induction events as [|event events IH]; intros d Hs Hc.
  - destruct Hs as (Hrun & Hs). simpl. rewrite Hrun. simpl.
    split; [split; [exact Hrun|exact Hs]|]. auto.
  - assert (Hc1 : catchable (observers d0) [event]).
    { intros r o ev e Hr Ho Hev. apply (Hc r o ev e Hr Ho).
      apply list_elem_of_singleton in Hev. subst ev. left. }
    assert (Hc2 : catchable (observers d0) events).
    { intros r o ev e Hr Ho Hev. apply (Hc r o ev e Hr Ho).
      right. exact Hev. }
    destruct (dispatch_event_serves d0 d event Hs Hc1)
      as (Hnone & Hs' & Ha & Hup).
    destruct (IH _ Hs' Hc2) as (Hs'' & Ha' & Hq & Hal & Hup').
    destruct Hs as (Hrun & _).
    cbn [map dispatch_entries]. rewrite Hrun, Hnone.
    cbn [loop_dispatcher loop_effects loop_queue loop_alive].
    split; [exact Hs''|]. split; [congruence|].
    split; [exact Hq|]. split; [exact Hal|].
    intros key o Hin. unfold updates_of. rewrite flat_map_app.
    fold (updates_of key (dispatch_event d event).1.2).
    fold (updates_of key
            (loop_effects
               (dispatch_entries (dispatch_event d event).1.1
                                 (map Some events)))).
    rewrite (Hup key o Hin), (Hup' key o Hin). simpl.
    destruct (Events.interested (event_filters d0) key event);
      reflexivity.
Qed.

Lemma publish_all_fields (events : list MetricEvent) (d : Dispatcher) :
  observers (publish_all d events) = observers d
  /\ event_filters (publish_all d events) = event_filters d
  /\ event_queue (publish_all d events) = event_queue d ++ map Some events
  /\ running (publish_all d events) = running d
  /\ alive (publish_all d events) = alive d.
Proof.
  unfold publish_all. revert d.
  induction events as [|event events IH]; intros d; simpl.
  - rewrite app_nil_r. auto.
  - destruct (IH (publish_event d event)) as (H1 & H2 & H3 & H4 & H5).
    rewrite H1, H2, H3, H4, H5. simpl. rewrite <- app_assoc. auto.
Qed.

(** One round of the worker on a queue of published events. *)
Lemma dispatch_loop_serves (events : list MetricEvent)
    (d0 d : Dispatcher) :
  serves d0 d -> alive d = true -> event_queue d = [] ->
  catchable (observers d0) events ->
  let r := dispatch_loop (publish_all d events) in
  serves d0 r.1 /\ alive r.1 = true /\ event_queue r.1 = []
  /\ forall key o,
       mkRef key (Some o) ∈ observers d0 ->
       updates_of key r.2
       = List.filter (Events.interested (event_filters d0) key) events.
Proof.
  intros Hs Ha Hq Hc.
  destruct (publish_all_fields events d) as (Ho & Hf & Hqueue & Hrun & Hal).
  assert (Hs' : serves d0 (publish_all d events)).
  { destruct Hs as (H1 & H2 & H3 & H4). unfold serves.
    rewrite Ho, Hf, Hrun. auto. }
  unfold dispatch_loop. rewrite Hal, Ha, Hqueue, Hq. simpl app.
  destruct (dispatch_entries_serves events d0 _ Hs' Hc)
    as ((H1 & H2 & H3 & H4) & _ & Hqe & Hale & Hup).
  cbn [fst snd]. split; [|split; [exact Hale|split; [exact Hqe|exact Hup]]].
  unfold serves. cbn [running observers event_filters]. auto.
Qed.

End Worker.

(** C8, as the specification states it, fails for what [except Exception]
    does not catch.  The first observer raises [SystemExit]: the second
    one is not handed the event, the thread ends, and an event published
    afterwards stays in the queue. *)
Lemma observer_exit_ends_worker :
  let exits := Thread.mkObserver "first"
                 (fun _ => Thread.RaisesBase "SystemExit") in
  let quiet := Thread.mkObserver "second" (fun _ => Thread.Returns) in
  let event t := mkEvent THRESHOLD_EXCEEDED t "test" None "alert" in
  let d := Thread.start
             (Thread.attach (Thread.attach Thread.init 1 exits) 2 quiet) in
  let r1 := Thread.dispatch_loop (Thread.publish_event d (event 1)) in
  let r2 := Thread.dispatch_loop (Thread.publish_event r1.1 (event 2)) in
  r1.2 = [Events.Update 1 (event 1)]
  /\ updates_of 2 r1.2 = []
  /\ Thread.alive r1.1 = false
  /\ r2.2 = []
  /\ Thread.event_queue r2.1 = [Some (event 2)].
Proof.
  vm_compute. repeat split; reflexivity.
Qed.

Lemma notify_all_exit (filters : gmap nat (list MetricUpdateEvent))
    (event : MetricEvent) (before after : list Thread.ObserverRef)
    (r : Thread.ObserverRef) (o : Thread.Observer) (e : string) :
  catchable before [event] ->
  Thread.referent r = Some o ->
  Events.interested filters (Thread.ref_key r) event = true ->
  Thread.update o event = Thread.RaisesBase e ->
  Thread.notify_all filters event (before ++ r :: after)
  = ((Thread.notify_all filters event before).1
     ++ [Events.Update (Thread.ref_key r) event],
     Some e).
Proof.
  intros Hc Hr Hi Hu. induction before as [|r0 before IH].
  - simpl. rewrite Hr, Hi, Hu. reflexivity.
  - assert (Hrest : catchable before [event]).
    { intros r' o' ev e' Hr'. apply Hc. right. exact Hr'. }
    specialize (IH Hrest). cbn [app Thread.notify_all].
    destruct (Thread.referent r0) as [o0|] eqn:Hr0; [|exact IH].
    destruct (Events.interested filters (Thread.ref_key r0) event);
      [|exact IH].
    destruct (Thread.update o0 event) as [|e0|e0] eqn:Hu0.
    + rewrite IH. reflexivity.
    + rewrite IH. reflexivity.
    + exfalso. apply (Hc r0 o0 event e0); [left|exact Hr0|left|exact Hu0].
Qed.

(** C8, amended.  An instance of [Exception] raised by the [update] of
    an observer is caught and printed.  As long as no observer raises
    anything else, the worker stays alive through every event that is
    published, whichever observers raise and however often, and every
    living observer is handed each published event its filter lets
    through, once and in the order of publication: the events published
    before the worker next runs, and those published after it has.  What
    is not an instance of [Exception] is not caught: the observers not
    yet visited are not handed the event, the dead references stay, the
    thread ends, and what is published afterwards stays in the queue. *)
Theorem observer_errors_are_isolated :
  (forall (d : Thread.Dispatcher) (first later : list MetricEvent),
     Thread.running d = true ->
     Thread.alive d = true ->
     Thread.event_queue d = [] ->
     NoDup (map Thread.ref_key (Thread.observers d)) ->
     catchable (Thread.observers d) (first ++ later) ->
     let r1 := Thread.dispatch_loop (Thread.publish_all d first) in
     let r2 := Thread.dispatch_loop (Thread.publish_all r1.1 later) in
     Thread.alive r1.1 = true
     /\ Thread.alive r2.1 = true
     /\ Thread.event_queue r2.1 = []
     /\ forall key o,
          Thread.mkRef key (Some o) ∈ Thread.observers d ->
          updates_of key r1.2
          = List.filter (Events.interested (Thread.event_filters d) key)
                        first
          /\ updates_of key r2.2
             = List.filter (Events.interested (Thread.event_filters d) key)
                           later)
  /\ (forall (d : Thread.Dispatcher) (event : MetricEvent)
             (rest : list (option MetricEvent))
             (before after : list Thread.ObserverRef)
             (r : Thread.ObserverRef) (o : Thread.Observer) (e : string),
        Thread.running d = true ->
        Thread.alive d = true ->
        Thread.event_queue d = Some event :: rest ->
        Thread.observers d = before ++ r :: after ->
        catchable before [event] ->
        Thread.referent r = Some o ->
        Events.interested (Thread.event_filters d) (Thread.ref_key r) event
        = true ->
        Thread.update o event = Thread.RaisesBase e ->
        let r1 := Thread.dispatch_loop d in
        Thread.alive r1.1 = false
        /\ Thread.event_queue r1.1 = rest
        /\ Thread.observers r1.1 = Thread.observers d
        /\ (forall key,
              ~ key ∈ map Thread.ref_key before ->
              key <> Thread.ref_key r ->
              updates_of key r1.2 = [])
        /\ forall later : list MetricEvent,
             Thread.dispatch_loop (Thread.publish_all r1.1 later)
             = (Thread.publish_all r1.1 later, [])).
Proof.
  split.
  - intros d first later Hrun Ha Hq Hnd Hc r1 r2.
    assert (Hs : serves d d).
    { unfold serves. split; [exact Hrun|]. split; [exact Hnd|]. auto. }
    assert (Hc1 : catchable (Thread.observers d) first).
    { intros r o ev e Hr Ho Hev. apply (Hc r o ev e Hr Ho).
      apply elem_of_app. left. exact Hev. }
    assert (Hc2 : catchable (Thread.observers d) later).
    { intros r o ev e Hr Ho Hev. apply (Hc r o ev e Hr Ho).
      apply elem_of_app. right. exact Hev. }
    destruct (dispatch_loop_serves first d d Hs Ha Hq Hc1)
      as (Hs1 & Ha1 & Hq1 & Hup1).
    fold r1 in Hs1, Ha1, Hq1, Hup1.
    destruct (dispatch_loop_serves later d r1.1 Hs1 Ha1 Hq1 Hc2)
      as (Hs2 & Ha2 & Hq2 & Hup2).
    fold r2 in Hs2, Ha2, Hq2, Hup2.
    split; [exact Ha1|]. split; [exact Ha2|]. split; [exact Hq2|].
    intros key o Hin.
    split; [exact (Hup1 key o Hin)|exact (Hup2 key o Hin)].
  - intros d event rest before after r o e Hrun Ha Hq Hobs Hc Hr Hi Hu r1.
    assert (Hr1 : r1 = (Thread.mkDispatcher (Thread.observers d)
                          (Thread.event_filters d) rest (Thread.running d)
                          false,
                        (Thread.notify_all (Thread.event_filters d) event
                                           before).1
                        ++ [Events.Update (Thread.ref_key r) event])).
    { assert (He : Thread.dispatch_event d event
                   = (d,
                      (Thread.notify_all (Thread.event_filters d) event
                                         before).1
                      ++ [Events.Update (Thread.ref_key r) event],
                      Some e)).
      { unfold Thread.dispatch_event. rewrite Hobs.
        rewrite (notify_all_exit _ _ before after r o e Hc Hr Hi Hu).
        reflexivity. }
      unfold r1, Thread.dispatch_loop. rewrite Ha, Hq.
      cbn [Thread.dispatch_entries]. rewrite Hrun, He.
      cbn [fst snd Thread.loop_dispatcher Thread.loop_effects
           Thread.loop_queue Thread.loop_alive].
      rewrite Hrun. reflexivity. }
    rewrite Hr1. cbn [fst snd Thread.alive Thread.event_queue
                      Thread.observers].
    split; [reflexivity|]. split; [reflexivity|]. split; [reflexivity|].
    split.
    + intros key Hfresh Hne. unfold updates_of. rewrite flat_map_app.
      fold (updates_of key
              (Thread.notify_all (Thread.event_filters d) event before).1).
      rewrite thread_updates_none.
      * simpl. assert (Hk : Nat.eqb (Thread.ref_key r) key = false)
          by (apply Nat.eqb_neq; congruence).
        rewrite Hk. reflexivity.
      * intros r' Hr' Hk'. exfalso. apply Hfresh. rewrite <- Hk'.
        apply list_elem_of_fmap_2, Hr'.
    + intros later. unfold Thread.dispatch_loop.
      destruct (publish_all_fields later
                  (Thread.mkDispatcher (Thread.observers d)
                     (Thread.event_filters d) rest (Thread.running d)
                     false)) as (_ & _ & _ & _ & Hal).
      rewrite Hal. reflexivity.
Qed.

Lemma observer_errors_are_isolated_witness :
  let failing := Thread.mkObserver "first"
                   (fun _ => Thread.Raises "boom") in
  let quiet := Thread.mkObserver "second" (fun _ => Thread.Returns) in
  let event t := mkEvent THRESHOLD_EXCEEDED t "test" None "alert" in
  let d := Thread.start
             (Thread.attach (Thread.attach Thread.init 1 failing) 2 quiet) in
  let r1 := Thread.dispatch_loop (Thread.publish_all d [event 1]) in
  let r2 := Thread.dispatch_loop (Thread.publish_all r1.1 [event 2]) in
  r1.2 = [Events.Update 1 (event 1);
          Events.Print "Error notifying observer first: boom";
          Events.Update 2 (event 1)]
  /\ updates_of 2 r1.2 = [event 1]
  /\ updates_of 2 r2.2 = [event 2]
  /\ Thread.alive r2.1 = true.
Proof.
  intros failing quiet event d r1 r2.
  assert (Hc : catchable (Thread.observers d) ([event 1] ++ [event 2])).
  { intros r o ev e Hr Ho Hev. vm_compute in Hr.
    apply elem_of_cons in Hr as [->|Hr];
      [|apply elem_of_cons in Hr as [->|Hr];
        [|apply elem_of_nil in Hr; destruct Hr]];
      injection Ho as <-; discriminate. }
  assert (Hnd : NoDup (map Thread.ref_key (Thread.observers d))).
  { apply NoDup_cons. split; [|apply NoDup_singleton].
    intros H. apply list_elem_of_singleton in H. discriminate. }
  destruct (proj1 observer_errors_are_isolated d [event 1] [event 2]
              eq_refl eq_refl eq_refl Hnd Hc)
    as (_ & Ha & _ & Hup).
  destruct (Hup 2%nat quiet ltac:(right; left)) as [H1 H2].
  split; [vm_compute; reflexivity|].
  split; [exact H1|]. split; [exact H2|exact Ha].
Defined.

(** ** The WiFi check *)

Lemma net_ensure_interfaces_frame (interfaces : list Net.Interface)
    (m : Net.Monitor) :
  Net.alert_states (fold_left Net.ensure_interface interfaces m)
  = Net.alert_states m
  /\ Net.wifi_thresholds (fold_left Net.ensure_interface interfaces m)
     = Net.wifi_thresholds m
  /\ Net.wifi_alert_states (fold_left Net.ensure_interface interfaces m)
     = Net.wifi_alert_states m.
Proof.
  apply (fold_left_invariant
           (fun m' => Net.alert_states m' = Net.alert_states m
                      /\ Net.wifi_thresholds m' = Net.wifi_thresholds m
                      /\ Net.wifi_alert_states m' = Net.wifi_alert_states m)).
  - auto.
  - intros a b Ha. unfold Net.ensure_interface.
    destruct (Net.truthy (Net.name b)) as [n|]; [|exact Ha].
    unfold Net.initialize_interface_thresholds.
    destruct (Net.interface_thresholds a !! n); exact Ha.
Qed.

Lemma net_start_states (m : Net.Monitor) (interfaces : list Net.Interface) :
  Net.running m = false ->
  Net.alert_states (Net.start m interfaces)
  = (new_state <$> Net.thresholds m) ∪ Net.alert_states m
  /\ Net.wifi_alert_states (Net.start m interfaces)
     = (new_state <$> Net.wifi_thresholds m) ∪ Net.wifi_alert_states m.
Proof.
  intros Hrun. unfold Net.start. rewrite Hrun.
  unfold Net.initialize_alert_states.
  destruct (net_ensure_interfaces_frame interfaces
              (Net.with_alert_states m
                 ((new_state <$> Net.thresholds m) ∪ Net.alert_states m)))
    as (Has & Hwt & Hws).
  unfold Net.with_running, Net.with_wifi_alert_states.
  cbn [Net.alert_states Net.wifi_alert_states].
  rewrite Has, Hwt, Hws. split; reflexivity.
Qed.

(** The check of ["wifi_signal_low"] as [_check_threshold] would run it:
    registered through [set_threshold] before [start], the name does get
    a state in [_alert_states]; a signal of -80 held for the duration
    then raises one alert, a signal of -70 none. *)
Lemma wifi_check_when_registered_globally :
  let m := Net.start
             (Net.set_threshold Net.init "wifi_signal_low" (PyInt (-75))
                                300 WARNING None) [] in
  let tick (signal : Z) (t : Q) :=
    Net.CheckWifi t (Some (Net.mkWifi (Some true) (Some (PyInt signal)))) in
  length (Net.perform_all m [tick (-80)%Z 1700000000;
                             tick (-80)%Z 1700000150;
                             tick (-80)%Z 1700000300;
                             tick (-80)%Z 1700000450]).2 = 1%nat
  /\ (Net.perform_all m [tick (-70)%Z 1700000000;
                         tick (-70)%Z 1700000300;
                         tick (-70)%Z 1700000600]).2 = [].
Proof.
  split; vm_compute; reflexivity.
Qed.

(** C3: on a monitor started with the default thresholds, the state of
    ["wifi_signal_low"] exists in [_wifi_alert_states], but
    [_check_wifi_thresholds] hands the name to [_check_threshold], which
    looks it up in [_alert_states] and returns.  Whatever the signal
    strength, -80 included, and however long it lasts, the check changes
    nothing and generates no alert. *)
Theorem wifi_signal_low_is_never_checked (interfaces : list Net.Interface)
    (t : Q) (signal : pynum) :
  let m := Net.start Net.init interfaces in
  Net.wifi_alert_states m !! "wifi_signal_low"
  = Some (new_state Net.wifi_signal_low_config)
  /\ Net.alert_states m !! "wifi_signal_low" = None
  /\ Net.check_wifi_thresholds m t
       (Some (Net.mkWifi (Some true) (Some signal)))
     = (m, []).
Proof.
  intros m.
  destruct (net_start_states Net.init interfaces eq_refl) as [Has Hws].
  fold m in Has, Hws.
  assert (Hnone : Net.alert_states m !! "wifi_signal_low" = None)
    by (rewrite Has; vm_compute; reflexivity).
  split; [|split].
  - rewrite Hws. vm_compute. reflexivity.
  - exact Hnone.
  - unfold Net.check_wifi_thresholds, Net.check_threshold.
    cbn [Net.connected default negb]. rewrite Hnone. reflexivity.
Qed.

(** ** The sustained check *)

Lemma net_check_threshold_other (m : Net.Monitor) (name other : string)
    (v : pynum) (t : Q) :
  name <> other ->
  Net.alert_states (Net.check_threshold m name v t).1 !! other
  = Net.alert_states m !! other.
Proof.
  intros Hne. unfold Net.check_threshold.
  destruct (Net.alert_states m !! name); [|reflexivity].
  simpl. apply lookup_insert_ne. exact Hne.
Qed.

(** The network monitor keeps the instantaneous reading away from its
    sustained threshold. *)
Lemma net_bandwidth_check_spares_sustained (m : Net.Monitor) (t : Q)
    (u : option Net.BandwidthUsage) :
  Net.alert_states (Net.check_bandwidth_thresholds m t u).1
  !! "bandwidth_usage_sustained"
  = Net.alert_states m !! "bandwidth_usage_sustained".
Proof.
  unfold Net.check_bandwidth_thresholds. destruct u as [u|]; [|reflexivity].
  cbn [fst]. rewrite !net_check_threshold_other by discriminate.
  reflexivity.
Qed.

(** *** The value the sustained check works on *)

Section SustainedValue.

Variable t : Q.
Variable history : list (Q * pynum).

(** With at least ten samples in the ten-minute window and a mean above
    zero, the value is the mean over that window. *)
Lemma sustained_value_ten_minutes :
  (10 <= length (since (t - 600) history))%nat ->
  0 < num_val (mean (since (t - 600) history)) ->
  sustained_value t history = mean (since (t - 600) history).
Proof.
  intros Hlen Hpos. unfold sustained_value.
  assert (Hten : ten_min_avg t history = mean (since (t - 600) history)).
  { unfold ten_min_avg.
    destruct (since (t - 600) history) as [|p data] eqn:E;
      [simpl in Hlen; lia|].
    apply Nat.leb_le in Hlen. rewrite Hlen. reflexivity. }
  rewrite Hten. apply gt_bool_true in Hpos. rewrite Hpos. reflexivity.
Qed.

(** With fewer, it is the mean over the five-minute window. *)
Lemma sustained_value_five_minutes :
  (length (since (t - 600) history) < 10)%nat ->
  since (t - 300) history <> [] ->
  sustained_value t history = mean (since (t - 300) history).
Proof.
  intros Hlen Hne. unfold sustained_value.
  assert (Hten : ten_min_avg t history = PyInt 0).
  { unfold ten_min_avg.
    destruct (since (t - 600) history) as [|p data] eqn:E; [reflexivity|].
    apply Nat.leb_gt in Hlen. rewrite Hlen. reflexivity. }
  rewrite Hten. simpl. unfold five_min_avg.
  destruct (since (t - 300) history); [congruence|reflexivity].
Qed.

End SustainedValue.

(** C6: the CPU monitor feeds the instantaneous reading to the sustained
    threshold.  After ten readings of 85.0, one a minute, and a sustained
    check, a single reading of 10.0 makes [_check_cpu_thresholds] store
    10.0 as the current value of ["cpu_usage_sustained"] and clear the
    start of its breach, although the ten-minute mean the sustained check
    works on is 77.5, above the threshold of 70. *)
Theorem instantaneous_reading_reaches_sustained_state :
  let reading (i : nat) :=
    Cpu.CheckCpu (1700000000 + inject_Z (Z.of_nat i) * 60)
                 (Some (PyFloat 85)) in
  let m := (Cpu.perform_all (Cpu.start Cpu.init [])
              (map reading (seq 0 10)
               ++ [Cpu.CheckSustained 1700000541])).1 in
  let m' := (Cpu.check_cpu_thresholds m 1700000600
                                      (Some (PyFloat 10))).1 in
  (exceeded_since <$> Cpu.alert_states m !! "cpu_usage_sustained")
  = Some (Some 1700000000)
  /\ (current_value <$> Cpu.alert_states m' !! "cpu_usage_sustained")
     = Some (PyFloat 10)
  /\ (exceeded_since <$> Cpu.alert_states m' !! "cpu_usage_sustained")
     = Some None
  /\ sustained_value 1700000601 (Cpu.cpu_history m') = PyFloat (775 # 10)
  /\ threshold_exceeded false Cpu.cpu_usage_sustained_config
                        (PyFloat (775 # 10)) = true.
Proof.
  vm_compute. repeat split; reflexivity.
Qed.


(** ** Alert messages *)

(** [round_scaled k q] is an integer nearest to [q * 10^k]. *)
Lemma round_scaled_nearest (k : nat) (q : Q) :
  (2 * Z.abs (round_scaled k q * Zpos (Qden q) - Qnum q * 10 ^ Z.of_nat k)
   <= Zpos (Qden q))%Z.
Proof.
  unfold round_scaled.
  set (a := (Qnum q * 10 ^ Z.of_nat k)%Z).
  set (b := Zpos (Qden q)).
  assert (Hb : (0 < b)%Z) by (unfold b; lia).
  pose proof (Z.div_mod a b ltac:(lia)) as Hdm.
  pose proof (Z.mod_pos_bound a b Hb) as Hr.
  destruct (2 * (a mod b) <? b)%Z eqn:H1; [apply Z.ltb_lt in H1; nia|].
  apply Z.ltb_ge in H1.
  destruct (b <? 2 * (a mod b))%Z eqn:H2; [apply Z.ltb_lt in H2; nia|].
  apply Z.ltb_ge in H2.
  destruct (Z.even (a / b)); nia.
Qed.

(** The doubles. *)
Lemma round_scaled_nonneg (k : nat) (q : Q) :
  0 <= q -> (0 <= round_scaled k q)%Z.
Proof.
  intros Hq. unfold round_scaled.
  assert (Hn : (0 <= Qnum q)%Z).
  { destruct q as [n d]. unfold Qle in Hq. simpl in *. lia. }
  set (a := (Qnum q * 10 ^ Z.of_nat k)%Z).
  set (b := Zpos (Qden q)).
  assert (Ha : (0 <= a)%Z) by (unfold a; apply Z.mul_nonneg_nonneg; lia).
  assert (Hf : (0 <= a / b)%Z) by (apply Z.div_pos; unfold b; lia).
  destruct (2 * (a mod b) <? b)%Z; [exact Hf|].
  destruct (b <? 2 * (a mod b))%Z; [lia|].
  destruct (Z.even (a / b)); lia.
Qed.

Lemma pow_pos (b e : Z) : (0 < b)%Z -> 0 < pow b e.
Proof.
  intros Hb. unfold pow.
  destruct (0 <=? e)%Z eqn:He.
  - apply Z.leb_le in He. change 0 with (inject_Z 0).
    rewrite <- Zlt_Qlt. apply Z.pow_pos_nonneg; lia.
  - apply Z.leb_gt in He. apply Qinv_lt_0_compat.
    change 0 with (inject_Z 0). rewrite <- Zlt_Qlt.
    apply Z.pow_pos_nonneg; lia.
Qed.

Lemma rnd_nonneg (q : Q) : 0 <= q -> 0 <= rnd q.
Proof.
  intros Hq. unfold rnd.
  destruct (Qeq_bool q 0); [exact Hq|].
  set (e := Z.max (log2_floor (Qabs q) - 52) (-1074)).
  set (m := round_scaled 0 (Qabs q / pow 2 e)).
  destruct (Qeq_bool _ q); [exact Hq|].
  rewrite Qred_correct.
  assert (Hle : Qle_bool 0 q = true) by (apply Qle_bool_iff; exact Hq).
  rewrite Hle.
  assert (Hm : (0 <= m)%Z).
  { apply round_scaled_nonneg. apply Qle_shift_div_l.
    - apply pow_pos. lia.
    - rewrite Qmult_0_l. apply Qabs_nonneg. }
  assert (Hm' : 0 <= inject_Z m)
    by (change 0 with (inject_Z 0); rewrite <- Zle_Qle; exact Hm).
  pose proof (pow_pos 2 e ltac:(lia)) as Hp.
  nra.
Qed.

Lemma to_float_val (negative : bool) (q : Q) :
  num_val (to_float negative q) == rnd q
  /\ float_val (to_float negative q) = num_val (to_float negative q).
Proof.
  unfold to_float.
  destruct (Qeq_bool (rnd q) 0) eqn:Hz.
  - apply Qeq_bool_iff in Hz.
    destruct negative; simpl; split; try reflexivity; symmetry; exact Hz.
  - simpl. split; reflexivity.
Qed.

Lemma to_float_nonneg (q : Q) :
  0 <= q ->
  is_negative (to_float false q) = false
  /\ 0 <= num_val (to_float false q).
Proof.
  intros Hq. unfold to_float.
  destruct (Qeq_bool (rnd q) 0); simpl.
  - split; [reflexivity|lra].
  - pose proof (rnd_nonneg q Hq) as H. split; [|exact H].
    apply negb_false_iff, Qle_bool_iff, H.
Qed.

(** A quotient of a positive number by a positive [int] is a float that
    is not negative. *)
Lemma py_truediv_nonneg (value : pynum) (b : Z) :
  0 < num_val value -> (0 < b)%Z ->
  is_negative (py_truediv value b) = false
  /\ 0 <= num_val (py_truediv value b)
  /\ float_val (py_truediv value b) = num_val (py_truediv value b).
Proof.
  intros Hv Hb.
  assert (Hb' : 0 < inject_Z b)
    by (change 0 with (inject_Z 0); rewrite <- Zlt_Qlt; exact Hb).
  destruct value as [x|q|]; simpl in Hv; [| |lra]; unfold py_truediv.
  - assert (Hx : (x <? 0)%Z = false).
    { apply Z.ltb_ge. change 0 with (inject_Z 0) in Hv.
      rewrite <- Zlt_Qlt in Hv. lia. }
    rewrite Hx.
    assert (Hq : 0 <= inject_Z x / inject_Z b).
    { apply Qle_shift_div_l; [exact Hb'|]. lra. }
    destruct (to_float_nonneg _ Hq) as [Hn Hp].
    split; [exact Hn|]. split; [exact Hp|]. apply to_float_val.
  - assert (Hneg : is_negative (PyFloat q) = false).
    { simpl. apply negb_false_iff, Qle_bool_iff. lra. }
    rewrite Hneg. simpl float_val.
    assert (Hq : 0 <= q / rnd (inject_Z b)).
    { pose proof (rnd_nonneg (inject_Z b) ltac:(lra)) as Hr.
      unfold Qdiv. apply Qmult_le_0_compat; [lra|].
      apply Qinv_le_0_compat, Hr. }
    destruct (to_float_nonneg _ Hq) as [Hn Hp].
    split; [exact Hn|]. split; [exact Hp|]. apply to_float_val.
Qed.

(** [f"{x:.2f}"] of a float that is not negative: the numeral of an
    integer, a point and two digits, which read as the hundredth nearest
    to [x]. *)
Lemma format_2f_shape (x : pynum) :
  is_negative x = false ->
  0 <= num_val x ->
  float_val x = num_val x ->
  exists hundredths : Z,
    (0 <= hundredths)%Z
    /\ Qabs (inject_Z hundredths - 100 * num_val x) <= 1 # 2
    /\ format_2f x
       = (str_int (hundredths / 100) ++ "." ++ digit (hundredths / 10)
          ++ digit hundredths)%string.
Proof.
  intros Hneg Hpos Hval. unfold format_2f. rewrite Hneg, Hval.
  assert (Habs : Qabs (num_val x) = num_val x).
  { destruct (num_val x) as [n d]. unfold Qle in Hpos. simpl in Hpos.
    unfold Qabs. f_equal. apply Z.abs_eq. lia. }
  rewrite Habs.
  set (q := num_val x) in *.
  exists (round_scaled 2 q). split; [apply round_scaled_nonneg, Hpos|].
  split; [|reflexivity].
  pose proof (round_scaled_nearest 2 q) as H.
  change (10 ^ Z.of_nat 2)%Z with 100%Z in H.
  destruct q as [n d]. simpl in H.
  apply Qabs_Qle_condition. unfold Qle, Qopp, Qminus, Qplus, Qmult. simpl.
  split; lia.
Qed.

Lemma append_assoc (a b c : string) :
  ((a ++ b) ++ c = a ++ b ++ c)%string.
Proof.
  induction a as [|x a IH]; [reflexivity|].
  change (String x ((a ++ b) ++ c) = String x (a ++ b ++ c))%string.
  rewrite IH. reflexivity.
Qed.

(** The unit-aware formatter, by the size of the value. *)
Lemma format_value_with_unit_ranges (value : pynum) :
  (1000000 < value ->
   exists hundredths : Z,
     (0 <= hundredths)%Z
     /\ Qabs (inject_Z hundredths
              - 100 * num_val (py_truediv value 1000000)) <= 1 # 2
     /\ Net.format_value_with_unit value
        = (str_int (hundredths / 100) ++ "." ++ digit (hundredths / 10)
           ++ digit hundredths ++ " MB/s")%string)
  /\ (1000 < value -> value <= 1000000 ->
      exists hundredths : Z,
        (0 <= hundredths)%Z
        /\ Qabs (inject_Z hundredths
                 - 100 * num_val (py_truediv value 1000)) <= 1 # 2
        /\ Net.format_value_with_unit value
           = (str_int (hundredths / 100) ++ "." ++ digit (hundredths / 10)
              ++ digit hundredths ++ " KB/s")%string)
  /\ (value <= 1000 -> Net.format_value_with_unit value = str_num value).
Proof.
  unfold Net.format_value_with_unit. split; [|split].
  - intros H.
    destruct (py_truediv_nonneg value 1000000 ltac:(lra) ltac:(lia))
      as (Hn & Hp & Hv).
    destruct (format_2f_shape _ Hn Hp Hv) as (h & Hh & Hnear & Htext).
    exists h. split; [exact Hh|]. split; [exact Hnear|].
    apply gt_bool_true in H. rewrite H, Htext.
    rewrite !append_assoc. reflexivity.
  - intros H1 H2.
    destruct (py_truediv_nonneg value 1000 ltac:(lra) ltac:(lia))
      as (Hn & Hp & Hv).
    destruct (format_2f_shape _ Hn Hp Hv) as (h & Hh & Hnear & Htext).
    exists h. split; [exact Hh|]. split; [exact Hnear|].
    apply gt_bool_true in H1. apply gt_bool_false in H2.
    rewrite H2, H1, Htext.
    rewrite !append_assoc. reflexivity.
  - intros H.
    assert (H1 : gt_bool value 1000 = false) by (apply gt_bool_false; exact H).
    assert (H2 : gt_bool value 1000000 = false)
      by (apply gt_bool_false; lra).
    rewrite H2, H1. reflexivity.
Qed.

(** [round(x, 1)] of a float: the double nearest to the tenth nearest
    to [x]. *)
Lemma round1_float (x : pynum) :
  x <> PyNegZero -> float_val x = num_val x ->
  (forall z, x <> PyInt z) ->
  exists tenths : Z,
    Qabs (inject_Z tenths - 10 * num_val x) <= 1 # 2
    /\ num_val (round1 x) == rnd (inject_Z tenths / 10).
Proof.
  intros Hz _ Hi. destruct x as [z|q|]; [destruct (Hi z eq_refl)| |congruence].
  exists (round_scaled 1 q). split.
  - pose proof (round_scaled_nearest 1 q) as H.
    change (10 ^ Z.of_nat 1)%Z with 10%Z in H.
    simpl num_val. destruct q as [n d]. simpl in H.
    apply Qabs_Qle_condition. unfold Qle, Qopp, Qminus, Qplus, Qmult. simpl.
    split; lia.
  - simpl round1. apply to_float_val.
Qed.

Lemma minutes_one_decimal {AT : Type} (now : Q) (state : AlertState AT) :
  exists tenths : Z,
    Qabs (inject_Z tenths
          - 10 * num_val (py_truediv
                            (PyFloat (exceeded_duration now state)) 60))
    <= 1 # 2
    /\ num_val (minutes now state) == rnd (inject_Z tenths / 10).
Proof.
  unfold minutes.
  set (y := py_truediv (PyFloat (exceeded_duration now state)) 60).
  assert (Hy : (exists q, y = PyFloat q) \/ y = PyNegZero).
  { unfold y, py_truediv, to_float.
    destruct (Qeq_bool _ 0); [destruct (is_negative _)|]; eauto. }
  destruct Hy as [[q Hq]|Hz].
  - apply round1_float; rewrite Hq; [discriminate|reflexivity|discriminate].
  - rewrite Hz. exists 0%Z. split; [closed_Q|reflexivity].
Qed.

(** C7, as the specification states it, fails for the alerts of the CPU
    monitor: [CPUThresholdMonitor._format_alert_message] does not use the
    unit-aware formatter.  With a threshold of 1500.0 the message shows
    ["1500.0"], where the formatter gives ["1.50 KB/s"]. *)
Lemma cpu_message_shows_raw_threshold :
  let template := "Threshold {threshold}% exceeded for {duration} minutes" in
  let state :=
    mkState (new_config (PyFloat 1500) 60 WARNING Cpu.CPU_USAGE_HIGH template)
            (Some 1700000000) 0 (PyFloat 1600) false in
  message (Cpu.generate_alert 1700000125 (mkCall state no_context))
  = "Threshold 1500.0% exceeded for 2.1 minutes"
  /\ Net.format_value_with_unit (PyFloat 1500) = "1.50 KB/s"
  /\ message (Cpu.generate_alert 1700000125 (mkCall state no_context))
     <> substitute
          [("threshold", Some (Net.format_value_with_unit (PyFloat 1500)));
           ("value", Some (Net.format_value_with_unit (PyFloat 1600)));
           ("duration", Some (str_num (minutes 1700000125 state)))]
          template.
Proof.
  split; [|split]; [vm_compute; reflexivity..|].
  vm_compute. discriminate.
Qed.

(** C7, amended.  The message of an alert is the template with the
    placeholders substituted.  In the network monitor [{threshold}] and
    [{value}] go through the unit-aware formatter: a value above 10^6 is
    divided by 10^6 and shown as ["X.XX MB/s"], a value above 10^3
    divided by 10^3 and shown as ["X.XX KB/s"] (the numeral of an
    integer, a point and two digits, the hundredth nearest to the
    quotient as the float division gives it), any other value as [str]
    shows it.  In the CPU monitor [{threshold}] is shown as it is and
    [{value}] rounded to one decimal.  In both [{duration}] is the
    seconds since [exceeded_since] divided by 60 and brought to the
    nearest tenth by [round].  In the CPU monitor, with core 3, threshold
    90.0 and a breach that started 125 seconds ago, the template ["Core
    {core_id} usage above {threshold}% for {duration} minutes"] gives
    ["Core 3 usage above 90.0% for 2.1 minutes"]; the arithmetic is that
    of doubles: 63 seconds are shown as 1.1 minutes, 1015 as
    ["1.01 KB/s"]. *)
Theorem alert_message_rendering :
  (forall (now : Q) (call : AlertCall Net.NetworkAlertType),
     message (Net.generate_alert now call)
     = substitute
         [("threshold",
           Some (Net.format_value_with_unit
                   (threshold (config (call_state call)))));
          ("value",
           Some (Net.format_value_with_unit
                   (current_value (call_state call))));
          ("duration", Some (str_num (minutes now (call_state call))));
          ("interface_name", ctx_interface_name (call_context call));
          ("process_name", ctx_process_name (call_context call))]
         (alert_message (config (call_state call))))
  /\ (forall (now : Q) (call : AlertCall Cpu.AlertType),
        message (Cpu.generate_alert now call)
        = substitute
            [("threshold",
              Some (str_num (threshold (config (call_state call)))));
             ("value",
              Some (str_num (round1 (current_value (call_state call)))));
             ("duration", Some (str_num (minutes now (call_state call))));
             ("core_id", str_int <$> ctx_core_id (call_context call));
             ("pid", str_int <$> ctx_pid (call_context call));
             ("process_name", ctx_process_name (call_context call))]
            (alert_message (config (call_state call))))
  /\ (forall value : pynum,
        (1000000 < value ->
         exists hundredths : Z,
           (0 <= hundredths)%Z
           /\ Qabs (inject_Z hundredths
                    - 100 * num_val (py_truediv value 1000000)) <= 1 # 2
           /\ Net.format_value_with_unit value
              = (str_int (hundredths / 100) ++ "."
                 ++ digit (hundredths / 10) ++ digit hundredths
                 ++ " MB/s")%string)
        /\ (1000 < value -> value <= 1000000 ->
            exists hundredths : Z,
              (0 <= hundredths)%Z
              /\ Qabs (inject_Z hundredths
                       - 100 * num_val (py_truediv value 1000)) <= 1 # 2
              /\ Net.format_value_with_unit value
                 = (str_int (hundredths / 100) ++ "."
                    ++ digit (hundredths / 10) ++ digit hundredths
                    ++ " KB/s")%string)
        /\ (value <= 1000 ->
            Net.format_value_with_unit value = str_num value))
  /\ (forall (AT : Type) (now : Q) (state : AlertState AT),
        exists tenths : Z,
          Qabs (inject_Z tenths
                - 10 * num_val
                         (py_truediv
                            (PyFloat (exceeded_duration now state)) 60))
          <= 1 # 2
          /\ num_val (minutes now state) == rnd (inject_Z tenths / 10))
  /\ message
       (Cpu.generate_alert 1700000125
          (mkCall
             (mkState
                (new_config (PyFloat 90) 60 WARNING Cpu.CPU_CORE_USAGE_HIGH
                   "Core {core_id} usage above {threshold}% for {duration} minutes")
                (Some 1700000000) 0 (PyFloat 95) false)
             (mkContext (Some 3%Z) None None None)))
     = "Core 3 usage above 90.0% for 2.1 minutes"
  /\ str_num (minutes 1700000063
                (mkState Cpu.cpu_usage_high_config (Some 1700000000) 0
                         (PyFloat 95) false))
     = "1.1"
  /\ Net.format_value_with_unit (PyInt 1015) = "1.01 KB/s"
  /\ str_num (py_truediv (PyInt 1000) 3) = "333.3333333333333".
Proof.
  split; [reflexivity|]. split; [reflexivity|].
  split; [apply format_value_with_unit_ranges|].
  split; [intros AT; apply minutes_one_decimal|].
  repeat split; vm_compute; reflexivity.
Qed.

Lemma alert_message_rendering_witness :
  Net.format_value_with_unit (PyInt 50000000) = "50.00 MB/s"
  /\ Net.format_value_with_unit (PyInt 2500) = "2.50 KB/s"
  /\ Net.format_value_with_unit (PyInt (-75)) = "-75".
Proof.
  destruct alert_message_rendering as (_ & _ & H & _).
  split; [|split].
  - vm_compute. reflexivity.
  - vm_compute. reflexivity.
  - rewrite (proj2 (proj2 (H (PyInt (-75))))) by closed_Q.
    vm_compute. reflexivity.
Defined.

(** * Further properties of the code *)

(** ** Episodes of a state *)

(** ** More on the per-state check *)

Section Episodes.

Context {AT : Type}.
Variable inverted : bool.
Variable cfg : ThresholdConfig AT.
Variable ctx : AlertContext.

Lemma evaluate_at_most_one (state : AlertState AT) (t : Q) (v : pynum) :
  (length (evaluate inverted cfg ctx state t v).2 <= 1)%nat.
Proof.
  unfold evaluate.
  destruct (threshold_exceeded inverted cfg v); [|simpl; lia].
  destruct (_ && _); [|simpl; lia].
  destruct (ge_bool _ _); simpl; lia.
Qed.

Lemma evaluate_raise_activates (state : AlertState AT) (t : Q) (v : pynum) :
  (evaluate inverted cfg ctx state t v).2 <> [] ->
  is_active (evaluate inverted cfg ctx state t v).1 = true
  /\ last_alert_time (evaluate inverted cfg ctx state t v).1 = t.
Proof.
  unfold evaluate.
  destruct (threshold_exceeded inverted cfg v); [|simpl; congruence].
  destruct (_ && _); [|simpl; congruence].
  destruct (ge_bool _ _); simpl; [auto|congruence].
Qed.

Lemma evaluate_quiet_keeps_last (state : AlertState AT) (t : Q) (v : pynum) :
  (evaluate inverted cfg ctx state t v).2 = [] ->
  last_alert_time (evaluate inverted cfg ctx state t v).1
  = last_alert_time state.
Proof.
  unfold evaluate.
  destruct (threshold_exceeded inverted cfg v); [|reflexivity].
  destruct state as [c [since|] last cur act]; simpl;
    (destruct (_ && _); [|reflexivity]);
    (destruct (ge_bool _ _); simpl; [discriminate|reflexivity]).
Qed.

Lemma run_quiet_keeps_last (state : AlertState AT)
    (ticks : list (Q * pynum)) :
  (run inverted cfg ctx state ticks).2 = [] ->
  last_alert_time (run inverted cfg ctx state ticks).1
  = last_alert_time state.
Proof.
  revert state. induction ticks as [|[t v] ticks IH]; intros state Hq.
  - reflexivity.
  - rewrite run_cons in *. simpl in *.
    apply app_eq_nil in Hq as [Hq1 Hq2].
    rewrite (IH _ Hq2). apply evaluate_quiet_keeps_last, Hq1.
Qed.

(** X1: two successive alerts of a state are at least the cooldown apart,
    whatever happened in between. *)
Lemma successive_alerts_cooldown (state : AlertState AT)
    (before between : list (Q * pynum)) (t1 t2 : Q) (v1 v2 : pynum) :
  let s0 := (run inverted cfg ctx state before).1 in
  let s1 := (evaluate inverted cfg ctx s0 t1 v1).1 in
  let s2 := (run inverted cfg ctx s1 between).1 in
  (evaluate inverted cfg ctx s0 t1 v1).2 <> [] ->
  (run inverted cfg ctx s1 between).2 = [] ->
  (evaluate inverted cfg ctx s2 t2 v2).2 <> [] ->
  cooldown_minutes cfg * 60 <= t2 - t1.
Proof.
  intros s0 s1 s2 H1 Hq H2.
  apply evaluate_raise_activates in H1 as [_ Hlast].
  apply evaluate_fires in H2 as (_ & _ & _ & Hcool).
  unfold s2 in Hcool. rewrite (run_quiet_keeps_last _ _ Hq) in Hcool.
  fold s1 in Hlast. rewrite Hlast in Hcool. exact Hcool.
Qed.

(** X2: one alert per breach episode at most: the alerts of a run are no more
    than its recoveries, plus one when the run starts inactive. *)
Lemma alerts_bounded_by_recoveries (state : AlertState AT)
    (ticks : list (Q * pynum)) :
  (length (run inverted cfg ctx state ticks).2
   <= (if is_active state then 0 else 1)
      + length (List.filter
                  (fun tick => negb (threshold_exceeded inverted cfg tick.2))
                  ticks))%nat.
Proof.
  revert state. induction ticks as [|[t v] ticks IH]; intros state.
  - simpl. lia.
  - rewrite run_cons. simpl snd. rewrite length_app.
    specialize (IH (evaluate inverted cfg ctx state t v).1).
    cbn [List.filter snd].
    destruct (threshold_exceeded inverted cfg v) eqn:Hb; cbn [negb].
    + destruct (is_active state) eqn:Ha.
      * destruct (evaluate_active inverted cfg ctx state t v Hb Ha)
          as [Hc Ha'].
        rewrite Hc, Ha' in *. simpl in *. lia.
      * destruct (evaluate inverted cfg ctx state t v).2 as [|c cs] eqn:Hc.
        -- simpl. destruct (is_active _); lia.
        -- assert (Hne : (evaluate inverted cfg ctx state t v).2 <> [])
             by (rewrite Hc; discriminate).
           apply evaluate_raise_activates in Hne as [Hact _].
           pose proof (evaluate_at_most_one state t v) as Hle.
           rewrite Hc in Hle. rewrite Hact in IH. simpl in *. lia.
    + rewrite evaluate_recover in * by exact Hb. simpl in *.
      destruct (is_active state); lia.
Qed.

End Episodes.

Lemma successive_alerts_cooldown_witness :
  cooldown_minutes Cpu.cpu_usage_high_config * 60
  <= 1700000700 - 1700000060.
Proof.
  apply (successive_alerts_cooldown false Cpu.cpu_usage_high_config
           no_context (new_state Cpu.cpu_usage_high_config)
           [(1700000000, PyFloat 95)]
           [(1700000100, PyFloat 10); (1700000200, PyFloat 95)]
           1700000060 1700000700 (PyFloat 95) (PyFloat 95)).
  - vm_compute. discriminate.
  - vm_compute. reflexivity.
  - vm_compute. discriminate.
Defined.

(** ** Well-formed monitors *)

Lemma evaluate_config {AT : Type} (inverted : bool) (cfg : ThresholdConfig AT)
    (ctx : AlertContext) (state : AlertState AT) (t : Q) (v : pynum) :
  config (evaluate inverted cfg ctx state t v).1 = config state.
Proof.
  unfold evaluate.
  destruct (threshold_exceeded inverted cfg v); [|reflexivity].
  destruct state as [c [since|] last cur act]; simpl;
    (destruct (_ && _); [|reflexivity]);
    (destruct (ge_bool _ _); reflexivity).
Qed.

Lemma evaluate_all_lookup {AT : Type} (ctx : AlertContext) (t : Q) (v : pynum)
    (states : gmap string (AlertState AT)) (name : string)
    (st : AlertState AT) :
  (evaluate_all ctx t v states).1 !! name = Some st ->
  exists st0, states !! name = Some st0 /\ config st = config st0.
Proof.
  simpl. intros H. apply lookup_fmap_Some in H as (st0 & <- & H0).
  exists st0. split; [exact H0|apply evaluate_config].
Qed.

Ltac split_well_formed :=
  refine (conj _ (conj _ (conj _ (conj _ (conj _ (conj _ (conj _ _))))))).

Lemma cpu_init_well_formed : cpu_well_formed Cpu.init.
Proof.
  unfold cpu_well_formed. simpl. split_well_formed.
  - intros name st H. rewrite lookup_empty in H. discriminate.
  - intros name cfg H. unfold Cpu.default_thresholds in H.
    repeat (apply lookup_insert_Some in H as [[_ <-]|[_ H]];
            [split; reflexivity|]).
    rewrite lookup_empty in H. discriminate.
  - reflexivity.
  - intros id. left. apply lookup_empty.
  - intros id. rewrite !lookup_empty.
    split; intros [x H]; discriminate.
  - intros id sts name st H. rewrite lookup_empty in H. discriminate.
  - intros p sts name st H. rewrite lookup_empty in H. discriminate.
  - reflexivity.
Qed.

Lemma cpu_initialize_core_well_formed (m : Cpu.Monitor) (id : Z) :
  cpu_well_formed m -> cpu_well_formed (Cpu.initialize_core_thresholds m id).
Proof.
  intros Hm. unfold Cpu.initialize_core_thresholds.
  destruct (Cpu.core_thresholds m !! id) eqn:Hid; [exact Hm|].
  destruct Hm as (Hreg & Htim & Hpt & Hct & Hdom & Hcs & Hps & Hw).
  unfold cpu_well_formed. simpl. split_well_formed; try assumption.
  - intros j. destruct (decide (j = id)) as [->|Hne].
    + right. apply lookup_insert_eq.
    + rewrite lookup_insert_ne by congruence. apply Hct.
  - intros j. destruct (decide (j = id)) as [->|Hne].
    + rewrite !lookup_insert_eq. split; eauto.
    + rewrite !lookup_insert_ne by congruence. apply Hdom.
  - intros j sts name st Hj Hst.
    destruct (decide (j = id)) as [->|Hne].
    + rewrite lookup_insert_eq in Hj. injection Hj as <-.
      apply lookup_fmap_Some in Hst as (c & <- & Hc). exact Hc.
    + rewrite lookup_insert_ne in Hj by congruence. eapply Hcs; eauto.
Qed.

Lemma cpu_ensure_cores_well_formed (cs : list Cpu.CoreStat) (m : Cpu.Monitor) :
  cpu_well_formed m -> cpu_well_formed (fold_left Cpu.ensure_core cs m).
Proof.
  intros Hm. apply fold_left_invariant; [exact Hm|].
  intros a b Ha. unfold Cpu.ensure_core.
  destruct (Cpu.core_id b); [apply cpu_initialize_core_well_formed|];
    exact Ha.
Qed.

Lemma cpu_start_well_formed (m : Cpu.Monitor) (cs : list Cpu.CoreStat) :
  cpu_well_formed m -> cpu_well_formed (Cpu.start m cs).
Proof.
  intros Hm. unfold Cpu.start. destruct (Cpu.running m); [exact Hm|].
  assert (Hi : cpu_well_formed (Cpu.initialize_alert_states m cs)).
  { unfold Cpu.initialize_alert_states. apply cpu_ensure_cores_well_formed.
    destruct Hm as (Hreg & Htim & Hpt & Hct & Hdom & Hcs & Hps & Hw).
    unfold cpu_well_formed. simpl. split_well_formed; try assumption.
    intros name st H. apply lookup_union_Some_raw in H as [H|[_ H]].
    - apply lookup_fmap_Some in H as (c & <- & Hc). exact Hc.
    - apply Hreg, H. }
  exact Hi.
Qed.

Lemma cpu_set_threshold_well_formed (m : Cpu.Monitor) (name : string)
    (th : pynum) (dur : Q) (sev : AlertSeverity) (msg : option string) :
  cpu_well_formed m ->
  cpu_well_formed (Cpu.set_threshold m name th dur sev msg).
Proof.
  intros (Hreg & Htim & Hpt & Hct & Hdom & Hcs & Hps & Hw).
  unfold cpu_well_formed, Cpu.set_threshold. simpl.
  split_well_formed; try assumption.
  - intros k st Hk.
    destruct (Cpu.alert_states m !! name) as [old|] eqn:Hold.
    + destruct (Cpu.thresholds m !! name) as [c|] eqn:Hc;
        rewrite lookup_insert_eq in Hk;
        (destruct (decide (k = name)) as [->|Hne];
         [rewrite lookup_insert_eq in Hk; injection Hk as <-;
          rewrite lookup_insert_eq; reflexivity
         |rewrite lookup_insert_ne in Hk by congruence;
          rewrite lookup_insert_ne by congruence; apply Hreg, Hk]).
    + destruct (decide (k = name)) as [->|Hne]; [congruence|].
      destruct (Cpu.thresholds m !! name);
        rewrite lookup_insert_ne by congruence; apply Hreg, Hk.
  - intros k cfg H.
    destruct (Cpu.thresholds m !! name) as [c|] eqn:Hc;
      apply lookup_insert_Some in H as [[_ <-]|[_ H]];
      try (split; reflexivity); try (eapply Htim; eassumption).
    exact (Htim name c Hc).
Qed.

Lemma cpu_check_cpu_well_formed (m : Cpu.Monitor) (t : Q) (u : option pynum) :
  cpu_well_formed m -> cpu_well_formed (Cpu.check_cpu_thresholds m t u).1.
Proof.
  intros Hm. unfold Cpu.check_cpu_thresholds.
  destruct u as [u|]; [|exact Hm].
  destruct Hm as (Hreg & Htim & Hpt & Hct & Hdom & Hcs & Hps & Hw).
  unfold cpu_well_formed. simpl. split_well_formed; try assumption.
  intros name st H. rewrite map_lookup_imap in H.
  destruct (Cpu.alert_states m !! name) as [st0|] eqn:H0; [|discriminate].
  simpl in H. injection H as <-. unfold Cpu.check_named.
  destruct (String.prefix "cpu_" name); simpl;
    rewrite ?evaluate_config; apply Hreg, H0.
Qed.

Lemma cpu_check_core_well_formed (t : Q)
    (acc : Cpu.Monitor * list (AlertCall Cpu.AlertType))
    (core : Cpu.CoreStat) :
  cpu_well_formed acc.1 -> cpu_well_formed (Cpu.check_core t acc core).1.
Proof.
  intros Hm. unfold Cpu.check_core.
  destruct (Cpu.core_id core) as [id|]; [|exact Hm].
  destruct (Cpu.core_alert_states acc.1 !! id) as [states|] eqn:Hid;
    [|exact Hm].
  destruct Hm as (Hreg & Htim & Hpt & Hct & Hdom & Hcs & Hps & Hw).
  unfold cpu_well_formed. simpl. split_well_formed; try assumption.
  - intros j. rewrite <- Hdom. destruct (decide (j = id)) as [->|Hne].
    + rewrite lookup_insert_eq, Hid. split; eauto.
    + rewrite lookup_insert_ne by congruence. reflexivity.
  - intros j sts name st Hj Hst.
    destruct (decide (j = id)) as [->|Hne].
    + rewrite lookup_insert_eq in Hj. injection Hj as <-.
      apply lookup_fmap_Some in Hst as (st0 & <- & H0).
      rewrite evaluate_config. eapply Hcs; eauto.
    + rewrite lookup_insert_ne in Hj by congruence. eapply Hcs; eauto.
Qed.

Lemma cpu_check_core_thresholds_well_formed (m : Cpu.Monitor) (t : Q)
    (cs : list Cpu.CoreStat) :
  cpu_well_formed m -> cpu_well_formed (Cpu.check_core_thresholds m t cs).1.
Proof.
  intros Hm. unfold Cpu.check_core_thresholds.
  destruct cs as [|c cs]; [exact Hm|].
  apply (fold_left_invariant (fun acc => cpu_well_formed acc.1)).
  - apply (cpu_ensure_cores_well_formed (c :: cs) m Hm).
  - intros a b. apply cpu_check_core_well_formed.
Qed.

Lemma cpu_check_process_configs (t : Q) (acc : Cpu.ProcessLoop)
    (proc : Cpu.Process) :
  (forall p sts name st,
     Cpu.loop_states acc !! p = Some sts ->
     sts !! name = Some st ->
     Cpu.default_process_thresholds !! name = Some (config st)) ->
  forall p sts name st,
    Cpu.loop_states
      (Cpu.check_process Cpu.default_process_thresholds t acc proc) !! p
    = Some sts ->
    sts !! name = Some st ->
    Cpu.default_process_thresholds !! name = Some (config st).
Proof.
  intros H p sts name st Hp Hst. unfold Cpu.check_process in Hp.
  destruct (Cpu.pid proc) as [q|]; [|eapply H; eauto]. simpl in Hp.
  destruct (decide (p = q)) as [->|Hne].
  - rewrite lookup_insert_eq in Hp. injection Hp as <-.
    apply lookup_fmap_Some in Hst as (st0 & <- & H0).
    rewrite evaluate_config.
    destruct (Cpu.loop_states acc !! q) as [old|] eqn:Hq.
    + eapply H; eauto.
    + apply lookup_fmap_Some in H0 as (c & <- & Hc). exact Hc.
  - rewrite lookup_insert_ne in Hp by congruence. eapply H; eauto.
Qed.

Lemma cpu_check_process_thresholds_well_formed (m : Cpu.Monitor) (t : Q)
    (ps : option (list Cpu.Process)) :
  cpu_well_formed m ->
  cpu_well_formed (Cpu.check_process_thresholds m t ps).1.
Proof.
  intros Hm. unfold Cpu.check_process_thresholds.
  destruct ps as [[|p ps]|]; try exact Hm.
  remember (p :: ps) as l eqn:Hl. clear Hl p ps.
  destruct Hm as (Hreg & Htim & Hpt & Hct & Hdom & Hcs & Hps & Hw).
  unfold cpu_well_formed. simpl. split_well_formed; try assumption.
  intros q sts name st Hq Hst.
  unfold Cpu.clean_up in Hq. apply lookup_foldr_delete_Some in Hq as [_ Hq].
  revert q sts name st Hq Hst. rewrite Hpt.
  apply (fold_left_invariant
           (fun acc =>
              forall q sts name st,
                Cpu.loop_states acc !! q = Some sts ->
                sts !! name = Some st ->
                Cpu.default_process_thresholds !! name = Some (config st))).
  - simpl. exact Hps.
  - intros a b. apply cpu_check_process_configs.
Qed.

Lemma cpu_check_sustained_well_formed (m : Cpu.Monitor) (t : Q) :
  cpu_well_formed m -> cpu_well_formed (Cpu.check_sustained_load m t).1.
Proof.
  intros Hm. unfold Cpu.check_sustained_load.
  destruct (length (Cpu.cpu_history m) <? 10)%nat; [exact Hm|].
  destruct (Cpu.thresholds m !! "cpu_usage_sustained") as [c|]; [|exact Hm].
  destruct (Cpu.alert_states m !! "cpu_usage_sustained") as [st0|] eqn:H0;
    [|exact Hm].
  destruct Hm as (Hreg & Htim & Hpt & Hct & Hdom & Hcs & Hps & Hw).
  unfold cpu_well_formed. simpl. split_well_formed; try assumption.
  intros name st H.
  destruct (decide (name = "cpu_usage_sustained")) as [->|Hne].
  - rewrite lookup_insert_eq in H. injection H as <-.
    rewrite evaluate_config. apply Hreg, H0.
  - rewrite lookup_insert_ne in H by congruence. apply Hreg, H.
Qed.

Lemma cpu_perform_well_formed (m : Cpu.Monitor) (op : Cpu.Operation) :
  cpu_well_formed m -> cpu_well_formed (Cpu.perform m op).1.
Proof.
  intros Hm.
  destruct op as [cs| |name th dur sev msg|t u|t cs|t ps|t]; simpl.
  - apply cpu_start_well_formed, Hm.
  - exact Hm.
  - apply cpu_set_threshold_well_formed, Hm.
  - apply cpu_check_cpu_well_formed, Hm.
  - apply cpu_check_core_thresholds_well_formed, Hm.
  - apply cpu_check_process_thresholds_well_formed, Hm.
  - apply cpu_check_sustained_well_formed, Hm.
Qed.

Lemma cpu_perform_all_well_formed (ops : list Cpu.Operation)
    (m : Cpu.Monitor) :
  cpu_well_formed m -> cpu_well_formed (Cpu.perform_all m ops).1.
Proof.
  revert m. induction ops as [|op ops IH]; intros m Hm; simpl.
  - exact Hm.
  - apply IH, cpu_perform_well_formed, Hm.
Qed.

Lemma cpu_reachable_well_formed (ops : list Cpu.Operation) :
  cpu_well_formed (Cpu.perform_all Cpu.init ops).1.
Proof. apply cpu_perform_all_well_formed, cpu_init_well_formed. Qed.

(** ** What the CPU monitor keeps *)

(** X3: the configuration a global state is checked against is the
    registry entry of its name. *)
Theorem cpu_state_reads_registry_entry (ops : list Cpu.Operation)
    (name : string) (st : AlertState Cpu.AlertType) :
  Cpu.alert_states (Cpu.perform_all Cpu.init ops).1 !! name = Some st ->
  Cpu.thresholds (Cpu.perform_all Cpu.init ops).1 !! name
  = Some (config st).
Proof.
  destruct (cpu_reachable_well_formed ops) as (Hreg & _). apply Hreg.
Qed.

Lemma cpu_state_reads_registry_entry_witness :
  let ops := [Cpu.Start [];
              Cpu.SetThreshold "cpu_usage_high" (PyFloat 75) 30 CRITICAL None;
              Cpu.CheckCpu 1700000000 (Some (PyFloat 99))] in
  (threshold
     <$> Cpu.thresholds (Cpu.perform_all Cpu.init ops).1 !! "cpu_usage_high")
  = Some (PyFloat 75).
Proof.
  intros ops.
  destruct (Cpu.alert_states (Cpu.perform_all Cpu.init ops).1
            !! "cpu_usage_high") as [st|] eqn:Hst;
    [|vm_compute in Hst; discriminate].
  rewrite (cpu_state_reads_registry_entry ops "cpu_usage_high" st Hst).
  vm_compute in Hst. injection Hst as <-. reflexivity.
Defined.

Lemma default_core_threshold (name : string)
    (cfg : ThresholdConfig Cpu.AlertType) :
  Cpu.default_core_thresholds !! name = Some cfg ->
  name = "core_usage_high" /\ cfg = Cpu.core_usage_high_config.
Proof.
  unfold Cpu.default_core_thresholds. intros H.
  apply lookup_insert_Some in H as [[<- <-]|[_ H]]; [auto|].
  rewrite lookup_empty in H. discriminate.
Qed.

Lemma default_process_threshold (name : string)
    (cfg : ThresholdConfig Cpu.AlertType) :
  Cpu.default_process_thresholds !! name = Some cfg ->
  name = "process_cpu_high" /\ cfg = Cpu.process_cpu_high_config.
Proof.
  unfold Cpu.default_process_thresholds. intros H.
  apply lookup_insert_Some in H as [[<- <-]|[_ H]]; [auto|].
  rewrite lookup_empty in H. discriminate.
Qed.

(** X4: the thresholds of cores and processes are out of the reach of
    [set_threshold]: whatever has been done to the monitor, a core is
    checked against ["core_usage_high"] as [_initialize_core_thresholds]
    writes it and a process against ["process_cpu_high"] as [__init__]
    writes it. *)
Theorem cpu_scoped_thresholds_are_fixed (ops : list Cpu.Operation) :
  let m := (Cpu.perform_all Cpu.init ops).1 in
  Cpu.process_thresholds m = Cpu.default_process_thresholds
  /\ (forall id sts name st,
        Cpu.core_alert_states m !! id = Some sts ->
        sts !! name = Some st ->
        name = "core_usage_high" /\ config st = Cpu.core_usage_high_config)
  /\ (forall p sts name st,
        Cpu.process_alert_states m !! p = Some sts ->
        sts !! name = Some st ->
        name = "process_cpu_high"
        /\ config st = Cpu.process_cpu_high_config).
Proof.
  intros m.
  destruct (cpu_reachable_well_formed ops)
    as (_ & _ & Hpt & _ & _ & Hcs & Hps & _).
  split; [exact Hpt|]. split.
  - intros id sts name st Hid Hst.
    apply default_core_threshold. eapply Hcs; eauto.
  - intros p sts name st Hp Hst.
    apply default_process_threshold. eapply Hps; eauto.
Qed.

Lemma cpu_scoped_thresholds_are_fixed_witness :
  let core := Cpu.mkCore (Some 0%Z) (Some (PyFloat 50)) in
  let ops := [Cpu.Start [core];
              Cpu.SetThreshold "core_usage_high" (PyFloat 10) 0 CRITICAL
                               None;
              Cpu.CheckCore 1700000000 [core]] in
  Cpu.core_alert_states (Cpu.perform_all Cpu.init ops).1 !! 0%Z
  ≫= (fun sts => config <$> sts !! "core_usage_high")
  = Some Cpu.core_usage_high_config.
Proof.
  intros core ops.
  destruct (Cpu.core_alert_states (Cpu.perform_all Cpu.init ops).1 !! 0%Z)
    as [sts|] eqn:Hid; [|vm_compute in Hid; discriminate].
  cbn [mbind option_bind].
  destruct (sts !! "core_usage_high") as [st|] eqn:Hst.
  - destruct (proj1 (proj2 (cpu_scoped_thresholds_are_fixed ops))
                0%Z sts "core_usage_high" st Hid Hst) as [_ Hcfg].
    cbn. rewrite Hcfg. reflexivity.
  - vm_compute in Hid. injection Hid as <-. vm_compute in Hst.
    discriminate.
Defined.

(** X5: the cooldown and the check interval cannot be configured: every
    state the monitor tracks is checked with a cooldown of ten minutes
    and an interval of five seconds. *)
Theorem cpu_timing_is_fixed (ops : list Cpu.Operation) :
  let m := (Cpu.perform_all Cpu.init ops).1 in
  (forall name cfg, Cpu.thresholds m !! name = Some cfg ->
                    standard_timing cfg)
  /\ (forall name st, Cpu.alert_states m !! name = Some st ->
                      standard_timing (config st))
  /\ (forall id sts name st,
        Cpu.core_alert_states m !! id = Some sts ->
        sts !! name = Some st -> standard_timing (config st))
  /\ (forall p sts name st,
        Cpu.process_alert_states m !! p = Some sts ->
        sts !! name = Some st -> standard_timing (config st)).
Proof.
  intros m.
  destruct (cpu_reachable_well_formed ops)
    as (Hreg & Htim & _ & _ & _ & Hcs & Hps & _).
  split; [exact Htim|]. split; [|split].
  - intros name st Hst. exact (Htim name _ (Hreg name st Hst)).
  - intros id sts name st Hid Hst.
    destruct (default_core_threshold name _ (Hcs id sts name st Hid Hst))
      as [_ ->]. split; reflexivity.
  - intros p sts name st Hp Hst.
    destruct (default_process_threshold name _ (Hps p sts name st Hp Hst))
      as [_ ->]. split; reflexivity.
Qed.

Lemma cpu_timing_is_fixed_witness :
  let ops := [Cpu.Start [];
              Cpu.SetThreshold "cpu_usage_high" (PyFloat 75) 30 CRITICAL
                               None] in
  (cooldown_minutes
     <$> Cpu.thresholds (Cpu.perform_all Cpu.init ops).1 !! "cpu_usage_high")
  = Some 10.
Proof.
  intros ops.
  destruct (Cpu.thresholds (Cpu.perform_all Cpu.init ops).1
            !! "cpu_usage_high") as [cfg|] eqn:Hcfg;
    [|vm_compute in Hcfg; discriminate].
  cbn. f_equal.
  exact (proj2 (proj1 (cpu_timing_is_fixed ops) "cpu_usage_high" cfg Hcfg)).
Defined.

(** ** Alerts report breaches *)

Lemma evaluate_call {AT : Type} (inverted : bool) (cfg : ThresholdConfig AT)
    (ctx : AlertContext) (state : AlertState AT) (t : Q) (v : pynum)
    (call : AlertCall AT) :
  call ∈ (evaluate inverted cfg ctx state t v).2 ->
  threshold_exceeded inverted cfg v = true
  /\ call_context call = ctx
  /\ config (call_state call) = config state
  /\ current_value (call_state call) = v
  /\ is_Some (exceeded_since (call_state call))
  /\ is_active (call_state call) = false.
Proof.
  unfold evaluate.
  destruct (threshold_exceeded inverted cfg v);
    [|simpl; intros H; apply elem_of_nil in H; destruct H].
  destruct state as [c [since|] last cur act]; simpl;
    (destruct (ge_bool _ _ && negb act) eqn:Hg;
     [|intros H; apply elem_of_nil in H; destruct H]);
    (destruct (ge_bool (t - last) _);
     [|intros H; apply elem_of_nil in H; destruct H]);
    intros H; apply list_elem_of_singleton in H; subst call; simpl;
    apply andb_true_iff in Hg as [_ Hact]; apply negb_true_iff in Hact;
    repeat split; eauto.
Qed.

Lemma evaluate_call_justified {AT : Type} (ctx : AlertContext)
    (state : AlertState AT) (t : Q) (v : pynum) (call : AlertCall AT) :
  call ∈ (evaluate false (config state) ctx state t v).2 -> justified call.
Proof.
  intros H. apply evaluate_call in H as (Hb & _ & Hc & Hv & Hs & Ha).
  unfold justified. rewrite Hc, Hv. repeat split; try assumption.
  unfold threshold_exceeded in Hb. apply ge_bool_true in Hb. exact Hb.
Qed.

Lemma evaluate_all_justified {AT : Type} (ctx : AlertContext) (t : Q)
    (v : pynum) (states : gmap string (AlertState AT))
    (call : AlertCall AT) :
  call ∈ (evaluate_all ctx t v states).2 -> justified call.
Proof.
  simpl. intros H. apply list_elem_of_In, in_flat_map in H as (p & _ & H).
  apply list_elem_of_In in H. exact (evaluate_call_justified _ _ _ _ _ H).
Qed.

Lemma cpu_perform_justified (m : Cpu.Monitor) (op : Cpu.Operation)
    (call : AlertCall Cpu.AlertType) :
  cpu_well_formed m ->
  call ∈ (Cpu.perform m op).2 -> justified call.
Proof.
  intros Hm Hc.
  destruct op as [cs| |name th dur sev msg|t u|t cs|t ps|t]; simpl in Hc;
    try (apply elem_of_nil in Hc; destruct Hc).
  - destruct u as [u|]; [|apply elem_of_nil in Hc; destruct Hc].
    apply cpu_check_raises in Hc as (name & st & _ & _ & Hc).
    exact (evaluate_call_justified _ _ _ _ _ Hc).
  - unfold Cpu.check_core_thresholds in Hc.
    destruct cs as [|c cs]; [apply elem_of_nil in Hc; destruct Hc|].
    remember (c :: cs) as l eqn:Hl. clear Hl c cs.
    revert call Hc.
    apply (fold_left_invariant
             (fun acc : Cpu.Monitor * list (AlertCall Cpu.AlertType) =>
                forall call, call ∈ acc.2 -> justified call)).
    + simpl. intros call H. apply elem_of_nil in H. destruct H.
    + intros acc core IH call H. unfold Cpu.check_core in H.
      destruct (Cpu.core_id core) as [id|]; [|apply IH, H].
      destruct (Cpu.core_alert_states acc.1 !! id); [|apply IH, H].
      simpl in H. apply elem_of_app in H as [H|H]; [apply IH, H|].
      exact (evaluate_all_justified _ _ _ _ _ H).
  - unfold Cpu.check_process_thresholds in Hc.
    destruct ps as [[|p ps]|]; try (apply elem_of_nil in Hc; destruct Hc).
    remember (p :: ps) as l eqn:Hl. clear Hl p ps. simpl in Hc.
    revert call Hc.
    apply (fold_left_invariant
             (fun acc => forall call, call ∈ Cpu.loop_calls acc ->
                                      justified call)).
    + simpl. intros call H. apply elem_of_nil in H. destruct H.
    + intros acc proc IH call H. unfold Cpu.check_process in H.
      destruct (Cpu.pid proc) as [q|]; [|apply IH, H].
      simpl in H. apply elem_of_app in H as [H|H]; [apply IH, H|].
      exact (evaluate_all_justified _ _ _ _ _ H).
  - unfold Cpu.check_sustained_load in Hc.
    destruct (length (Cpu.cpu_history m) <? 10)%nat;
      [apply elem_of_nil in Hc; destruct Hc|].
    destruct (Cpu.thresholds m !! "cpu_usage_sustained") as [c|] eqn:Hcfg;
      [|apply elem_of_nil in Hc; destruct Hc].
    destruct (Cpu.alert_states m !! "cpu_usage_sustained") as [st|] eqn:Hst;
      [|apply elem_of_nil in Hc; destruct Hc].
    simpl in Hc. destruct Hm as (Hreg & _).
    rewrite (Hreg _ _ Hst) in Hcfg. injection Hcfg as <-.
    exact (evaluate_call_justified _ _ _ _ _ Hc).
Qed.

(** X6: no alert without a breach.  Every alert the CPU monitor raises,
    whatever it has been taken through, reports a value that is at least
    the threshold of the configuration its message is rendered from, with
    the start of the breach set and the alert not yet active. *)
Theorem cpu_alerts_are_justified (ops : list Cpu.Operation)
    (call : AlertCall Cpu.AlertType) :
  call ∈ (Cpu.perform_all Cpu.init ops).2 -> justified call.
Proof.
  generalize cpu_init_well_formed. generalize Cpu.init.
  induction ops as [|op ops IH]; intros m Hm; simpl.
  - intros H. apply elem_of_nil in H. destruct H.
  - intros H. apply elem_of_app in H as [H|H].
    + exact (cpu_perform_justified m op call Hm H).
    + exact (IH _ (cpu_perform_well_formed m op Hm) H).
Qed.


Lemma cpu_alerts_are_justified_witness :
  exists call,
    (Cpu.perform_all Cpu.init
       [Cpu.Start [];
        Cpu.CheckCpu 1700000000 (Some (PyFloat 85));
        Cpu.CheckCpu 1700000060 (Some (PyFloat 85));
        Cpu.CheckCpu 1700000120 (Some (PyFloat 85))]).2 = [call]
    /\ justified call.
Proof.
  eexists. split; [vm_compute; reflexivity|].
  apply (cpu_alerts_are_justified
           [Cpu.Start [];
            Cpu.CheckCpu 1700000000 (Some (PyFloat 85));
            Cpu.CheckCpu 1700000060 (Some (PyFloat 85));
            Cpu.CheckCpu 1700000120 (Some (PyFloat 85))]).
  vm_compute. apply list_elem_of_singleton. reflexivity.
Defined.

(** ** The history of readings *)

Lemma record_history_trimmed (window t : Q) (v : pynum)
    (history : list (Q * pynum)) :
  0 <= window ->
  record_history window t v history
  = since (t - window) history ++ [(t, v)]
  /\ Forall (fun p => t - window <= p.1) (record_history window t v history).
Proof.
  intros Hw. unfold record_history, since. split.
  - rewrite List.filter_app. simpl.
    assert (H : ge_bool t (t - window) = true) by (apply ge_bool_true; lra).
    rewrite H. reflexivity.
  - apply Forall_forall. intros p Hp.
    apply list_elem_of_In, filter_In in Hp as [_ Hp].
    apply ge_bool_true in Hp. exact Hp.
Qed.

(** X7: a check that obtains a reading appends it to the history and drops
    what is more than an hour older than the check; nothing else ever
    changes the retention window. *)
Theorem cpu_history_is_trimmed (ops : list Cpu.Operation) (t : Q)
    (u : pynum) :
  let m := (Cpu.perform_all Cpu.init ops).1 in
  let m' := (Cpu.check_cpu_thresholds m t (Some u)).1 in
  Cpu.cpu_history m' = since (t - 3600) (Cpu.cpu_history m) ++ [(t, u)]
  /\ Forall (fun p => t - 3600 <= p.1) (Cpu.cpu_history m').
Proof.
  intros m m'.
  destruct (cpu_reachable_well_formed ops) as (_ & _ & _ & _ & _ & _ & _ & Hw).
  fold m in Hw. unfold m'. simpl. rewrite Hw.
  apply record_history_trimmed. lra.
Qed.

(** ** Cores *)

Lemma cpu_ensure_core_keeps (a : Cpu.Monitor) (b : Cpu.CoreStat) (id : Z) :
  is_Some (Cpu.core_alert_states a !! id) ->
  is_Some (Cpu.core_alert_states (Cpu.ensure_core a b) !! id).
Proof.
  intros Ha. unfold Cpu.ensure_core, Cpu.initialize_core_thresholds.
  destruct (Cpu.core_id b) as [j|]; [|exact Ha].
  destruct (Cpu.core_thresholds a !! j); [exact Ha|]. simpl.
  apply lookup_insert_is_Some'. auto.
Qed.

Lemma cpu_check_core_keeps (t : Q)
    (acc : Cpu.Monitor * list (AlertCall Cpu.AlertType))
    (core : Cpu.CoreStat) (id : Z) :
  is_Some (Cpu.core_alert_states acc.1 !! id) ->
  is_Some (Cpu.core_alert_states (Cpu.check_core t acc core).1 !! id).
Proof.
  intros Ha. unfold Cpu.check_core.
  destruct (Cpu.core_id core) as [j|]; [|exact Ha].
  destruct (Cpu.core_alert_states acc.1 !! j); [|exact Ha]. simpl.
  apply lookup_insert_is_Some'. auto.
Qed.

Lemma cpu_perform_keeps_core (m : Cpu.Monitor) (op : Cpu.Operation) (id : Z) :
  is_Some (Cpu.core_alert_states m !! id) ->
  is_Some (Cpu.core_alert_states (Cpu.perform m op).1 !! id).
Proof.
  intros H.
  destruct op as [cs| |name th dur sev msg|t u|t cs|t ps|t]; simpl.
  - unfold Cpu.start. destruct (Cpu.running m); [exact H|]. simpl.
    unfold Cpu.initialize_alert_states.
    apply (fold_left_invariant
             (fun m' => is_Some (Cpu.core_alert_states m' !! id)));
      [exact H|].
    intros a b. apply cpu_ensure_core_keeps.
  - exact H.
  - exact H.
  - destruct u; exact H.
  - unfold Cpu.check_core_thresholds. destruct cs as [|c cs]; [exact H|].
    remember (c :: cs) as l eqn:Hl. clear Hl c cs.
    apply (fold_left_invariant
             (fun acc : Cpu.Monitor * list (AlertCall Cpu.AlertType) =>
                is_Some (Cpu.core_alert_states acc.1 !! id))).
    + simpl.
      apply (fold_left_invariant
               (fun m' => is_Some (Cpu.core_alert_states m' !! id)));
        [exact H|].
      intros a b. apply cpu_ensure_core_keeps.
    + intros acc core. apply cpu_check_core_keeps.
  - destruct ps as [[|p ps]|]; exact H.
  - unfold Cpu.check_sustained_load.
    destruct (length (Cpu.cpu_history m) <? 10)%nat; [exact H|].
    destruct (Cpu.thresholds m !! "cpu_usage_sustained"); [|exact H].
    destruct (Cpu.alert_states m !! "cpu_usage_sustained"); exact H.
Qed.

(** X8: a core that is tracked stays tracked: nothing prunes the per-core
    states, unlike the per-process ones. *)
Theorem cpu_cores_are_never_dropped (ops : list Cpu.Operation)
    (m : Cpu.Monitor) (id : Z) :
  is_Some (Cpu.core_alert_states m !! id) ->
  is_Some (Cpu.core_alert_states (Cpu.perform_all m ops).1 !! id).
Proof.
  revert m. induction ops as [|op ops IH]; intros m H; simpl.
  - exact H.
  - apply IH, cpu_perform_keeps_core, H.
Qed.

Lemma cpu_cores_are_never_dropped_witness :
  let core := Cpu.mkCore (Some 0%Z) (Some (PyFloat 50)) in
  is_Some
    (Cpu.core_alert_states
       (Cpu.perform_all (Cpu.start Cpu.init [core])
          [Cpu.CheckCore 1700000000 [];
           Cpu.CheckProcess 1700000005 (Some []);
           Cpu.Stop]).1 !! 0%Z).
Proof.
  intros core.
  apply (cpu_cores_are_never_dropped
           [Cpu.CheckCore 1700000000 [];
            Cpu.CheckProcess 1700000005 (Some []);
            Cpu.Stop]
           (Cpu.start Cpu.init [core]) 0%Z).
  eexists. vm_compute. reflexivity.
Defined.

Lemma cpu_ensure_cores_registers (cs : list Cpu.CoreStat) (m : Cpu.Monitor)
    (id : Z) :
  Some id ∈ Cpu.core_id <$> cs ->
  is_Some (Cpu.core_thresholds (fold_left Cpu.ensure_core cs m) !! id).
Proof.
  assert (Hkeep : forall a b,
             is_Some (Cpu.core_thresholds a !! id) ->
             is_Some (Cpu.core_thresholds (Cpu.ensure_core a b) !! id)).
  { intros a b Ha. unfold Cpu.ensure_core, Cpu.initialize_core_thresholds.
    destruct (Cpu.core_id b) as [j|]; [|exact Ha].
    destruct (Cpu.core_thresholds a !! j); [exact Ha|]. simpl.
    apply lookup_insert_is_Some'. auto. }
  revert m. induction cs as [|c cs IH]; intros m Hin; simpl in *.
  - apply elem_of_nil in Hin. destruct Hin.
  - apply elem_of_cons in Hin as [Hc|Hin]; [|apply IH, Hin].
    apply (fold_left_invariant
             (fun m' => is_Some (Cpu.core_thresholds m' !! id)));
      [|exact Hkeep].
    unfold Cpu.ensure_core. rewrite <- Hc.
    unfold Cpu.initialize_core_thresholds.
    destruct (Cpu.core_thresholds m !! id) eqn:E; [rewrite E; eauto|].
    simpl. rewrite lookup_insert_eq. eauto.
Qed.

(** X9: cores are discovered from the snapshot: after a per-core check,
    every core the snapshot names has its states. *)
Theorem cpu_cores_are_discovered (ops : list Cpu.Operation) (t : Q)
    (cs : list Cpu.CoreStat) (id : Z) :
  Some id ∈ Cpu.core_id <$> cs ->
  is_Some (Cpu.core_alert_states
             (Cpu.check_core_thresholds
                (Cpu.perform_all Cpu.init ops).1 t cs).1 !! id).
Proof.
  intros Hin. set (m := (Cpu.perform_all Cpu.init ops).1).
  pose proof (cpu_reachable_well_formed ops) as Hm. fold m in Hm.
  unfold Cpu.check_core_thresholds.
  destruct cs as [|c cs]; [apply elem_of_nil in Hin; destruct Hin|].
  remember (c :: cs) as l eqn:Hl. clear Hl c cs.
  apply (fold_left_invariant
           (fun acc : Cpu.Monitor * list (AlertCall Cpu.AlertType) =>
              is_Some (Cpu.core_alert_states acc.1 !! id))).
  - simpl.
    destruct (cpu_ensure_cores_well_formed l m Hm)
      as (_ & _ & _ & _ & Hdom & _).
    apply Hdom, cpu_ensure_cores_registers, Hin.
  - intros acc core. apply cpu_check_core_keeps.
Qed.

Lemma cpu_cores_are_discovered_witness :
  is_Some
    (Cpu.core_alert_states
       (Cpu.check_core_thresholds (Cpu.perform_all Cpu.init []).1
          1700000000 [Cpu.mkCore (Some 3%Z) (Some (PyFloat 50))]).1 !! 3%Z).
Proof.
  apply (cpu_cores_are_discovered [] 1700000000
           [Cpu.mkCore (Some 3%Z) (Some (PyFloat 50))] 3%Z).
  cbn. left.
Defined.

(** ** The query of active alerts *)

Lemma cpu_scoped_alerts_origin (now : Q) (prefix : string)
    (ctx : Z -> AlertContext)
    (scoped : gmap Z (gmap string (AlertState Cpu.AlertType)))
    (key : string) (e : Cpu.ActiveAlert) :
  (key, e) ∈ Cpu.scoped_alerts now prefix ctx scoped ->
  exists id sts name st,
    scoped !! id = Some sts
    /\ sts !! name = Some st
    /\ is_active st = true
    /\ key = (prefix ++ str_int id ++ "_" ++ name)%string
    /\ e = Cpu.active_alert now (ctx id) st.
Proof.
  intros Hin. apply list_elem_of_In in Hin.
  unfold Cpu.scoped_alerts in Hin.
  apply in_flat_map in Hin as ([id sts] & Hid & Hin).
  apply in_flat_map in Hin as ([name st] & Hst & Hin). simpl in Hin.
  destruct (is_active st) eqn:Ha; [|destruct Hin].
  destruct Hin as [Heq|[]]. injection Heq as <- <-.
  apply list_elem_of_In, elem_of_map_to_list in Hid, Hst.
  exists id, sts, name, st. auto.
Qed.

(** X10: [get_active_alerts] reports active alerts only: every entry is
    computed from a state that is tracked and active, a global one under
    its name, a core's or a process's under its prefixed key; and a global
    state that is active is always reported. *)
Theorem cpu_active_alerts_are_active (now : Q) (m : Cpu.Monitor) :
  (forall key e,
     Cpu.get_active_alerts now m !! key = Some e ->
     (exists st,
        Cpu.alert_states m !! key = Some st
        /\ is_active st = true
        /\ e = Cpu.active_alert now no_context st)
     \/ (exists id sts name st,
           Cpu.core_alert_states m !! id = Some sts
           /\ sts !! name = Some st
           /\ is_active st = true
           /\ key = ("core_" ++ str_int id ++ "_" ++ name)%string
           /\ e = Cpu.active_alert now
                    (mkContext (Some id) None None None) st)
     \/ (exists p sts name st,
           Cpu.process_alert_states m !! p = Some sts
           /\ sts !! name = Some st
           /\ is_active st = true
           /\ key = ("process_" ++ str_int p ++ "_" ++ name)%string
           /\ e = Cpu.active_alert now
                    (mkContext None (Some p) None None) st))
  /\ (forall name st,
        Cpu.alert_states m !! name = Some st ->
        is_active st = true ->
        is_Some (Cpu.get_active_alerts now m !! name)).
Proof.
  split.
  - intros key e He. unfold Cpu.get_active_alerts in He.
    apply lookup_union_Some_raw in He as [He|[_ He]].
    + right. right.
      apply elem_of_list_to_map_2 in He.
      exact (cpu_scoped_alerts_origin _ _ _ _ _ _ He).
    + apply lookup_union_Some_raw in He as [He|[_ He]].
      * right. left.
        apply elem_of_list_to_map_2 in He.
        exact (cpu_scoped_alerts_origin _ _ _ _ _ _ He).
      * left. apply lookup_omap_Some in He as (st & Hf & Hst).
        destruct (is_active st) eqn:Ha; [|discriminate].
        injection Hf as <-. exists st. auto.
  - intros name st Hst Ha. unfold Cpu.get_active_alerts.
    match goal with
    | |- is_Some ((?a ∪ (?b ∪ ?c)) !! name) =>
        destruct (a !! name) as [x|] eqn:Ea;
        [rewrite (lookup_union_Some_l a _ name x Ea); eauto|];
        rewrite (lookup_union_r a _ name Ea);
        destruct (b !! name) as [y|] eqn:Eb;
        [rewrite (lookup_union_Some_l b _ name y Eb); eauto|];
        rewrite (lookup_union_r b _ name Eb)
    end.
    rewrite lookup_omap, Hst. simpl. rewrite Ha. eauto.
Qed.

Lemma cpu_active_alerts_are_active_witness :
  is_Some
    (Cpu.get_active_alerts 1700000200
       (Cpu.perform_all Cpu.init
          [Cpu.Start [];
           Cpu.CheckCpu 1700000000 (Some (PyFloat 85));
           Cpu.CheckCpu 1700000060 (Some (PyFloat 85))]).1
     !! "cpu_usage_high").
Proof.
  eapply (proj2 (cpu_active_alerts_are_active 1700000200 _)).
  - vm_compute. reflexivity.
  - reflexivity.
Defined.

(** ** Updating a threshold *)

(** X11: [set_threshold] on a name that has a state replaces the state by
    a new one for the updated configuration (the breach start, the active
    flag and the time of the last alert are forgotten) and leaves
    everything registered or tracked under another name, every core,
    every process and the history as they were. *)
Theorem cpu_set_threshold_resets_one_state (m : Cpu.Monitor)
    (name : string) (th : pynum) (dur : Q) (sev : AlertSeverity)
    (msg : option string) :
  let m' := Cpu.set_threshold m name th dur sev msg in
  (forall st,
     Cpu.alert_states m !! name = Some st ->
     exists cfg,
       Cpu.thresholds m' !! name = Some cfg
       /\ Cpu.alert_states m' !! name = Some (new_state cfg))
  /\ (forall other,
        other <> name ->
        Cpu.thresholds m' !! other = Cpu.thresholds m !! other
        /\ Cpu.alert_states m' !! other = Cpu.alert_states m !! other)
  /\ Cpu.core_thresholds m' = Cpu.core_thresholds m
  /\ Cpu.process_thresholds m' = Cpu.process_thresholds m
  /\ Cpu.core_alert_states m' = Cpu.core_alert_states m
  /\ Cpu.process_alert_states m' = Cpu.process_alert_states m
  /\ Cpu.cpu_history m' = Cpu.cpu_history m.
Proof.
  intros m'. unfold m', Cpu.set_threshold. simpl.
  split; [|split; [|repeat split]].
  - intros st Hst. rewrite Hst.
    destruct (Cpu.thresholds m !! name) as [c|];
      rewrite lookup_insert_eq; eexists;
      (split; [reflexivity|apply lookup_insert_eq]).
  - intros other Hne. split.
    + destruct (Cpu.thresholds m !! name);
        apply lookup_insert_ne; congruence.
    + destruct (Cpu.alert_states m !! name); [|reflexivity].
      match goal with
      | |- context [match ?x with Some _ => _ | None => _ end] =>
          destruct x
      end; [|reflexivity].
      apply lookup_insert_ne. congruence.
Qed.

Lemma cpu_set_threshold_resets_one_state_witness :
  let m := (Cpu.perform_all Cpu.init
              [Cpu.Start [];
               Cpu.CheckCpu 1700000000 (Some (PyFloat 85));
               Cpu.CheckCpu 1700000060 (Some (PyFloat 85))]).1 in
  exists cfg,
    Cpu.alert_states
      (Cpu.set_threshold m "cpu_usage_high" (PyFloat 70) 30 WARNING None)
    !! "cpu_usage_high" = Some (new_state cfg).
Proof.
  intros m.
  destruct (Cpu.alert_states m !! "cpu_usage_high") as [st|] eqn:Hst;
    [|vm_compute in Hst; discriminate].
  destruct (proj1 (cpu_set_threshold_resets_one_state m "cpu_usage_high"
                     (PyFloat 70) 30 WARNING None) st Hst)
    as (cfg & _ & H).
  exists cfg. exact H.
Defined.

(** X12: the last call wins: when a message is given, calling
    [set_threshold] again for the same name gives the monitor the call
    alone would have given. *)
Theorem cpu_set_threshold_last_call_wins (m : Cpu.Monitor) (name : string)
    (th1 th2 : pynum) (dur1 dur2 : Q) (sev1 sev2 : AlertSeverity)
    (msg1 : option string) (msg2 : string) :
  msg2 <> EmptyString ->
  Cpu.set_threshold (Cpu.set_threshold m name th1 dur1 sev1 msg1)
                    name th2 dur2 sev2 (Some msg2)
  = Cpu.set_threshold m name th2 dur2 sev2 (Some msg2).
Proof.
  intros Hmsg. destruct msg2 as [|a msg2]; [congruence|].
  unfold Cpu.set_threshold. simpl.
  destruct (Cpu.thresholds m !! name) as [c|] eqn:Hc;
    rewrite !lookup_insert_eq; simpl; rewrite insert_insert_eq;
    (destruct (Cpu.alert_states m !! name) as [st|] eqn:Hst;
     [rewrite !lookup_insert_eq, insert_insert_eq; reflexivity
     |rewrite Hst; reflexivity]).
Qed.

Lemma cpu_set_threshold_last_call_wins_witness :
  Cpu.set_threshold
    (Cpu.set_threshold Cpu.init "cpu_usage_high" (PyFloat 50) 10 INFO None)
    "cpu_usage_high" (PyFloat 95) 20 CRITICAL (Some "hot")
  = Cpu.set_threshold Cpu.init "cpu_usage_high" (PyFloat 95) 20 CRITICAL
                      (Some "hot").
Proof.
  apply cpu_set_threshold_last_call_wins. discriminate.
Defined.

(** ** Well-formed network monitors *)

Ltac split_net_well_formed :=
  refine (conj _ (conj _ (conj _ (conj _ (conj _ (conj _ _)))))).

Lemma net_init_well_formed : net_well_formed Net.init.
Proof.
  unfold net_well_formed. simpl. split_net_well_formed;
    try reflexivity;
    intros; match goal with
            | H : ∅ !! _ = Some _ |- _ =>
                rewrite lookup_empty in H; discriminate
            end.
Qed.

Lemma net_initialize_interface_well_formed (m : Net.Monitor) (n : string) :
  net_well_formed m ->
  net_well_formed (Net.initialize_interface_thresholds m n).
Proof.
  intros Hm. unfold Net.initialize_interface_thresholds.
  destruct (Net.interface_thresholds m !! n); [exact Hm|].
  destruct Hm as (Hreg & Hwt & Hws & His & Hpt & Hps & Hw).
  unfold net_well_formed. simpl. split_net_well_formed; try assumption.
  intros j sts name st Hj Hst.
  destruct (decide (j = n)) as [->|Hne].
  - rewrite lookup_insert_eq in Hj. injection Hj as <-.
    apply lookup_fmap_Some in Hst as (c & <- & Hc). exact Hc.
  - rewrite lookup_insert_ne in Hj by congruence. eapply His; eauto.
Qed.

Lemma net_ensure_interfaces_well_formed (ifs : list Net.Interface)
    (m : Net.Monitor) :
  net_well_formed m ->
  net_well_formed (fold_left Net.ensure_interface ifs m).
Proof.
  intros Hm. apply fold_left_invariant; [exact Hm|].
  intros a b Ha. unfold Net.ensure_interface.
  destruct (Net.truthy (Net.name b));
    [apply net_initialize_interface_well_formed|]; exact Ha.
Qed.

Lemma net_start_well_formed (m : Net.Monitor) (ifs : list Net.Interface) :
  net_well_formed m -> net_well_formed (Net.start m ifs).
Proof.
  intros Hm. unfold Net.start. destruct (Net.running m); [exact Hm|].
  unfold Net.initialize_alert_states.
  match goal with
  | |- context [fold_left Net.ensure_interface ifs ?m0] =>
      assert (H0 : net_well_formed (fold_left Net.ensure_interface ifs m0))
  end.
  { apply net_ensure_interfaces_well_formed.
    destruct Hm as (Hreg & Hwt & Hws & His & Hpt & Hps & Hw).
    unfold net_well_formed. simpl. split_net_well_formed; try assumption.
    intros name st H. apply lookup_union_Some_raw in H as [H|[_ H]].
    - apply lookup_fmap_Some in H as (c & <- & Hc). exact Hc.
    - apply Hreg, H. }
  destruct H0 as (Hreg & Hwt & Hws & His & Hpt & Hps & Hw).
  unfold net_well_formed. simpl. split_net_well_formed; try assumption.
  intros name st H. apply lookup_union_Some_raw in H as [H|[_ H]].
  - apply lookup_fmap_Some in H as (c & <- & Hc).
    rewrite Hwt in Hc. eauto.
  - apply Hws, H.
Qed.

Lemma net_set_threshold_well_formed (m : Net.Monitor) (name : string)
    (th : pynum) (dur : Q) (sev : AlertSeverity) (msg : option string) :
  net_well_formed m ->
  net_well_formed (Net.set_threshold m name th dur sev msg).
Proof.
  intros (Hreg & Hwt & Hws & His & Hpt & Hps & Hw).
  unfold net_well_formed, Net.set_threshold. simpl.
  split_net_well_formed; try assumption.
  intros k st Hk.
  destruct (Net.alert_states m !! name) as [old|] eqn:Hold.
  - destruct (Net.thresholds m !! name) as [c|] eqn:Hc;
      rewrite lookup_insert_eq in Hk;
      (destruct (decide (k = name)) as [->|Hne];
       [rewrite lookup_insert_eq in Hk; injection Hk as <-;
        rewrite lookup_insert_eq; reflexivity
       |rewrite lookup_insert_ne in Hk by congruence;
        rewrite lookup_insert_ne by congruence; apply Hreg, Hk]).
  - destruct (decide (k = name)) as [->|Hne]; [congruence|].
    destruct (Net.thresholds m !! name);
      rewrite lookup_insert_ne by congruence; apply Hreg, Hk.
Qed.

Lemma net_check_threshold_well_formed (m : Net.Monitor) (n : string)
    (v : pynum) (t : Q) :
  net_well_formed m -> net_well_formed (Net.check_threshold m n v t).1.
Proof.
  intros Hm. unfold Net.check_threshold.
  destruct (Net.alert_states m !! n) as [st0|] eqn:H0; [|exact Hm].
  destruct Hm as (Hreg & Hwt & Hws & His & Hpt & Hps & Hw).
  unfold net_well_formed. simpl. split_net_well_formed; try assumption.
  intros name st H. destruct (decide (name = n)) as [->|Hne].
  - rewrite lookup_insert_eq in H. injection H as <-.
    rewrite evaluate_config. apply Hreg, H0.
  - rewrite lookup_insert_ne in H by congruence. apply Hreg, H.
Qed.

Lemma evaluate_key_lookup (key : string) (ctx : AlertContext) (t : Q)
    (v : pynum) (states : gmap string (AlertState Net.NetworkAlertType))
    (name : string) (st : AlertState Net.NetworkAlertType) :
  (Net.evaluate_key key ctx t v states).1 !! name = Some st ->
  exists st0, states !! name = Some st0 /\ config st = config st0.
Proof.
  unfold Net.evaluate_key.
  destruct (states !! key) as [s|] eqn:Hs; simpl; [|eauto].
  intros H. destruct (decide (name = key)) as [->|Hne].
  - rewrite lookup_insert_eq in H. injection H as <-.
    exists s. split; [exact Hs|apply evaluate_config].
  - rewrite lookup_insert_ne in H by congruence. eauto.
Qed.

Lemma net_check_interface_well_formed (bw : option (string -> pynum))
    (t : Q) (acc : Net.Monitor * list (AlertCall Net.NetworkAlertType))
    (i : Net.Interface) :
  net_well_formed acc.1 ->
  net_well_formed (Net.check_interface bw t acc i).1.
Proof.
  intros Hm. unfold Net.check_interface.
  destruct (Net.truthy (Net.name i)) as [n|]; [|exact Hm].
  destruct (Net.interface_alert_states acc.1 !! n) as [states|] eqn:Hn;
    [|exact Hm].
  destruct (negb _); [exact Hm|].
  destruct Hm as (Hreg & Hwt & Hws & His & Hpt & Hps & Hw).
  unfold net_well_formed. simpl. split_net_well_formed; try assumption.
  intros j sts name st Hj Hst.
  destruct (decide (j = n)) as [->|Hne].
  - rewrite lookup_insert_eq in Hj. injection Hj as <-.
    apply evaluate_key_lookup in Hst as (s1 & Hs1 & ->).
    apply evaluate_key_lookup in Hs1 as (s0 & Hs0 & ->).
    eapply His; eauto.
  - rewrite lookup_insert_ne in Hj by congruence. eapply His; eauto.
Qed.

Lemma net_check_interface_thresholds_well_formed (m : Net.Monitor) (t : Q)
    (bw : option (string -> pynum)) (ifs : list Net.Interface) :
  net_well_formed m ->
  net_well_formed (Net.check_interface_thresholds m t bw ifs).1.
Proof.
  intros Hm. unfold Net.check_interface_thresholds.
  destruct ifs as [|i ifs]; [exact Hm|].
  apply (fold_left_invariant (fun acc => net_well_formed acc.1)).
  - apply (net_ensure_interfaces_well_formed (i :: ifs) m Hm).
  - intros a b. apply net_check_interface_well_formed.
Qed.

Lemma net_check_process_configs (t : Q) (acc : Net.ProcessLoop)
    (proc : Net.Process) :
  (forall p sts name st,
     Net.loop_states acc !! p = Some sts ->
     sts !! name = Some st ->
     Net.default_process_thresholds !! name = Some (config st)) ->
  forall p sts name st,
    Net.loop_states
      (Net.check_process Net.default_process_thresholds t acc proc) !! p
    = Some sts ->
    sts !! name = Some st ->
    Net.default_process_thresholds !! name = Some (config st).
Proof.
  intros H p sts name st Hp Hst. unfold Net.check_process in Hp.
  simpl in Hp.
  destruct (decide (p = Net.process_key proc)) as [->|Hne].
  - rewrite lookup_insert_eq in Hp. injection Hp as <-.
    apply evaluate_key_lookup in Hst as (st0 & H0 & ->).
    destruct (Net.loop_states acc !! Net.process_key proc) as [old|] eqn:Hq.
    + eapply H; eauto.
    + apply lookup_fmap_Some in H0 as (c & <- & Hc). exact Hc.
  - rewrite lookup_insert_ne in Hp by congruence. eapply H; eauto.
Qed.

Lemma net_check_process_thresholds_well_formed (m : Net.Monitor) (t : Q)
    (ps : option (list Net.Process)) :
  net_well_formed m ->
  net_well_formed (Net.check_process_thresholds m t ps).1.
Proof.
  intros Hm. unfold Net.check_process_thresholds.
  destruct ps as [[|p ps]|]; try exact Hm.
  remember (p :: ps) as l eqn:Hl. clear Hl p ps.
  destruct Hm as (Hreg & Hwt & Hws & His & Hpt & Hps & Hw).
  unfold net_well_formed. simpl. split_net_well_formed; try assumption.
  intros q sts name st Hq Hst.
  unfold Net.clean_up in Hq. apply lookup_foldr_delete_Some in Hq as [_ Hq].
  revert q sts name st Hq Hst. rewrite Hpt.
  apply (fold_left_invariant
           (fun acc =>
              forall q sts name st,
                Net.loop_states acc !! q = Some sts ->
                sts !! name = Some st ->
                Net.default_process_thresholds !! name = Some (config st))).
  - simpl. exact Hps.
  - intros a b. apply net_check_process_configs.
Qed.

Lemma net_perform_well_formed (m : Net.Monitor) (op : Net.Operation) :
  net_well_formed m -> net_well_formed (Net.perform m op).1.
Proof.
  intros Hm.
  destruct op as [ifs| |n th dur sev msg|t u|t bw ifs|t ps|t w|t|t c]; simpl.
  - apply net_start_well_formed, Hm.
  - exact Hm.
  - apply net_set_threshold_well_formed, Hm.
  - unfold Net.check_bandwidth_thresholds. destruct u as [u|]; [|exact Hm].
    cbn [fst]. do 4 apply net_check_threshold_well_formed.
    exact Hm.
  - apply net_check_interface_thresholds_well_formed, Hm.
  - apply net_check_process_thresholds_well_formed, Hm.
  - unfold Net.check_wifi_thresholds. destruct w as [w|]; [|exact Hm].
    destruct (negb _); [exact Hm|].
    apply net_check_threshold_well_formed, Hm.
  - unfold Net.check_sustained_bandwidth.
    destruct (length (Net.bandwidth_history m) <? 10)%nat; [exact Hm|].
    destruct (Net.thresholds m !! "bandwidth_usage_sustained"); [|exact Hm].
    destruct (Net.alert_states m !! "bandwidth_usage_sustained");
      [|exact Hm].
    apply net_check_threshold_well_formed, Hm.
  - unfold Net.check_connection_thresholds.
    destruct c as [c|]; [|exact Hm].
    apply net_check_threshold_well_formed, Hm.
Qed.

Lemma net_reachable_well_formed (ops : list Net.Operation) :
  net_well_formed (Net.perform_all Net.init ops).1.
Proof.
  generalize net_init_well_formed. generalize Net.init.
  induction ops as [|op ops IH]; intros m Hm; simpl.
  - exact Hm.
  - apply IH, net_perform_well_formed, Hm.
Qed.

(** ** What the network monitor keeps *)

Lemma default_wifi_threshold (name : string)
    (cfg : ThresholdConfig Net.NetworkAlertType) :
  Net.default_wifi_thresholds !! name = Some cfg ->
  name = "wifi_signal_low" /\ cfg = Net.wifi_signal_low_config.
Proof.
  unfold Net.default_wifi_thresholds. intros H.
  apply lookup_insert_Some in H as [[<- <-]|[_ H]]; [auto|].
  rewrite lookup_empty in H. discriminate.
Qed.

(** X13: the states kept in [_wifi_alert_states] are never checked:
    whatever the monitor is taken through, the only state there is the
    one of ["wifi_signal_low"], exactly as [_initialize_alert_states]
    made it, and the WiFi loop of [get_active_alerts] adds nothing to
    the result. *)
Theorem net_wifi_states_stay_new (ops : list Net.Operation) :
  let m := (Net.perform_all Net.init ops).1 in
  (forall name st,
     Net.wifi_alert_states m !! name = Some st ->
     name = "wifi_signal_low"
     /\ st = new_state Net.wifi_signal_low_config)
  /\ (forall now result,
        NetQuery.report_named now (Net.wifi_alert_states m) result
        = result).
Proof.
  intros m.
  destruct (net_reachable_well_formed ops) as (_ & _ & Hws & _).
  fold m in Hws.
  assert (Hnew : forall name st,
             Net.wifi_alert_states m !! name = Some st ->
             name = "wifi_signal_low"
             /\ st = new_state Net.wifi_signal_low_config).
  { intros name st H. destruct (Hws name st H) as (cfg & Hcfg & ->).
    apply default_wifi_threshold in Hcfg as [-> ->]. auto. }
  split; [exact Hnew|].
  intros now result. unfold NetQuery.report_named.
  replace (omap _ (Net.wifi_alert_states m))
    with (∅ : gmap string NetQuery.ActiveAlert);
    [apply (left_id ∅ (∪))|].
  symmetry. apply map_eq. intros key.
  rewrite lookup_omap, lookup_empty.
  destruct (Net.wifi_alert_states m !! key) as [st|] eqn:Hst;
    [|reflexivity].
  destruct (Hnew key st Hst) as [_ ->]. reflexivity.
Qed.

Lemma net_wifi_states_stay_new_witness :
  let ops := [Net.Start [];
              Net.CheckWifi 1700000000
                (Some (Net.mkWifi (Some true) (Some (PyInt (-90)))));
              Net.CheckWifi 1700000600
                (Some (Net.mkWifi (Some true) (Some (PyInt (-90)))))] in
  Net.wifi_alert_states (Net.perform_all Net.init ops).1
    !! "wifi_signal_low"
  = Some (new_state Net.wifi_signal_low_config).
Proof.
  intros ops.
  destruct (Net.wifi_alert_states (Net.perform_all Net.init ops).1
            !! "wifi_signal_low") as [st|] eqn:Hst;
    [|vm_compute in Hst; discriminate].
  destruct (proj1 (net_wifi_states_stay_new ops) _ st Hst) as [_ ->].
  reflexivity.
Defined.

(** X14: the configuration a global state of the network monitor is
    checked against is the registry entry of its name. *)
Theorem net_state_reads_registry_entry (ops : list Net.Operation)
    (name : string) (st : AlertState Net.NetworkAlertType) :
  Net.alert_states (Net.perform_all Net.init ops).1 !! name = Some st ->
  Net.thresholds (Net.perform_all Net.init ops).1 !! name
  = Some (config st).
Proof.
  destruct (net_reachable_well_formed ops) as (Hreg & _). apply Hreg.
Qed.

Lemma net_state_reads_registry_entry_witness :
  let ops := [Net.Start [];
              Net.SetThreshold "upload_rate_high" (PyInt 5000) 30 CRITICAL
                               None] in
  (threshold
     <$> Net.thresholds (Net.perform_all Net.init ops).1
         !! "upload_rate_high")
  = Some (PyInt 5000).
Proof.
  intros ops.
  destruct (Net.alert_states (Net.perform_all Net.init ops).1
            !! "upload_rate_high") as [st|] eqn:Hst;
    [|vm_compute in Hst; discriminate].
  rewrite (net_state_reads_registry_entry ops "upload_rate_high" st Hst).
  vm_compute in Hst. injection Hst as <-. reflexivity.
Defined.

(** *** Interfaces *)

Lemma default_interface_threshold (name : string)
    (cfg : ThresholdConfig Net.NetworkAlertType) :
  Net.default_interface_thresholds !! name = Some cfg ->
  (name = "interface_bandwidth_high"
   /\ cfg = Net.interface_bandwidth_high_config)
  \/ (name = "interface_error_rate_high"
      /\ cfg = Net.interface_error_rate_high_config).
Proof.
  unfold Net.default_interface_thresholds. intros H.
  apply lookup_insert_Some in H as [[<- <-]|[_ H]]; [auto|].
  apply lookup_insert_Some in H as [[<- <-]|[_ H]]; [auto|].
  rewrite lookup_empty in H. discriminate.
Qed.

Lemma evaluate_key_call (key : string) (ctx : AlertContext) (t : Q)
    (v : pynum) (states : gmap string (AlertState Net.NetworkAlertType))
    (call : AlertCall Net.NetworkAlertType) :
  call ∈ (Net.evaluate_key key ctx t v states).2 ->
  exists st,
    states !! key = Some st
    /\ config (call_state call) = config st
    /\ threshold_exceeded false (config st) v = true.
Proof.
  unfold Net.evaluate_key.
  destruct (states !! key) as [st|];
    [|intros H; apply elem_of_nil in H; destruct H].
  simpl. intros H. apply evaluate_call in H as (Hb & _ & Hc & _).
  exists st. auto.
Qed.

Lemma net_check_interface_calls (t : Q)
    (acc : Net.Monitor * list (AlertCall Net.NetworkAlertType))
    (i : Net.Interface) (call : AlertCall Net.NetworkAlertType) :
  net_well_formed acc.1 ->
  call ∈ (Net.check_interface None t acc i).2 ->
  call ∈ acc.2
  \/ config (call_state call) = Net.interface_error_rate_high_config.
Proof.
  intros Hm. unfold Net.check_interface.
  destruct (Net.truthy (Net.name i)) as [n|]; [|auto].
  destruct (Net.interface_alert_states acc.1 !! n) as [states|] eqn:Hn;
    [|auto].
  destruct (negb _); [auto|]. simpl.
  destruct Hm as (_ & _ & _ & His & _).
  intros H. apply elem_of_app in H as [H|H]; [auto|]. right.
  apply elem_of_app in H as [H|H].
  - exfalso. apply evaluate_key_call in H as (st & Hst & _ & Hb).
    pose proof (His n states _ st Hn Hst) as Hd.
    apply default_interface_threshold in Hd as [[_ Hc]|[Hk _]];
      [|discriminate].
    rewrite Hc in Hb. vm_compute in Hb. discriminate.
  - apply evaluate_key_call in H as (st & Hst & Hc & _).
    apply evaluate_key_lookup in Hst as (st0 & Hst0 & Hc0).
    pose proof (His n states _ st0 Hn Hst0) as Hd.
    apply default_interface_threshold in Hd as [[Hk _]|[_ Hd]];
      [discriminate|].
    congruence.
Qed.

(** X15: without [get_interface_bandwidth] on the metric source (the
    monitor of [network.py] has none) the bandwidth of an interface is
    taken to be 0 and ["interface_bandwidth_high"] never raises an alert:
    whatever the monitor has been taken through, every alert of a
    per-interface check is an error-rate alert. *)
Theorem net_interface_bandwidth_needs_source (ops : list Net.Operation)
    (t : Q) (ifs : list Net.Interface)
    (call : AlertCall Net.NetworkAlertType) :
  call ∈ (Net.check_interface_thresholds
            (Net.perform_all Net.init ops).1 t None ifs).2 ->
  config (call_state call) = Net.interface_error_rate_high_config.
Proof.
  set (m := (Net.perform_all Net.init ops).1).
  pose proof (net_reachable_well_formed ops) as Hm. fold m in Hm.
  unfold Net.check_interface_thresholds.
  destruct ifs as [|i ifs];
    [intros H; apply elem_of_nil in H; destruct H|].
  remember (i :: ifs) as l eqn:Hl. clear Hl i ifs.
  intros H.
  assert (Hinv :
    net_well_formed
      (fold_left (Net.check_interface None t) l
                 (fold_left Net.ensure_interface l m, [])).1
    /\ forall c,
         c ∈ (fold_left (Net.check_interface None t) l
                        (fold_left Net.ensure_interface l m, [])).2 ->
         config (call_state c) = Net.interface_error_rate_high_config).
  { apply (fold_left_invariant
             (fun acc : Net.Monitor * list (AlertCall Net.NetworkAlertType) =>
                net_well_formed acc.1
                /\ forall c, c ∈ acc.2 ->
                             config (call_state c)
                             = Net.interface_error_rate_high_config)).
    - split; [apply net_ensure_interfaces_well_formed, Hm|].
      simpl. intros c Hc. apply elem_of_nil in Hc. destruct Hc.
    - intros acc i [Hwf Hcalls]. split.
      + apply net_check_interface_well_formed, Hwf.
      + intros c Hc.
        destruct (net_check_interface_calls t acc i c Hwf Hc) as [Hold|Hnew];
          [apply Hcalls, Hold|exact Hnew]. }
  apply Hinv, H.
Qed.

Lemma net_interface_bandwidth_needs_source_witness :
  let busy := Net.mkInterface (Some "en0") (Some "active")
                (Some (PyInt 900000000)) (Some (PyInt 900000000))
                (Some (PyInt 500)) in
  let ops := [Net.Start [busy];
              Net.CheckInterface 1700000000 None [busy]] in
  exists call,
    (Net.check_interface_thresholds
       (Net.perform_all Net.init ops).1 1700000300 None [busy]).2 = [call]
    /\ config (call_state call) = Net.interface_error_rate_high_config.
Proof.
  intros busy ops. eexists. split; [vm_compute; reflexivity|].
  apply (net_interface_bandwidth_needs_source ops 1700000300 [busy]).
  vm_compute. apply list_elem_of_singleton. reflexivity.
Defined.

(** ** The dispatcher *)

Lemma updates_of_app (key : nat) (l1 l2 : list Events.Effect) :
  updates_of key (l1 ++ l2) = updates_of key l1 ++ updates_of key l2.
Proof. apply flat_map_app. Qed.


















(** *** [detach] *)






(** *** Dead references *)



(** *** [notify] *)

Lemma notify_loop_app_raises (event : MetricEvent)
    (before after : list Events.ObserverRef) (r : Events.ObserverRef)
    (o : Events.Observer) (e : string) :
  (Subject.notify_loop event before).2 = Events.Returns ->
  Events.referent r = Some o ->
  Events.update o event = Events.Raises e ->
  Subject.notify_loop event (before ++ r :: after)
  = ((Subject.notify_loop event before).1
     ++ [Events.Update (Events.ref_key r) event],
     Events.Raises e).
Proof.
  intros Hret Hr Hraise.
  induction before as [|r0 before IH].
  - simpl. rewrite Hr, Hraise. reflexivity.
  - simpl in *. destruct (Events.referent r0) as [o0|]; [|auto].
    destruct (Events.update o0 event); [|discriminate].
    simpl in Hret. rewrite (IH Hret). reflexivity.
Qed.

(** X19: the inherited [notify] neither filters nor guards: when an
    observer raises, what it raised leaves [notify], the observers after
    it are not told, and the dead references stay in [_observers]. *)
Theorem events_notify_stops_at_error (d : Events.Dispatcher)
    (event : MetricEvent) (before after : list Events.ObserverRef)
    (r : Events.ObserverRef) (o : Events.Observer) (e : string) :
  Events.observers d = before ++ r :: after ->
  (Subject.notify_loop event before).2 = Events.Returns ->
  Events.referent r = Some o ->
  Events.update o event = Events.Raises e ->
  (Subject.notify d event).1.1 = d
  /\ (Subject.notify d event).2 = Events.Raises e
  /\ (forall r', r' ∈ after ->
                 ~ Events.ref_key r' ∈ map Events.ref_key before ->
                 Events.ref_key r' <> Events.ref_key r ->
                 updates_of (Events.ref_key r')
                            (Subject.notify d event).1.2 = []).
Proof.
  intros Hobs Hret Hr Hraise. unfold Subject.notify.
  rewrite Hobs.
  rewrite (notify_loop_app_raises event before after r o e Hret Hr Hraise).
  cbn [fst snd]. split; [reflexivity|]. split; [reflexivity|].
  intros r' _ Hfresh Hne. rewrite updates_of_app. simpl.
  assert (Hne' : Nat.eqb (Events.ref_key r) (Events.ref_key r') = false)
    by (apply Nat.eqb_neq; congruence).
  rewrite Hne'. rewrite app_nil_r.
  clear Hret Hobs. induction before as [|r0 before IH]; [reflexivity|].
  simpl. assert (Hfresh' : ~ Events.ref_key r' ∈ map Events.ref_key before).
  { intros Hin. apply Hfresh. simpl. right. exact Hin. }
  assert (Hne0 : Nat.eqb (Events.ref_key r0) (Events.ref_key r') = false).
  { apply Nat.eqb_neq. intros Hk. apply Hfresh. simpl. rewrite <- Hk.
    left. }
  destruct (Events.referent r0) as [o0|]; [|auto].
  destruct (Events.update o0 event); simpl; rewrite Hne0; auto.
Qed.

Lemma events_notify_stops_at_error_witness :
  let failing := Events.mkObserver (fun _ => Events.Raises "boom") in
  let quiet := Events.mkObserver (fun _ => Events.Returns) in
  let d := Events.mkDispatcher
             [Events.mkRef 1 None; Events.mkRef 2 (Some failing);
              Events.mkRef 3 (Some quiet)]
             ∅ [] true in
  let event := mkEvent MEMORY_UPDATED 5 "test" None "note" in
  (Subject.notify d event).1.1 = d
  /\ (Subject.notify d event).2 = Events.Raises "boom"
  /\ updates_of 3 (Subject.notify d event).1.2 = [].
Proof.
  intros failing quiet d event.
  destruct (events_notify_stops_at_error d event [Events.mkRef 1 None]
              [Events.mkRef 3 (Some quiet)] (Events.mkRef 2 (Some failing))
              failing "boom" eq_refl eq_refl eq_refl eq_refl)
    as (Hd & Hout & Hafter).
  split; [exact Hd|]. split; [exact Hout|].
  apply (Hafter (Events.mkRef 3 (Some quiet))).
  - left.
  - simpl. intros H. apply list_elem_of_singleton in H. discriminate.
  - simpl. discriminate.
Defined.

(** *** The two filters *)

(** X20: [MetricsEventFilter] and the filter of [attach_with_filter]
    accept the same events for a list of types that is not empty; for
    the empty list the first accepts every event and the second none. *)
Theorem events_filters_differ_on_empty_list (d : Events.Dispatcher)
    (key : nat) (o : Events.Observer)
    (event_types : list MetricUpdateEvent) (event : MetricEvent) :
  let filters :=
    Events.event_filters (Events.attach_with_filter d key o event_types) in
  (event_types <> [] ->
   MetricsEventFilter.matches (MetricsEventFilter.init (Some event_types))
                              event
   = Events.interested filters key event)
  /\ (event_types = [] ->
      MetricsEventFilter.matches
        (MetricsEventFilter.init (Some event_types)) event = true
      /\ Events.interested filters key event = false).
Proof.
  intros filters. unfold filters, Events.interested. simpl.
  rewrite lookup_insert_eq. split.
  - intros Hne. destruct event_types as [|ty tys]; [congruence|].
    reflexivity.
  - intros ->. split; [reflexivity|].
    apply bool_decide_eq_false. apply not_elem_of_nil.
Qed.

Lemma events_filters_differ_on_empty_list_witness :
  let quiet := Events.mkObserver (fun _ => Events.Returns) in
  let event := mkEvent MEMORY_UPDATED 5 "test" None "note" in
  MetricsEventFilter.matches (MetricsEventFilter.init (Some [])) event
  = true
  /\ Events.interested
       (Events.event_filters
          (Events.attach_with_filter Events.init 1 quiet []))
       1 event = false.
Proof.
  intros quiet event.
  exact (proj2 (events_filters_differ_on_empty_list Events.init 1 quiet []
                  event) eq_refl).
Defined.

(** ** The display *)

(** X21: the display keeps one alert for each alert type: an alert of the
    CPU monitor takes the place of an earlier one of the same type,
    whatever core or process either is about. *)
Theorem display_one_alert_per_type (active_alerts : gmap string Display.Alert)
    (t1 t2 : Q) (call1 call2 : AlertCall Cpu.AlertType) :
  alert_type (config (call_state call1))
  = alert_type (config (call_state call2)) ->
  Display.update
    (Display.update active_alerts (Cpu.generate_alert t1 call1)).1
    (Cpu.generate_alert t2 call2)
  = Display.update active_alerts (Cpu.generate_alert t2 call2).
Proof.
  intros Hty. unfold Display.update, Cpu.generate_alert. cbn.
  unfold Display.add_active_alert. cbn. rewrite Hty.
  rewrite insert_insert_eq. reflexivity.
Qed.

Lemma display_one_alert_per_type_witness :
  let state := mkState Cpu.core_usage_high_config (Some 1700000000) 0
                       (PyFloat 97) false in
  let call c := mkCall state (mkContext (Some c) None None None) in
  (Display.update
     (Display.update ∅ (Cpu.generate_alert 1700000030 (call 0%Z))).1
     (Cpu.generate_alert 1700000031 (call 1%Z))).1
  = (Display.update ∅ (Cpu.generate_alert 1700000031 (call 1%Z))).1.
Proof.
  intros state call.
  rewrite (display_one_alert_per_type ∅ 1700000030 1700000031
             (call 0%Z) (call 1%Z) eq_refl).
  reflexivity.
Defined.

(** X22: an alert the display has been handed is listed under the name of
    its alert type until it is more than 120 seconds old, with its age
    brought up to date, and is removed by the first [update_alert_ages]
    after that. *)
Theorem display_alert_expires (active_alerts : gmap string Display.Alert)
    (t now : Q) (call : AlertCall Cpu.AlertType) :
  let event := Cpu.generate_alert t call in
  let shown :=
    Display.update_alert_ages now (Display.update active_alerts event).1
    !! Cpu.alert_type_name (alert_type (config (call_state call))) in
  (now - t <= 120 ->
   shown = Some (Display.mkAlert (message event) t (data event) (now - t)))
  /\ (120 < now - t -> shown = None).
Proof.
  intros event shown. unfold shown, Display.update_alert_ages.
  rewrite lookup_omap.
  unfold event, Display.update, Cpu.generate_alert. cbn.
  unfold Display.add_active_alert. cbn. rewrite lookup_insert_eq. cbn.
  split; intros H.
  - apply gt_bool_false in H. rewrite H. reflexivity.
  - apply gt_bool_true in H. rewrite H. reflexivity.
Qed.

Lemma display_alert_expires_witness :
  let state := mkState Cpu.cpu_usage_high_config (Some 1700000000) 0
                       (PyFloat 97) false in
  let call := mkCall state no_context in
  Display.update_alert_ages 1700000200
    (Display.update ∅ (Cpu.generate_alert 1700000060 call)).1
  !! "CPU_USAGE_HIGH"
  = None.
Proof.
  intros state call.
  apply (proj2 (display_alert_expires ∅ 1700000060 1700000200 call)).
  closed_Q.
Defined.

(** ** Templates *)

Lemma replace_from_without_brace (rest new s : string) :
  ~ In "{"%char (list_ascii_of_string s) ->
  replace_from (String "{" rest) new O s = s.
Proof.
  induction s as [|c s IH]; intros Hs; [reflexivity|].
  cbn [replace_from String.prefix].
  destruct (Ascii.ascii_dec "{" c) as [<-|_].
  - exfalso. apply Hs. left. reflexivity.
  - f_equal. apply IH. intros Hin. apply Hs. right. exact Hin.
Qed.

Lemma replace_without_brace (name new s : string) :
  ~ In "{"%char (list_ascii_of_string s) ->
  replace ("{" ++ name ++ "}") new s = s.
Proof.
  apply (replace_from_without_brace (name ++ "}") new s).
Qed.

Lemma substitute_without_brace (vars : list (string * option string))
    (s : string) :
  ~ In "{"%char (list_ascii_of_string s) ->
  substitute vars s = s.
Proof.
  intros Hs. induction vars as [|[name [value|]] vars IH];
    [reflexivity| |exact IH].
  cbn [substitute]. rewrite replace_without_brace by exact Hs. exact IH.
Qed.

(** X23: a message template without an opening brace is the message of the
    alert, letter for letter, in both monitors. *)
Theorem message_without_placeholder_is_kept (now : Q) (ctx : AlertContext) :
  (forall state : AlertState Cpu.AlertType,
     ~ In "{"%char (list_ascii_of_string (alert_message (config state))) ->
     Cpu.format_alert_message now state ctx = alert_message (config state))
  /\ (forall state : AlertState Net.NetworkAlertType,
        ~ In "{"%char
             (list_ascii_of_string (alert_message (config state))) ->
        Net.format_alert_message now state ctx
        = alert_message (config state)).
Proof.
  split; intros state Hs; apply substitute_without_brace, Hs.
Qed.

Lemma message_without_placeholder_is_kept_witness :
  let cfg := new_config (PyFloat 85) 60 WARNING Cpu.CPU_USAGE_HIGH
                        "CPU is busy" in
  Cpu.format_alert_message 1700000060
    (mkState cfg (Some 1700000000) 0 (PyFloat 97) false) no_context
  = "CPU is busy".
Proof.
  intros cfg.
  apply (proj1 (message_without_placeholder_is_kept 1700000060 no_context)
               (mkState cfg (Some 1700000000) 0 (PyFloat 97) false)).
  cbn. intros H. repeat (destruct H as [H|H]; [discriminate|]). exact H.
Defined.

(** * The monitors over the rounds of their loops *)

(** ** The duration gate in the monitors *)















